(** * CostGuardian: idle-resource lifecycle and savings aggregation

    A shallow embedding of the three Python modules of the repository

      - [pricing.py]                  (module [Pricing])
      - [cost_savings_calculator.py]  (module [Calculator])
      - [lambda_handler.py]           (modules [Decision], [Monitor] and
                                       [Costs])

    with the display helpers of [pricing.py] in module [Display] and the
    dashboard, archive and handler of [cost_savings_calculator.py] in
    module [Dashboard].

    Conventions of the embedding.

      - DynamoDB items are Python dicts: the two key attributes
        ([ResourceId], [Timestamp]) are record fields, every other
        attribute lives in a [gmap string Value].
      - Python floats are read as exact rationals ([Q]); numeric results
        are therefore compared with [==].
      - External services (EC2, S3, CloudWatch, SNS, DynamoDB failures)
        are an explicit oracle record; the code's own state (table
        contents, statistics dictionaries, the calls it issues) is
        threaded through a small state-and-exception monad. *)

From Stdlib Require Import ZArith QArith Qround Qabs String Ascii List Bool Lia.
From Stdlib Require Import DecimalString.
From Stdlib Require Import Lqa Sorted.
From stdpp Require Import base option list strings gmap.

Import ListNotations.
Local Open Scope string_scope.
Local Open Scope Z_scope.

(** ** Python values stored in items *)

Inductive Value : Type :=
| VStr (s : string)
| VNum (q : Q)
| VBool (b : bool)
| VNull.

(** [v == 'literal'] for a string literal. *)
Definition val_is (v : Value) (s : string) : bool :=
  match v with
  | VStr s' => String.eqb s' s
  | _ => false
  end.

(** [v in ['a', 'b', ...]] for a list of string literals. *)
Definition val_in (v : Value) (l : list string) : bool :=
  existsb (val_is v) l.

(** Python truthiness ([if v:]). *)
Definition truthy (v : Value) : bool :=
  match v with
  | VStr s => negb (String.eqb s EmptyString)
  | VNum q => negb (Qeq_bool q 0)
  | VBool b => b
  | VNull => false
  end.

(** A DynamoDB item of the history table.  [ResourceId] is the partition
    key and [Timestamp] the sort key, so both are always present. *)
Record Item : Type := mkItem {
  ResourceId : string;
  Timestamp : Z;
  attrs : gmap string Value
}.

(** [item.get(key, default)] for the non-key attributes. *)
Definition item_get (it : Item) (key : string) (dflt : Value) : Value :=
  default dflt (attrs it !! key).

(** ** pricing.py *)

Module Pricing.

(** An entry of a region's price dictionary: a fixed hourly rate or a
    dictionary keyed by instance type. *)
Inductive PriceEntry : Type :=
| Flat (rate : Q)
| ByType (tbl : gmap string Q).

Definition EC2_rates : list (string * Q) :=
  [ ("t2.nano", 0.0058); ("t2.micro", 0.0116); ("t2.small", 0.023);
    ("t2.medium", 0.0464); ("t2.large", 0.0928); ("t2.xlarge", 0.1856);
    ("t2.2xlarge", 0.3712);
    ("t3.nano", 0.0052); ("t3.micro", 0.0104); ("t3.small", 0.0208);
    ("t3.medium", 0.0416); ("t3.large", 0.0832); ("t3.xlarge", 0.1664);
    ("t3.2xlarge", 0.3328);
    ("t4g.nano", 0.0042); ("t4g.micro", 0.0084); ("t4g.small", 0.0168);
    ("t4g.medium", 0.0336); ("t4g.large", 0.0672);
    ("m5.large", 0.096); ("m5.xlarge", 0.192); ("m5.2xlarge", 0.384);
    ("m5.4xlarge", 0.768);
    ("c5.large", 0.085); ("c5.xlarge", 0.17); ("c5.2xlarge", 0.34);
    ("r5.large", 0.126); ("r5.xlarge", 0.252); ("r5.2xlarge", 0.504) ]%Q.

Definition RDS_rates : list (string * Q) :=
  [ ("db.t3.micro", 0.017); ("db.t3.small", 0.034); ("db.t3.medium", 0.068);
    ("db.t3.large", 0.136); ("db.t3.xlarge", 0.272); ("db.t3.2xlarge", 0.544);
    ("db.t4g.micro", 0.016); ("db.t4g.small", 0.032); ("db.t4g.medium", 0.064);
    ("db.t4g.large", 0.128);
    ("db.m5.large", 0.192); ("db.m5.xlarge", 0.384); ("db.m5.2xlarge", 0.768);
    ("db.r5.large", 0.24); ("db.r5.xlarge", 0.48); ("db.r5.2xlarge", 0.96) ]%Q.

Definition EBS_rates : list (string * Q) :=
  [ ("gp3", 0.08); ("gp2", 0.10); ("io1", 0.125); ("io2", 0.125);
    ("st1", 0.045); ("sc1", 0.015) ]%Q.

Definition us_east_1 : list (string * PriceEntry) :=
  [ ("EC2", ByType (list_to_map EC2_rates));
    ("RDS", ByType (list_to_map RDS_rates));
    ("NAT_GATEWAY", Flat 0.045%Q);
    ("ALB", Flat 0.0225%Q);
    ("NLB", Flat 0.0225%Q);
    ("ELB", Flat 0.025%Q);
    ("EBS", ByType (list_to_map EBS_rates));
    ("EIP", Flat 0.005%Q);
    ("VPC_ENDPOINT", Flat 0.01%Q);
    ("S3_BUCKET", Flat 0.0%Q);
    ("VPC", Flat 0.0%Q);
    ("SUBNET", Flat 0.0%Q) ].

Definition AWS_PRICING : gmap string (gmap string PriceEntry) :=
  {[ "us-east-1" := list_to_map us_east_1 ]}.

Definition HOURS_PER_MONTH : Q := 730%Q.

(** The resource types with a fixed hourly rate. *)
Definition fixed_rate_types : list string :=
  [ "NAT_GATEWAY"; "ALB"; "NLB"; "ELB"; "EIP"; "VPC_ENDPOINT";
    "S3_BUCKET"; "VPC"; "SUBNET" ].

(** [dict.get(key, default)] where the key is an arbitrary Python value:
    only a string can be a key of the price dictionaries. *)
Definition dict_get {A : Type} (d : gmap string A) (key : Value) : option A :=
  match key with
  | VStr s => d !! s
  | _ => None
  end.

(** [get_hourly_rate(resource_type, instance_type, region)].
    In the second branch a fixed-rate entry has no [.get]; the
    [AttributeError] is caught by the function's own handler, which
    returns [0.0].  In the first branch the entry of a fixed-rate type
    is returned as it is; every such entry of the table is a number
    (lemma [fixed_rate_entries_flat]). *)
Definition get_hourly_rate (resource_type instance_type : Value)
    (region : string) : Q :=
  let region_pricing := default ∅ (AWS_PRICING !! region) in
  if val_in resource_type fixed_rate_types then
    match dict_get region_pricing resource_type with
    | Some (Flat r) => r
    | Some (ByType _) => 0%Q
    | None => 0.0%Q
    end
  else
    match dict_get region_pricing resource_type with
    | Some (ByType service_pricing) =>
        default 0.0%Q (dict_get service_pricing instance_type)
    | Some (Flat _) => 0.0%Q
    | None => 0.0%Q
    end.

(** [calculate_monthly_savings(resource_type, instance_type, region)]. *)
Definition calculate_monthly_savings (resource_type instance_type : Value)
    (region : string) : Q :=
  let hourly_rate := get_hourly_rate resource_type instance_type region in
  (hourly_rate * HOURS_PER_MONTH)%Q.

End Pricing.


(** ** Results of calls that may raise *)

Inductive Result (A : Type) : Type :=
| Ok (a : A)
| Raise (e : string).
Arguments Ok {A} a.
Arguments Raise {A} e.

(** ** String formatting as the f-strings of the sources do it *)

Module PyFmt.

(** [str(n)] for an integer. *)
Definition str_int (n : Z) : string :=
  NilEmpty.string_of_int (Z.to_int n).

(** Two decimal digits, zero padded ([%02d] for [0 <= n < 100]). *)
Definition two_digits (n : Z) : string :=
  if n <? 10 then "0" ++ str_int n else str_int n.

(** Rounding of a non-negative rational to the nearest integer, ties to
    the even neighbour (the rounding of [format]). *)
Definition round_half_even (q : Q) : Z :=
  let f := Qfloor q in
  let r := (q - inject_Z f)%Q in
  match (r ?= 1 # 2)%Q with
  | Lt => f
  | Gt => f + 1
  | Eq => if Z.even f then f else f + 1
  end.

(** [f"{amount:.2f}"]. *)
Definition fmt_2f (amount : Q) : string :=
  let neg := match (amount ?= 0)%Q with Lt => true | _ => false end in
  let cents := round_half_even (Qabs amount * 100)%Q in
  (if neg then "-" else EmptyString) ++
  str_int (cents / 100) ++ "." ++ two_digits (cents mod 100).

(** The decimal expansion of a fraction [0 <= num/den < 1], at most
    [fuel] digits, stopping when the remainder is [0]. *)
Fixpoint frac_digits (fuel : nat) (num den : Z) : string :=
  match fuel with
  | O => EmptyString
  | S fuel' =>
      if num =? 0 then EmptyString
      else str_int (10 * num / den) ++ frac_digits fuel' (10 * num mod den) den
  end.

(** [str(d)] for a stored number (a [Decimal] of at most 38 digits, in
    plain notation). *)
Definition str_num (q : Q) : string :=
  let neg := match (q ?= 0)%Q with Lt => true | _ => false end in
  let a := Qabs q in
  let ip := Qfloor a in
  let den := Z.pos (Qden a) in
  let fr := frac_digits 38 (Qnum a - ip * den) den in
  (if neg then "-" else EmptyString) ++ str_int ip ++
  (if String.eqb fr EmptyString then EmptyString else "." ++ fr).

(** [str(v)] for a stored value, as an f-string interpolates it. *)
Definition py_str (v : Value) : string :=
  match v with
  | VStr s => s
  | VNum q => str_num q
  | VBool true => "True"
  | VBool false => "False"
  | VNull => "None"
  end.

(** ['\n'.join(lines)]. *)
Fixpoint join_lines (lines : list string) : string :=
  match lines with
  | [] => EmptyString
  | [l] => l
  | l :: rest => l ++ String "010"%char (join_lines rest)
  end.

(** Proleptic Gregorian calendar date of a day number counted from
    1970-01-01. *)
Definition civil_from_days (z : Z) : Z * Z * Z :=
  let z := z + 719468 in
  let era := z / 146097 in
  let doe := z - era * 146097 in
  let yoe := (doe - doe / 1460 + doe / 36524 - doe / 146096) / 365 in
  let y := yoe + era * 400 in
  let doy := doe - (365 * yoe + yoe / 4 - yoe / 100) in
  let mp := (5 * doy + 2) / 153 in
  let d := doy - (153 * mp + 2) / 5 + 1 in
  let m := if mp <? 10 then mp + 3 else mp - 9 in
  (if m <=? 2 then y + 1 else y, m, d).

(** Day number of a calendar date. *)
Definition days_from_civil (y m d : Z) : Z :=
  let y := if m <=? 2 then y - 1 else y in
  let era := y / 400 in
  let yoe := y - era * 400 in
  let doy := (153 * (if 2 <? m then m - 3 else m + 9) + 2) / 5 + d - 1 in
  let doe := yoe * 365 + yoe / 4 - yoe / 100 + doy in
  era * 146097 + doe - 719468.

(** [datetime.fromtimestamp(ts).strftime('%Y-%m-%d')]; the Lambda runtime
    runs in UTC. *)
Definition strftime_ymd (ts : Z) : string :=
  let '(y, m, d) := civil_from_days (ts / 86400) in
  str_int y ++ "-" ++ two_digits m ++ "-" ++ two_digits d.

(** [int(datetime(year, month, 1).timestamp())], in UTC. *)
Definition month_start_timestamp (y m : Z) : Z :=
  days_from_civil y m 1 * 86400.

End PyFmt.


(** ** The history table *)

(** The DynamoDB table: its items, and whether the service answers.  A
    call on an unreachable table raises. *)
Record Table : Type := mkTable {
  items : list Item;
  reachable : bool
}.

(** [table.scan(FilterExpression=...)], with the pages of the paginated
    answer concatenated as the callers' [while 'LastEvaluatedKey'] loops
    do. *)
Definition table_scan (tbl : Table) (flt : Item -> bool) : Result (list Item) :=
  if reachable tbl then Ok (List.filter flt (items tbl))
  else Raise "ClientError".

(** [ProjectionExpression]: only the listed attributes are returned. *)
Definition project (keep : list string) (it : Item) : Item :=
  mkItem (ResourceId it) (Timestamp it)
         (filter (fun kv => bool_decide (kv.1 ∈ keep)) (attrs it)).

(** ** cost_savings_calculator.py *)

Module Calculator.

Import Pricing PyFmt.

(** An element of [detailed_resources]. *)
Record DetailedResource : Type := mkDetail {
  date : string;
  resource_id : string;
  resource_type : Value;
  instance_type : Value;
  monthly_savings : Q
}.

(** A value of the [savings_by_service] dictionary. *)
Record ServiceSavings : Type := mkService {
  count : Z;
  savings : Q
}.

(** The dictionary returned by [calculate_savings] ([generated_at], a
    wall-clock stamp, is left out).  [savings_by_service] keeps the
    insertion order of the Python dict. *)
Record SavingsData : Type := mkSavings {
  month : string;
  total_savings : Q;
  total_resources : Z;
  savings_by_service : list (string * ServiceSavings);
  detailed_resources : list DetailedResource
}.

(** [#status IN (:deleted, :stopped)]. *)
Definition status_deleted_or_stopped (it : Item) : bool :=
  match attrs it !! "Status" with
  | Some v => val_in v ["DELETED"; "STOPPED"]
  | None => false
  end.

(** [#ts BETWEEN :start AND :end] (both ends included). *)
Definition ts_between (lo hi : Z) (it : Item) : bool :=
  (lo <=? Timestamp it) && (Timestamp it <=? hi).

(** The instance type [calculate_savings] prices a record with. *)
Definition select_instance_type (resource : Item) : Value :=
  let resource_type := item_get resource "ResourceType" (VStr "Unknown") in
  if val_in resource_type fixed_rate_types then resource_type
  else if val_is resource_type "EBS" then
    item_get resource "VolumeType" (VStr "gp3")
  else
    item_get resource "InstanceType"
      (item_get resource "DBInstanceClass" (VStr "Unknown")).

(** [savings_by_service[key]['count'] += 1; ...['savings'] += amount],
    creating the entry first when the key is new. *)
Fixpoint add_service (key : string) (amount : Q)
    (d : list (string * ServiceSavings)) : list (string * ServiceSavings) :=
  match d with
  | [] => [(key, mkService (0 + 1) (0.0 + amount)%Q)]
  | (k, s) :: rest =>
      if String.eqb k key
      then (k, mkService (count s + 1) (savings s + amount)%Q) :: rest
      else (k, s) :: add_service key amount rest
  end.

(** One iteration of [for resource in deleted_resources].  A record is
    aggregated only when its monthly savings are positive, and then its
    resource type is a key of the price table, hence a string. *)
Definition savings_step (region : string)
    (acc : list (string * ServiceSavings) * list DetailedResource)
    (resource : Item) : list (string * ServiceSavings) * list DetailedResource :=
  let '(by_service, detailed) := acc in
  let resource_type := item_get resource "ResourceType" (VStr "Unknown") in
  let resource_id := ResourceId resource in
  let timestamp := Timestamp resource in
  let instance_type := select_instance_type resource in
  let monthly_savings :=
    calculate_monthly_savings resource_type instance_type region in
  if Qlt_le_dec 0 monthly_savings then
    (add_service (py_str resource_type) monthly_savings by_service,
     (detailed ++ [mkDetail (strftime_ymd timestamp) resource_id
                            resource_type instance_type monthly_savings])%list)
  else acc.

(** [sum(s['savings'] for s in savings_by_service.values())]. *)
Definition sum_savings (d : list (string * ServiceSavings)) : Q :=
  fold_left (fun acc ks => (acc + savings ks.2)%Q) d 0%Q.

(** The reduction of [calculate_savings] over the scanned records. *)
Definition aggregate (region : string) (month : string)
    (deleted_resources : list Item) : SavingsData :=
  let '(by_service, detailed) :=
    fold_left (savings_step region) deleted_resources ([], []) in
  mkSavings month (sum_savings by_service)
            (Z.of_nat (length detailed)) by_service detailed.

(** ["%Y-%m"] of a year and a month. *)
Definition month_str (y m : Z) : string :=
  str_int y ++ "-" ++ two_digits m.

(** [calculate_savings(month)], the month given by its year and number. *)
Definition calculate_savings (region : string) (tbl : Table) (y m : Z)
    : Result SavingsData :=
  let month_start_ts := month_start_timestamp y m in
  let month_end_ts :=
    if m =? 12 then month_start_timestamp (y + 1) 1
    else month_start_timestamp y (m + 1) in
  match table_scan tbl (fun it => status_deleted_or_stopped it &&
                                  ts_between month_start_ts month_end_ts it) with
  | Raise e => Raise e
  | Ok deleted_resources => Ok (aggregate region (month_str y m) deleted_resources)
  end.

(** [calculate_cumulative_savings()]. *)
Definition calculate_cumulative_savings (region : string) (tbl : Table) : Q :=
  match table_scan tbl status_deleted_or_stopped with
  | Raise _ => 0.0%Q
  | Ok found =>
      fold_left
        (fun total item0 =>
           let item := project ["ResourceType"; "InstanceType"] item0 in
           let resource_type := item_get item "ResourceType" (VStr "Unknown") in
           let instance_type := item_get item "InstanceType" (VStr "Unknown") in
           (total + calculate_monthly_savings resource_type instance_type region)%Q)
        found 0.0%Q
  end.

(** The data row of a detailed resource. *)
Definition csv_row (resource : DetailedResource) : string :=
  date resource ++ "," ++
  resource_id resource ++ "," ++
  py_str (resource_type resource) ++ "," ++
  py_str (instance_type resource) ++ "," ++
  "$" ++ fmt_2f (monthly_savings resource).

Definition csv_header : string :=
  "Date,Resource ID,Resource Type,Instance Type,Monthly Savings".

(** The list [lines] that [generate_csv_report] builds. *)
Definition csv_lines (savings_data : SavingsData) : list string :=
  ([csv_header]
   ++ map csv_row (detailed_resources savings_data)
   ++ [EmptyString]
   ++ [("Total Savings,,,$" ++ fmt_2f (total_savings savings_data))%string]
   ++ [("Total Resources,,," ++ str_int (total_resources savings_data))%string])%list.

(** [generate_csv_report(savings_data)]. *)
Definition generate_csv_report (savings_data : SavingsData) : string :=
  join_lines (csv_lines savings_data).

End Calculator.

(** ** lambda_handler.py: configuration and decision logic *)

Module Decision.

(** The module-level settings the decision logic reads. *)
Record Config : Type := mkConfig {
  GRACE_PERIOD_DAYS : Z;
  SKIP_QUARANTINE : bool;
  IDLE_CHECKS_BEFORE_ACTION : Z;
  CPU_IDLE_THRESHOLD : Q;
  S3_BUCKET : string
}.

(** The values the source assigns ([S3_BUCKET] comes from the
    environment). *)
Definition source_config (bucket : string) : Config :=
  mkConfig 0 true 1 5.0%Q bucket.

Inductive Action : Type := ACTIVE | WARN | QUARANTINE | DELETE.

(** [needle in hay] for strings. *)
Fixpoint contains (needle hay : string) : bool :=
  String.prefix needle hay ||
  match hay with
  | EmptyString => false
  | String _ hay' => contains needle hay'
  end.

(** The monthly price table local to [get_instance_cost]. *)
Definition instance_pricing : gmap string Q :=
  list_to_map
    [ ("t2.nano", 4.25); ("t2.micro", 8.50); ("t2.small", 17.00);
      ("t2.medium", 33.87); ("t2.large", 67.74); ("t2.xlarge", 135.48);
      ("t2.2xlarge", 270.96);
      ("t3.nano", 3.80); ("t3.micro", 7.59); ("t3.small", 15.18);
      ("t3.medium", 30.37); ("t3.large", 60.74); ("t3.xlarge", 121.47);
      ("t3.2xlarge", 242.94);
      ("m5.large", 69.35); ("m5.xlarge", 138.70); ("m5.2xlarge", 277.40);
      ("m5.4xlarge", 554.80);
      ("c5.large", 61.32); ("c5.xlarge", 122.63); ("c5.2xlarge", 245.26);
      ("r5.large", 90.40); ("r5.xlarge", 180.79); ("r5.2xlarge", 361.58) ]%Q.

(** The estimate for a type that is not in [instance_pricing]. *)
Definition size_bucket_estimate (instance_type : string) : Q :=
  if contains "nano" instance_type then 5
  else if contains "micro" instance_type then 10
  else if contains "small" instance_type then 20
  else if contains "medium" instance_type then 35
  else if contains "large" instance_type then 70
  else if contains "xlarge" instance_type && negb (contains "2x" instance_type)
  then 140
  else 200.

(** [get_instance_cost(instance_type)]. *)
Definition get_instance_cost (instance_type : string) : Q :=
  match instance_pricing !! instance_type with
  | Some estimated_cost =>
      if truthy (VNum estimated_cost) then estimated_cost
      else size_bucket_estimate instance_type
  | None => size_bucket_estimate instance_type
  end.

(** [int(x)] of a float: truncation towards zero. *)
Definition py_int (x : Q) : Z :=
  if Qle_bool 0 x then Qfloor x else Qceiling x.

(** Insertion of an item into a list kept in ascending [Timestamp]
    order. *)
Fixpoint insert_by_timestamp (it : Item) (l : list Item) : list Item :=
  match l with
  | [] => [it]
  | x :: rest =>
      if Timestamp it <? Timestamp x then it :: x :: rest
      else x :: insert_by_timestamp it rest
  end.

(** [table.query(KeyConditionExpression=Key('ResourceId').eq(rid) &
    Key('Timestamp').gte(cutoff), ScanIndexForward=True)]: the items of
    the resource from the cutoff on, oldest first. *)
Definition table_query (tbl : Table) (resource_id : string) (cutoff : Z)
    : Result (list Item) :=
  if reachable tbl then
    Ok (fold_right insert_by_timestamp []
          (List.filter (fun it => String.eqb (ResourceId it) resource_id &&
                                  (cutoff <=? Timestamp it)) (items tbl)))
  else Raise "ClientError".

(** [get_resource_history(table, resource_id, days)] at wall-clock time
    [now]. *)
Definition get_resource_history (tbl : Table) (now : Q)
    (resource_id : string) (days : Z) : list Item :=
  let cutoff_timestamp := py_int (now - inject_Z (days * 86400))%Q in
  match table_query tbl resource_id cutoff_timestamp with
  | Ok found => found
  | Raise _ => []
  end.

(** The loop [for entry in reversed(history)] of [determine_action],
    over the already reversed history.  It yields [idle_count] and
    [quarantine_date]. *)
Fixpoint scan_history (newest_first : list Item) (idle_count : Z)
    : Z * option Q :=
  match newest_first with
  | [] => (idle_count, None)
  | entry :: older =>
      let status := item_get entry "Status" (VStr "UNKNOWN") in
      if val_is status "ACTIVE" then (idle_count, None)
      else if val_in status ["IDLE"; "IDLE_WARNING"] then
        scan_history older (idle_count + 1)
      else if val_is status "QUARANTINE" then
        let quarantine_date_raw := Timestamp entry in
        let quarantine_date :=
          if negb (quarantine_date_raw =? 0)
          then Some (inject_Z quarantine_date_raw) else None in
        (idle_count + 1, quarantine_date)
      else scan_history older idle_count
  end.

(** [if quarantine_date:] on an optional float. *)
Definition date_set (quarantine_date : option Q) : bool :=
  match quarantine_date with
  | Some d => truthy (VNum d)
  | None => false
  end.

(** [determine_action(history, current_cpu)], evaluated at wall-clock
    time [now]. *)
Definition determine_action (cfg : Config) (now : Q) (history : list Item)
    (current_cpu : Q) : Action * Z * option Q :=
  if Qle_bool (CPU_IDLE_THRESHOLD cfg) current_cpu then (ACTIVE, 0, None)
  else
    let '(idle_count, quarantine_date) := scan_history (rev history) 0 in
    if date_set quarantine_date then
      let current_time := now in
      let days_since_quarantine :=
        ((current_time - default 0%Q quarantine_date) / 86400)%Q in
      if Qle_bool (inject_Z (GRACE_PERIOD_DAYS cfg)) days_since_quarantine
      then (DELETE, idle_count, quarantine_date)
      else (QUARANTINE, idle_count, quarantine_date)
    else if IDLE_CHECKS_BEFORE_ACTION cfg <=? idle_count then
      if SKIP_QUARANTINE cfg then (DELETE, idle_count, None)
      else (QUARANTINE, idle_count, None)
    else if 1 <=? idle_count then (WARN, idle_count, None)
    else (WARN, 0, None).

End Decision.

(** ** lambda_handler.py: the monitoring cycle *)

Module Monitor.

Import Decision.

(** *** Resources as the AWS describe calls return them *)

Record Instance : Type := mkInstance {
  InstanceId : string;
  State_Name : string;
  Tags : list (string * string);
  InstanceType : string
}.

Record NatGateway : Type := mkNat {
  NatGatewayId : string;
  nat_Tags : list (string * string)
}.

Record Address : Type := mkAddress {
  AllocationId : string;
  PublicIp : string;
  eip_Tags : list (string * string);
  AssociationId : option string;
  eip_InstanceId : option string;
  NetworkInterfaceId : option string
}.

Record DBInstance : Type := mkDB {
  DBInstanceIdentifier : string;
  DBInstanceStatus : string;
  TagList : list (string * string);
  DBInstanceClass : string;
  Engine : string
}.

Record Volume : Type := mkVolume {
  VolumeId : string;
  vol_State : string;
  Size : Z;
  VolumeType : string;
  vol_Tags : list (string * string)
}.

Record LoadBalancer : Type := mkLB {
  LoadBalancerArn : string;
  LoadBalancerName : string;
  lb_Type : string
}.

Record Vpc : Type := mkVpc {
  VpcId : string;
  vpc_Tags : list (string * string);
  IsDefault : bool;
  CidrBlock : string
}.

(** [{tag['Key']: tag['Value'] for tag in tags}]: a later tag overrides
    an earlier one with the same key. *)
Definition tags_dict (tags : list (string * string)) : gmap string string :=
  list_to_map (rev tags).

(** [tags.get('CostGuardian') == 'Ignore']. *)
Definition ignore_tagged (tags : gmap string string) : bool :=
  match tags !! "CostGuardian" with
  | Some v => String.eqb v "Ignore"
  | None => false
  end.

(** What [s3_client.get_bucket_lifecycle_configuration] does. *)
Inductive LifecycleProbe : Type :=
| HasLifecycle
| ClientError (code : string)
| ProbeRaises.

(** *** The outside world

    Every helper of the source that talks to AWS catches its own
    exceptions and returns a value; the oracle gives that value per
    resource.  Calls that the handler itself issues report a result or
    raise. *)
Record Cloud : Type := mkCloud {
  now : Q;
  s3_bucket_exists : bool;
  sns_topic_exists : bool;
  query_raises : string -> bool;
  put_item_raises : Item -> bool;
  (* EC2 instances *)
  describe_instances : Result (list Instance);
  get_cpu_utilization : string -> Q;
  backup_instance_config : string -> bool;
  stop_instance : string -> option string;
  list_backup_objects : string -> Result Z;
  terminate_instance : string -> bool;
  delete_security_groups : string -> list string;
  (* NAT gateways *)
  get_all_nat_gateways : list NatGateway;
  check_nat_gateway_usage : string -> bool;
  backup_nat_gateway_config : string -> bool;
  delete_nat_gateway : string -> bool * bool;
  (* Elastic IPs *)
  get_all_elastic_ips : list Address;
  release_elastic_ip : string -> bool;
  (* RDS *)
  get_all_rds_instances : list DBInstance * bool;
  check_rds_usage : string -> bool;
  backup_rds_config : string -> bool;
  create_rds_snapshot : string -> option string;
  stop_rds_instance : string -> bool;
  delete_rds_instance : string -> bool;
  (* S3 *)
  get_all_s3_buckets : list string;
  get_bucket_tags : string -> Result (list (string * string));
  is_bucket_empty : string -> bool;
  delete_empty_bucket : string -> bool;
  get_bucket_lifecycle_configuration : string -> LifecycleProbe;
  apply_lifecycle_policy : string -> bool;
  (* EBS *)
  get_all_ebs_volumes : list Volume;
  backup_ebs_volume_config : string -> bool;
  create_ebs_snapshot : string -> option string;
  delete_ebs_volume : string -> bool;
  (* load balancers *)
  get_all_load_balancers : list LoadBalancer;
  describe_tags : string -> Result (list (string * string));
  check_load_balancer_usage : string -> bool;
  backup_load_balancer_config : string -> bool;
  delete_load_balancer : string -> bool;
  (* VPCs *)
  get_all_vpcs : list Vpc;
  is_vpc_empty : string -> bool;
  backup_vpc_config : string -> bool;
  delete_vpc : string -> bool
}.

(** The switches and thresholds of the later steps. *)
Record Switches : Type := mkSwitches {
  ENABLE_LB_MONITORING : bool;
  LB_IDLE_CHECKS : Z;
  ENABLE_VPC_CLEANUP : bool;
  VPC_IDLE_CHECKS : Z
}.

Definition source_switches : Switches := mkSwitches true 1 true 1.

(** *** State of a run *)

(** The side-effecting requests the handler issues, in order. *)
Inductive Call : Type :=
| Checking (kind resource : string)
| Backup (kind resource : string)
| VerifyBackup (resource : string)
| Snapshot (kind resource : string)
| Stop (kind resource : string)
| Destroy (kind resource : string)
| Lifecycle (resource : string)
| Alert (kind resource action : string)
| Summary (name : string) (values : gmap string Z)
| Metric (name : string) (value : Q).

(** The table, the statistics dictionaries held in local variables
    (by variable name), and the requests issued so far. *)
Record State : Type := mkState {
  table : Table;
  locals : gmap string (gmap string Z);
  calls : list Call
}.

(** The dictionary [lambda_handler] returns. *)
Record Response : Type := mkResponse {
  statusCode : Z;
  body_stats : option (gmap string Z);
  body_error : option string
}.

(** Computations that read and change the state and may raise; the
    state reached when an exception is raised is kept. *)
Definition M (A : Type) : Type := State -> Result A * State.

Definition ret {A : Type} (a : A) : M A := fun st => (Ok a, st).

Definition bind {A B : Type} (m : M A) (k : A -> M B) : M B :=
  fun st =>
    match m st with
    | (Ok a, st') => k a st'
    | (Raise e, st') => (Raise e, st')
    end.

Definition raise {A : Type} (e : string) : M A := fun st => (Raise e, st).

(** [try: body except Exception as e: handler(e)]. *)
Definition try_except {A : Type} (body : M A) (handler : string -> M A) : M A :=
  fun st =>
    match body st with
    | (Ok a, st') => (Ok a, st')
    | (Raise e, st') => handler e st'
    end.

#[global] Instance M_ret : MRet M := @ret.
#[global] Instance M_bind : MBind M := fun A B k m => bind m k.

(** *** Primitive steps *)

Definition issue (c : Call) : M unit :=
  fun st => (Ok tt, mkState (table st) (locals st) (calls st ++ [c])).

(** [name = {...}]. *)
Definition set_local (name : string) (d : list (string * Z)) : M unit :=
  fun st =>
    (Ok tt, mkState (table st) (<[name := list_to_map d]> (locals st)) (calls st)).

(** Reading a local variable; an unbound one raises [NameError]. *)
Definition read_local (name : string) : M (gmap string Z) :=
  fun st =>
    match locals st !! name with
    | Some d => (Ok d, st)
    | None => (Raise "NameError", st)
    end.

(** [name in locals()]. *)
Definition in_locals (name : string) : M bool :=
  fun st => (Ok (bool_decide (is_Some (locals st !! name))), st).

(** [name[key] += 1] on a statistics dictionary, whose keys are all
    initialised when it is created. *)
Definition bump (name key : string) : M unit :=
  fun st =>
    let d := default ∅ (locals st !! name) in
    (Ok tt,
     mkState (table st)
             (<[name := <[key := default 0 (d !! key) + 1]> d]> (locals st))
             (calls st)).

(** [name[key] = value]. *)
Definition set_key (name key : string) (value : Z) : M unit :=
  fun st =>
    let d := default ∅ (locals st !! name) in
    (Ok tt,
     mkState (table st) (<[name := <[key := value]> d]> (locals st)) (calls st)).

(** The same (partition, sort) key. *)
Definition same_key (a b : Item) : bool :=
  String.eqb (ResourceId a) (ResourceId b) && (Timestamp a =? Timestamp b).

(** [table.put_item(Item=...)]: an item with the same key is replaced. *)
Definition put_item (c : Cloud) (it : Item) : M unit :=
  fun st =>
    if put_item_raises c it || negb (reachable (table st))
    then (Raise "ClientError", st)
    else
      (Ok tt,
       mkState (mkTable (List.filter (fun x => negb (same_key x it))
                                     (items (table st)) ++ [it])
                        (reachable (table st)))
               (locals st) (calls st)).

(** [get_resource_history(table, resource_id, days=30)]. *)
Definition resource_history (c : Cloud) (resource_id : string) : M (list Item) :=
  fun st =>
    let tbl := mkTable (items (table st))
                       (reachable (table st) && negb (query_raises c resource_id)) in
    (Ok (get_resource_history tbl (now c) resource_id 30), st).

(** [for x in xs: body(x)]. *)
Fixpoint for_each {R : Type} (body : R -> M unit) (xs : list R) : M unit :=
  match xs with
  | [] => mret tt
  | x :: rest => body x ;; for_each body rest
  end.

(** [if cond: body]. *)
Definition when (cond : bool) (body : M unit) : M unit :=
  if cond then body else mret tt.

(** The per-resource guard of every step:
    [try: body except Exception: name['errors'] += 1]. *)
Definition isolate (name : string) (body : M unit) : M unit :=
  try_except body (fun _ => bump name "errors").

(** The counting loops of steps 3 to 9: statuses in [counted] add one,
    a status in [stops] ends the scan, anything else is passed over. *)
Fixpoint count_streak (counted stops : list string) (newest_first : list Item)
    : Z :=
  match newest_first with
  | [] => 0
  | entry :: older =>
      match attrs entry !! "Status" with
      | Some status =>
          if val_in status counted then 1 + count_streak counted stops older
          else if val_in status stops then 0
          else count_streak counted stops older
      | None => count_streak counted stops older
      end
  end.

(** An item written by the handler: the keys, the resource type, the
    status and further attributes.  Attributes that only carry display
    text (ISO dates, stringified metrics) are not represented. *)
Definition record (c : Cloud) (resource_id resource_type status : string)
    (more : list (string * Value)) : Item :=
  mkItem resource_id (py_int (now c))
         (list_to_map
            (("ResourceType", VStr resource_type) ::
             ("Status", VStr status) :: more)).

(** [f's3://{S3_BUCKET}/{folder}/{resource_id}/']. *)
Definition backup_path (cfg : Config) (folder resource_id : string) : Value :=
  VStr ("s3://" ++ S3_BUCKET cfg ++ "/" ++ folder ++ "/" ++ resource_id ++ "/").

(** [validate_configuration()]: the three probes, any failure re-raised. *)
Definition validate_configuration (c : Cloud) : M bool :=
  fun st =>
    if negb (s3_bucket_exists c) then (Raise "ClientError", st)
    else if negb (reachable (table st)) then (Raise "ClientError", st)
    else if negb (sns_topic_exists c) then (Raise "ClientError", st)
    else (Ok true, st).

(** *** Step 2: EC2 instances *)

Definition instance_name (tags : gmap string string) : Value :=
  VStr (default "Unnamed" (tags !! "Name")).

(** The branch [action == 'DELETE'], with its own [try]. *)
Definition ec2_delete (cfg : Config) (c : Cloud) (instance : Instance)
    (tags : gmap string string) (quarantine_date : option Q) : M unit :=
  let instance_id := InstanceId instance in
  try_except
    (issue (VerifyBackup instance_id) ;;
     match list_backup_objects c instance_id with
     | Raise e => raise e
     | Ok key_count =>
         if 0 <? key_count then
           issue (Destroy "EC2" instance_id) ;;
           if terminate_instance c instance_id then
             let deleted_sgs := delete_security_groups c instance_id in
             put_item c
               (record c instance_id "EC2" "DELETED"
                  [ ("ConfigBackupPath", backup_path cfg "ec2-configs" instance_id);
                    ("QuarantineDate",
                     match quarantine_date with Some d => VNum d | None => VNull end);
                    ("InstanceType", VStr (InstanceType instance));
                    ("InstanceName", instance_name tags);
                    ("EstimatedMonthlySavings",
                     VNum (get_instance_cost (InstanceType instance))) ]) ;;
             issue (Alert "EC2" instance_id "DELETED")
           else bump "stats" "errors"
         else bump "stats" "errors"
     end)
    (fun _ => bump "stats" "errors").

(** First half of the per-instance [try]: history, CPU reading and
    decision. *)
Definition ec2_decide (cfg : Config) (c : Cloud) (instance : Instance)
    : M (Action * Z * option Q) :=
  let instance_id := InstanceId instance in
  let instance_state := State_Name instance in
  history ← resource_history c instance_id ;
  let cpu_usage :=
    if String.eqb instance_state "running"
    then get_cpu_utilization c instance_id else 0.0%Q in
  mret (determine_action cfg (now c) history cpu_usage).

(** Second half: the action taken on the decision. *)
Definition ec2_execute (cfg : Config) (c : Cloud) (instance : Instance)
    (tags : gmap string string) (decision : Action * Z * option Q) : M unit :=
  let instance_id := InstanceId instance in
  let instance_state := State_Name instance in
  let '(action, idle_count, quarantine_date) := decision in
  match action with
  | ACTIVE =>
      bump "stats" "active_instances" ;;
      put_item c
        (record c instance_id "EC2" "ACTIVE"
           [ ("InstanceType", VStr (InstanceType instance));
             ("InstanceName", instance_name tags) ])
  | WARN =>
      bump "stats" "idle_instances" ;;
      issue (Backup "EC2" instance_id) ;;
      when (backup_instance_config c instance_id) (bump "stats" "backed_up") ;;
      put_item c
        (record c instance_id "EC2" "IDLE_WARNING"
           [ ("ConfigBackupPath", backup_path cfg "ec2-configs" instance_id);
             ("IdleCount", VNum (inject_Z (idle_count + 1)));
             ("InstanceType", VStr (InstanceType instance));
             ("InstanceName", instance_name tags) ]) ;;
      when (idle_count =? 0) (issue (Alert "EC2" instance_id "IDLE_WARNING"))
  | QUARANTINE =>
      bump "stats" "idle_instances" ;;
      if String.eqb instance_state "running" then
        issue (Backup "EC2" instance_id) ;;
        issue (Stop "EC2" instance_id) ;;
        match stop_instance c instance_id with
        | Some ami_id =>
            put_item c
              (record c instance_id "EC2" "QUARANTINE"
                 [ ("ConfigBackupPath", backup_path cfg "ec2-configs" instance_id);
                   ("AMI_Backup", VStr ami_id);
                   ("IdleCount", VNum (inject_Z idle_count));
                   ("InstanceType", VStr (InstanceType instance));
                   ("InstanceName", instance_name tags) ]) ;;
            issue (Alert "EC2" instance_id "QUARANTINE")
        | None => bump "stats" "errors"
        end
      else
        put_item c
          (record c instance_id "EC2" "QUARANTINE"
             [ ("QuarantineDate",
                match quarantine_date with Some d => VNum d | None => VNull end);
               ("IdleCount", VNum (inject_Z idle_count));
               ("InstanceType", VStr (InstanceType instance));
               ("InstanceName", instance_name tags) ])
  | DELETE => ec2_delete cfg c instance tags quarantine_date
  end.

(** The body of the per-instance [try]. *)
Definition ec2_check (cfg : Config) (c : Cloud) (instance : Instance)
    (tags : gmap string string) : M unit :=
  decision ← ec2_decide cfg c instance ;
  ec2_execute cfg c instance tags decision.

(** One iteration of [for instance in all_instances]. *)
Definition ec2_iteration (cfg : Config) (c : Cloud) (instance : Instance)
    : M unit :=
  let instance_id := InstanceId instance in
  issue (Checking "EC2" instance_id) ;;
  if String.eqb (State_Name instance) "terminated" then mret tt
  else
    let tags := tags_dict (Tags instance) in
    if ignore_tagged tags then mret tt
    else
      isolate "stats" (ec2_check cfg c instance tags).

(** *** Step 3: NAT gateways *)

Definition nat_check (cfg : Config) (c : Cloud) (nat_gw : NatGateway) : M unit :=
  let nat_gw_id := NatGatewayId nat_gw in
  let is_idle := check_nat_gateway_usage c nat_gw_id in
  history ← resource_history c nat_gw_id ;
  let idle_count :=
    count_streak ["IDLE"; "IDLE_WARNING"] ["ACTIVE"] (rev history) in
  if negb is_idle then
    bump "nat_stats" "active" ;;
    put_item c (record c nat_gw_id "NAT_GATEWAY" "ACTIVE" [])
  else if idle_count <? 3 then
    bump "nat_stats" "idle" ;;
    issue (Backup "NAT_GATEWAY" nat_gw_id) ;;
    put_item c
      (record c nat_gw_id "NAT_GATEWAY" "IDLE_WARNING"
         [ ("IdleCount", VNum (inject_Z (idle_count + 1)));
           ("ConfigBackupPath", backup_path cfg "nat-gateway-configs" nat_gw_id) ]) ;;
    when (idle_count =? 0) (issue (Alert "NAT_GATEWAY" nat_gw_id "IDLE_WARNING"))
  else
    bump "nat_stats" "idle" ;;
    issue (Backup "NAT_GATEWAY" nat_gw_id) ;;
    issue (Destroy "NAT_GATEWAY" nat_gw_id) ;;
    let '(delete_success, eip_released) := delete_nat_gateway c nat_gw_id in
    if delete_success then
      bump "nat_stats" "deleted" ;;
      put_item c
        (record c nat_gw_id "NAT_GATEWAY" "DELETED"
           [ ("ConfigBackupPath", backup_path cfg "nat-gateway-configs" nat_gw_id);
             ("ElasticIpReleased", VBool eip_released);
             ("EstimatedMonthlySavings",
              VStr (if eip_released then "36.0" else "32.4")) ]) ;;
      issue (Alert "NAT_GATEWAY" nat_gw_id "DELETED")
    else bump "nat_stats" "errors".

Definition nat_iteration (cfg : Config) (c : Cloud) (nat_gw : NatGateway)
    : M unit :=
  issue (Checking "NAT_GATEWAY" (NatGatewayId nat_gw)) ;;
  if ignore_tagged (tags_dict (nat_Tags nat_gw)) then mret tt
  else
    isolate "nat_stats" (nat_check cfg c nat_gw).

(** *** Step 4: Elastic IPs *)

(** [is_elastic_ip_unattached(eip)], first component. *)
Definition is_elastic_ip_unattached (eip : Address) : bool :=
  let falsy (o : option string) :=
    match o with Some v => String.eqb v EmptyString | None => true end in
  falsy (AssociationId eip) && falsy (eip_InstanceId eip) &&
  falsy (NetworkInterfaceId eip).

Definition eip_check (c : Cloud) (eip : Address) : M unit :=
  let allocation_id := AllocationId eip in
  let public_ip := PublicIp eip in
  if negb (is_elastic_ip_unattached eip) then
    bump "eip_stats" "attached" ;;
    put_item c (record c allocation_id "ELASTIC_IP" "ATTACHED"
                  [ ("PublicIp", VStr public_ip) ])
  else
    bump "eip_stats" "unattached" ;;
    history ← resource_history c allocation_id ;
    let unattached_count :=
      count_streak ["UNATTACHED"] ["ATTACHED"] (rev history) in
    if unattached_count <? 3 then
      put_item c
        (record c allocation_id "ELASTIC_IP" "UNATTACHED"
           [ ("PublicIp", VStr public_ip);
             ("UnattachedCount", VNum (inject_Z (unattached_count + 1)));
             ("MonthlyCost", VStr "3.60") ]) ;;
      when (unattached_count =? 0)
           (issue (Alert "ELASTIC_IP" allocation_id "IDLE_WARNING"))
    else
      issue (Destroy "ELASTIC_IP" allocation_id) ;;
      if release_elastic_ip c allocation_id then
        bump "eip_stats" "released" ;;
        put_item c
          (record c allocation_id "ELASTIC_IP" "RELEASED"
             [ ("PublicIp", VStr public_ip);
               ("EstimatedMonthlySavings", VNum 3.60%Q) ]) ;;
        issue (Alert "ELASTIC_IP" allocation_id "RELEASED")
      else bump "eip_stats" "errors".

Definition eip_iteration (c : Cloud) (eip : Address) : M unit :=
  issue (Checking "ELASTIC_IP" (AllocationId eip)) ;;
  if ignore_tagged (tags_dict (eip_Tags eip)) then mret tt
  else isolate "eip_stats" (eip_check c eip).

(** *** Step 5: RDS instances *)

(** The newest [STOPPED] entry's timestamp, if it is truthy. *)
Fixpoint find_stopped_date (newest_first : list Item) : option Z :=
  match newest_first with
  | [] => None
  | entry :: older =>
      match attrs entry !! "Status" with
      | Some status =>
          if val_is status "STOPPED"
          then (if Timestamp entry =? 0 then None else Some (Timestamp entry))
          else find_stopped_date older
      | None => find_stopped_date older
      end
  end.

Definition rds_check (cfg : Config) (c : Cloud) (db_instance : DBInstance)
    : M unit :=
  let db_instance_identifier := DBInstanceIdentifier db_instance in
  let db_status := DBInstanceStatus db_instance in
  history ← resource_history c db_instance_identifier ;
  let is_idle :=
    if String.eqb db_status "available"
    then check_rds_usage c db_instance_identifier else true in
  let idle_count :=
    count_streak ["IDLE"; "IDLE_WARNING"] ["ACTIVE"] (rev history) in
  let class_engine :=
    [ ("DBInstanceClass", VStr (DBInstanceClass db_instance));
      ("Engine", VStr (Engine db_instance)) ] in
  if negb is_idle then
    bump "rds_stats" "active" ;;
    put_item c (record c db_instance_identifier "RDS" "ACTIVE" class_engine)
  else if idle_count <? 3 then
    bump "rds_stats" "idle" ;;
    issue (Backup "RDS" db_instance_identifier) ;;
    put_item c
      (record c db_instance_identifier "RDS" "IDLE_WARNING"
         (("IdleCount", VNum (inject_Z (idle_count + 1))) ::
          ("ConfigBackupPath", backup_path cfg "rds-configs" db_instance_identifier) ::
          class_engine)) ;;
    when (idle_count =? 0) (issue (Alert "RDS" db_instance_identifier "IDLE_WARNING"))
  else
    bump "rds_stats" "idle" ;;
    issue (Backup "RDS" db_instance_identifier) ;;
    issue (Snapshot "RDS" db_instance_identifier) ;;
    match create_rds_snapshot c db_instance_identifier with
    | None => bump "rds_stats" "errors"
    | Some snapshot_id =>
        if String.eqb db_status "available" then
          issue (Stop "RDS" db_instance_identifier) ;;
          if stop_rds_instance c db_instance_identifier then
            bump "rds_stats" "stopped" ;;
            put_item c
              (record c db_instance_identifier "RDS" "STOPPED"
                 (("ConfigBackupPath",
                   backup_path cfg "rds-configs" db_instance_identifier) ::
                  ("SnapshotId", VStr snapshot_id) :: class_engine)) ;;
            issue (Alert "RDS" db_instance_identifier "STOPPED")
          else bump "rds_stats" "errors"
        else if String.eqb db_status "stopped" then
          match find_stopped_date (rev history) with
          | None => mret tt
          | Some stopped_date =>
              let days_stopped := ((now c - inject_Z stopped_date) / 86400)%Q in
              if Qle_bool 7 days_stopped then
                issue (Destroy "RDS" db_instance_identifier) ;;
                if delete_rds_instance c db_instance_identifier then
                  bump "rds_stats" "deleted" ;;
                  put_item c
                    (record c db_instance_identifier "RDS" "DELETED"
                       (("ConfigBackupPath",
                         backup_path cfg "rds-configs" db_instance_identifier) ::
                        ("SnapshotId", VStr snapshot_id) :: class_engine)) ;;
                  issue (Alert "RDS" db_instance_identifier "DELETED")
                else bump "rds_stats" "errors"
              else
                put_item c
                  (record c db_instance_identifier "RDS" "STOPPED"
                     [ ("StoppedDate", VNum (inject_Z stopped_date)) ])
          end
        else mret tt
    end.

Definition rds_iteration (cfg : Config) (c : Cloud) (db_instance : DBInstance)
    : M unit :=
  issue (Checking "RDS" (DBInstanceIdentifier db_instance)) ;;
  if negb (existsb (String.eqb (DBInstanceStatus db_instance))
                   ["available"; "stopped"]) then mret tt
  else if ignore_tagged (tags_dict (TagList db_instance)) then mret tt
  else isolate "rds_stats" (rds_check cfg c db_instance).

(** *** Step 6: S3 buckets *)

Definition s3_check (c : Cloud) (bucket_name : string) : M unit :=
  match get_bucket_tags c bucket_name with
  | Raise e => raise e
  | Ok tag_set =>
      let tags := tags_dict tag_set in
      if match tags !! "CostGuardianBucket" with
         | Some v => String.eqb v "Protected" || String.eqb v "Prime"
         | None => false
         end
      then bump "s3_stats" "protected"
      else if is_bucket_empty c bucket_name then
        bump "s3_stats" "empty" ;;
        history ← resource_history c bucket_name ;
        let empty_count :=
          count_streak ["EMPTY"] ["HAS_DATA"; "ACTIVE"] (rev history) in
        if empty_count <? 3 then
          put_item c
            (record c bucket_name "S3_BUCKET" "EMPTY"
               [ ("ObjectCount", VNum 0); ("SizeMB", VStr "0");
                 ("EmptyCount", VNum (inject_Z (empty_count + 1))) ]) ;;
          when (empty_count =? 0)
               (issue (Alert "S3_BUCKET" bucket_name "EMPTY_WARNING"))
        else
          issue (Destroy "S3_BUCKET" bucket_name) ;;
          if delete_empty_bucket c bucket_name then
            bump "s3_stats" "deleted" ;;
            put_item c
              (record c bucket_name "S3_BUCKET" "DELETED"
                 [ ("Reason", VStr "Empty for 3+ consecutive checks") ]) ;;
            issue (Alert "S3_BUCKET" bucket_name "DELETED")
          else bump "s3_stats" "errors"
      else
        bump "s3_stats" "has_data" ;;
        match get_bucket_lifecycle_configuration c bucket_name with
        | HasLifecycle => mret tt
        | ProbeRaises => raise "Exception"
        | ClientError error_code =>
            when (String.eqb error_code "NoSuchLifecycleConfiguration")
              (issue (Lifecycle bucket_name) ;;
               if apply_lifecycle_policy c bucket_name then
                 bump "s3_stats" "lifecycle_applied" ;;
                 put_item c
                   (record c bucket_name "S3_BUCKET" "LIFECYCLE_APPLIED"
                      [ ("LifecyclePolicy", VStr "3-Tier (Standard→IA→Glacier)") ]) ;;
                 issue (Alert "S3_BUCKET" bucket_name "LIFECYCLE_APPLIED")
               else bump "s3_stats" "errors")
        end ;;
        put_item c (record c bucket_name "S3_BUCKET" "HAS_DATA" [])
  end.

Definition s3_iteration (c : Cloud) (bucket_name : string) : M unit :=
  issue (Checking "S3_BUCKET" bucket_name) ;;
  isolate "s3_stats" (s3_check c bucket_name).

(** *** Step 7: EBS volumes *)

Definition ebs_check (cfg : Config) (c : Cloud) (volume : Volume) : M unit :=
  let volume_id := VolumeId volume in
  let volume_state := vol_State volume in
  let volume_name :=
    VStr (default "Unnamed" (tags_dict (vol_Tags volume) !! "Name")) in
  let described :=
    [ ("SizeGB", VNum (inject_Z (Size volume)));
      ("VolumeType", VStr (VolumeType volume));
      ("VolumeName", volume_name) ] in
  if String.eqb volume_state "in-use" then
    bump "ebs_stats" "in_use" ;;
    put_item c (record c volume_id "EBS_VOLUME" "IN_USE" described)
  else if String.eqb volume_state "available" then
    bump "ebs_stats" "available" ;;
    history ← resource_history c volume_id ;
    let available_count :=
      count_streak ["AVAILABLE"] ["IN_USE"] (rev history) in
    if available_count <? 3 then
      issue (Backup "EBS_VOLUME" volume_id) ;;
      put_item c
        (record c volume_id "EBS_VOLUME" "AVAILABLE"
           (("UnattachedCount", VNum (inject_Z (available_count + 1))) ::
            ("ConfigBackupPath", backup_path cfg "ebs-volumes" volume_id) ::
            described)) ;;
      when (available_count =? 0)
           (issue (Alert "EBS_VOLUME" volume_id "UNATTACHED_WARNING"))
    else
      issue (Backup "EBS_VOLUME" volume_id) ;;
      issue (Snapshot "EBS_VOLUME" volume_id) ;;
      match create_ebs_snapshot c volume_id with
      | None => bump "ebs_stats" "errors"
      | Some snapshot_id =>
          bump "ebs_stats" "snapshots_created" ;;
          issue (Destroy "EBS_VOLUME" volume_id) ;;
          if delete_ebs_volume c volume_id then
            bump "ebs_stats" "deleted" ;;
            put_item c
              (record c volume_id "EBS_VOLUME" "DELETED"
                 (("ConfigBackupPath", backup_path cfg "ebs-volumes" volume_id) ::
                  ("SnapshotId", VStr snapshot_id) :: described)) ;;
            issue (Alert "EBS_VOLUME" volume_id "DELETED")
          else bump "ebs_stats" "errors"
      end
  else mret tt.

Definition ebs_iteration (cfg : Config) (c : Cloud) (volume : Volume) : M unit :=
  issue (Checking "EBS_VOLUME" (VolumeId volume)) ;;
  if existsb (String.eqb (vol_State volume)) ["creating"; "deleting"] then mret tt
  else if ignore_tagged (tags_dict (vol_Tags volume)) then mret tt
  else isolate "ebs_stats" (ebs_check cfg c volume).

(** *** Step 8: load balancers *)

Definition lb_check (cfg : Config) (sw : Switches) (c : Cloud)
    (lb : LoadBalancer) : M unit :=
  let lb_arn := LoadBalancerArn lb in
  let lb_name := LoadBalancerName lb in
  let lb_type := lb_Type lb in
  let is_idle := check_load_balancer_usage c lb_arn in
  history ← resource_history c lb_arn ;
  let idle_count :=
    count_streak ["IDLE"; "IDLE_WARNING"] ["ACTIVE"] (rev history) in
  let described :=
    [ ("LoadBalancerName", VStr lb_name); ("LoadBalancerType", VStr lb_type) ] in
  let monthly :=
    VStr (if existsb (String.eqb lb_type) ["application"; "network"]
          then "16.2" else "18.0") in
  if negb is_idle then
    bump "lb_stats" "active" ;;
    put_item c (record c lb_arn "LOAD_BALANCER" "ACTIVE" described)
  else if idle_count <? LB_IDLE_CHECKS sw then
    bump "lb_stats" "idle" ;;
    issue (Backup "LOAD_BALANCER" lb_arn) ;;
    put_item c
      (record c lb_arn "LOAD_BALANCER" "IDLE_WARNING"
         (("IdleCount", VNum (inject_Z (idle_count + 1))) ::
          ("ConfigBackupPath", backup_path cfg "load-balancers" lb_name) ::
          ("MonthlyCost", monthly) :: described)) ;;
    when (idle_count =? 0) (issue (Alert "LOAD_BALANCER" lb_arn "IDLE_WARNING"))
  else
    bump "lb_stats" "idle" ;;
    issue (Backup "LOAD_BALANCER" lb_arn) ;;
    issue (Destroy "LOAD_BALANCER" lb_arn) ;;
    if delete_load_balancer c lb_arn then
      bump "lb_stats" "deleted" ;;
      put_item c
        (record c lb_arn "LOAD_BALANCER" "DELETED"
           (("ConfigBackupPath", backup_path cfg "load-balancers" lb_name) ::
            ("EstimatedMonthlySavings", monthly) :: described)) ;;
      issue (Alert "LOAD_BALANCER" lb_arn "DELETED")
    else bump "lb_stats" "errors".

Definition lb_iteration (cfg : Config) (sw : Switches) (c : Cloud)
    (lb : LoadBalancer) : M unit :=
  issue (Checking "LOAD_BALANCER" (LoadBalancerArn lb)) ;;
  let tags :=
    match describe_tags c (LoadBalancerArn lb) with
    | Ok tag_list => tags_dict tag_list
    | Raise _ => ∅
    end in
  if ignore_tagged tags then mret tt
  else isolate "lb_stats" (lb_check cfg sw c lb).

(** *** Step 9: VPCs *)

Definition vpc_check (cfg : Config) (sw : Switches) (c : Cloud) (vpc : Vpc)
    : M unit :=
  let vpc_id := VpcId vpc in
  let vpc_name :=
    VStr (default "Unnamed"
            ((list_to_map (vpc_Tags vpc) : gmap string string) !! "Name")) in
  let is_empty := is_vpc_empty c vpc_id in
  history ← resource_history c vpc_id ;
  let empty_count :=
    count_streak ["EMPTY"; "EMPTY_WARNING"] ["ACTIVE"] (rev history) in
  let described :=
    [ ("VpcName", vpc_name); ("CidrBlock", VStr (CidrBlock vpc)) ] in
  if negb is_empty then
    bump "vpc_stats" "active" ;;
    put_item c (record c vpc_id "VPC" "ACTIVE" described)
  else if empty_count <? VPC_IDLE_CHECKS sw then
    bump "vpc_stats" "empty" ;;
    issue (Backup "VPC" vpc_id) ;;
    put_item c
      (record c vpc_id "VPC" "EMPTY_WARNING"
         (("EmptyCount", VNum (inject_Z (empty_count + 1))) ::
          ("ConfigBackupPath", backup_path cfg "vpc-configs" vpc_id) ::
          described)) ;;
    when (empty_count =? 0) (issue (Alert "VPC" vpc_id "IDLE_WARNING"))
  else
    bump "vpc_stats" "empty" ;;
    issue (Backup "VPC" vpc_id) ;;
    issue (Destroy "VPC" vpc_id) ;;
    if delete_vpc c vpc_id then
      bump "vpc_stats" "deleted" ;;
      put_item c
        (record c vpc_id "VPC" "DELETED"
           (("ConfigBackupPath", backup_path cfg "vpc-configs" vpc_id) ::
            described)) ;;
      issue (Alert "VPC" vpc_id "DELETED")
    else bump "vpc_stats" "errors".

Definition vpc_iteration (cfg : Config) (sw : Switches) (c : Cloud) (vpc : Vpc)
    : M unit :=
  issue (Checking "VPC" (VpcId vpc)) ;;
  if IsDefault vpc then bump "vpc_stats" "active"
  else if ignore_tagged (tags_dict (vpc_Tags vpc)) then bump "vpc_stats" "active"
  else isolate "vpc_stats" (vpc_check cfg sw c vpc).

(** *** The handler *)

(** [print] of a statistics dictionary in the closing summaries. *)
Definition print_summary (name : string) : M unit :=
  d ← read_local name ; issue (Summary name d).

(** [d.get(key, 0)]. *)
Definition stat (d : gmap string Z) (key : string) : Z :=
  default 0 (d !! key).

(** [send_cloudwatch_metric(name, value)]; it catches its own errors. *)
Definition send_cloudwatch_metric (name : string) (value : Q) : M unit :=
  issue (Metric name value).

(** The running totals of the metrics section. *)
Record Totals : Type := mkTotals {
  total_monthly_savings : Q;
  total_deleted : Z;
  total_warned : Z
}.

(** One [if name in locals():] block of the metrics section. *)
Definition metrics_block (name : string)
    (update : gmap string Z -> Totals -> Totals)
    (metric : string) (metric_key : string) (t : Totals) : M Totals :=
  bound ← in_locals name ;
  if bound : bool then
    d ← read_local name ;
    (if String.eqb metric EmptyString then mret tt
     else send_cloudwatch_metric metric (inject_Z (stat d metric_key))) ;;
    mret (update d t)
  else mret t.

Definition send_metrics : M unit :=
  let t0 := mkTotals 0.0 0 0 in
  t1 ← metrics_block "stats"
         (fun d t => mkTotals (total_monthly_savings t)
                              (total_deleted t + stat d "backed_up")
                              (total_warned t))
         EmptyString EmptyString t0 ;
  t2 ← metrics_block "nat_stats"
         (fun d t => mkTotals
                       (total_monthly_savings t + inject_Z (stat d "deleted") * 32.40)
                       (total_deleted t + stat d "deleted")
                       (total_warned t + stat d "idle"))
         "NATGatewayDeleted" "deleted" t1 ;
  t3 ← metrics_block "eip_stats"
         (fun d t => mkTotals
                       (total_monthly_savings t + inject_Z (stat d "released") * 3.60)
                       (total_deleted t + stat d "released")
                       (total_warned t))
         "ElasticIPReleased" "released" t2 ;
  t4 ← metrics_block "ebs_stats"
         (fun d t => mkTotals
                       (total_monthly_savings t + inject_Z (stat d "deleted") * 3.0)
                       (total_deleted t + stat d "deleted")
                       (total_warned t + stat d "available"))
         "EBSVolumeDeleted" "deleted" t3 ;
  t5 ← metrics_block "rds_stats"
         (fun d t => mkTotals
                       (total_monthly_savings t + inject_Z (stat d "deleted") * 50.0)
                       (total_deleted t + stat d "deleted")
                       (total_warned t + stat d "idle"))
         "RDSDeleted" "deleted" t4 ;
  t6 ← metrics_block "s3_stats" (fun _ t => t)
         "S3LifecycleApplied" "lifecycle_applied" t5 ;
  t7 ← metrics_block "lb_stats"
         (fun d t => mkTotals
                       (total_monthly_savings t + inject_Z (stat d "deleted") * 16.20)
                       (total_deleted t + stat d "deleted")
                       (total_warned t + stat d "idle"))
         "LoadBalancerDeleted" "deleted" t6 ;
  t8 ← metrics_block "vpc_stats" (fun _ t => t) "VPCDeleted" "deleted" t7 ;
  send_cloudwatch_metric "MonthlySavings" (total_monthly_savings t8) ;;
  send_cloudwatch_metric "ResourcesDeleted" (inject_Z (total_deleted t8)) ;;
  send_cloudwatch_metric "ResourcesWarned" (inject_Z (total_warned t8)).

(** The body of the handler's outer [try]. *)
Definition run_steps (cfg : Config) (sw : Switches) (c : Cloud) : M Response :=
  match describe_instances c with
  | Raise e => raise e
  | Ok all_instances =>
      set_key "stats" "total_instances" (Z.of_nat (length all_instances)) ;;
      for_each (ec2_iteration cfg c) all_instances ;;
      (* step 3 *)
      let nat_gateways := get_all_nat_gateways c in
      set_local "nat_stats"
        [ ("total", Z.of_nat (length nat_gateways)); ("active", 0);
          ("idle", 0); ("deleted", 0); ("errors", 0) ] ;;
      for_each (nat_iteration cfg c) nat_gateways ;;
      (* step 4 *)
      let elastic_ips := get_all_elastic_ips c in
      set_local "eip_stats"
        [ ("total", Z.of_nat (length elastic_ips)); ("attached", 0);
          ("unattached", 0); ("released", 0); ("errors", 0) ] ;;
      for_each (eip_iteration c) elastic_ips ;;
      (* step 5 *)
      let '(rds_instances, rds_client) := get_all_rds_instances c in
      set_local "rds_stats"
        [ ("total", Z.of_nat (length rds_instances)); ("active", 0);
          ("idle", 0); ("stopped", 0); ("deleted", 0); ("errors", 0) ] ;;
      when rds_client (for_each (rds_iteration cfg c) rds_instances) ;;
      (* step 6 *)
      let s3_buckets := get_all_s3_buckets c in
      set_local "s3_stats"
        [ ("total", Z.of_nat (length s3_buckets)); ("empty", 0);
          ("has_data", 0); ("protected", 0); ("lifecycle_applied", 0);
          ("deleted", 0); ("errors", 0) ] ;;
      for_each (s3_iteration c) s3_buckets ;;
      (* step 7 *)
      let ebs_volumes := get_all_ebs_volumes c in
      set_local "ebs_stats"
        [ ("total", Z.of_nat (length ebs_volumes)); ("in_use", 0);
          ("available", 0); ("snapshots_created", 0); ("deleted", 0);
          ("errors", 0) ] ;;
      for_each (ebs_iteration cfg c) ebs_volumes ;;
      (* step 8 *)
      when (ENABLE_LB_MONITORING sw)
        (let load_balancers := get_all_load_balancers c in
         set_local "lb_stats"
           [ ("total", Z.of_nat (length load_balancers)); ("active", 0);
             ("idle", 0); ("deleted", 0); ("errors", 0) ] ;;
         for_each (lb_iteration cfg sw c) load_balancers) ;;
      (* step 9 *)
      when (ENABLE_VPC_CLEANUP sw)
        (let vpcs := get_all_vpcs c in
         set_local "vpc_stats"
           [ ("total", Z.of_nat (length vpcs)); ("empty", 0); ("active", 0);
             ("deleted", 0); ("errors", 0) ] ;;
         for_each (vpc_iteration cfg sw c) vpcs ;;
         print_summary "vpc_stats") ;;
      print_summary "lb_stats" ;;
      print_summary "ebs_stats" ;;
      print_summary "s3_stats" ;;
      print_summary "rds_stats" ;;
      print_summary "eip_stats" ;;
      print_summary "nat_stats" ;;
      print_summary "stats" ;;
      send_metrics ;;
      stats ← read_local "stats" ;
      mret (mkResponse 200 (Some stats) None)
  end.

(** [lambda_handler(event, context)]. *)
Definition lambda_handler (cfg : Config) (sw : Switches) (c : Cloud)
    : M Response :=
  validate_configuration c ;;
  set_local "stats"
    [ ("total_instances", 0); ("active_instances", 0); ("idle_instances", 0);
      ("backed_up", 0); ("errors", 0) ] ;;
  try_except (run_steps cfg sw c)
             (fun e => mret (mkResponse 500 None (Some ("Error: " ++ e)))).

(** The state a run starts from. *)
Definition initial_state (tbl : Table) : State := mkState tbl ∅ [].

End Monitor.

(** ** pricing.py: display helpers *)

Module Display.

Import PyFmt.

(** The thousands separators of the format [,]: a comma after every
    digit that is followed by a positive multiple of three digits. *)
Fixpoint group_thousands (digits : string) : string :=
  match digits with
  | EmptyString => EmptyString
  | String d rest =>
      String d
        (if (0 <? Z.of_nat (String.length rest)) &&
            (Z.of_nat (String.length rest) mod 3 =? 0)
         then String ","%char (group_thousands rest)
         else group_thousands rest)
  end.

(** [format_currency(amount)], that is [f"${amount:,.2f}"]. *)
Definition format_currency (amount : Q) : string :=
  let neg := match (amount ?= 0)%Q with Lt => true | _ => false end in
  let cents := round_half_even (Qabs amount * 100)%Q in
  "$" ++ (if neg then "-" else EmptyString) ++
  group_thousands (str_int (cents / 100)) ++ "." ++ two_digits (cents mod 100).

(** [SERVICE_NAMES]. *)
Definition SERVICE_NAMES : gmap string string :=
  list_to_map
    [ ("EC2", "EC2 Instances"); ("RDS", "RDS Databases");
      ("NAT_GATEWAY", "NAT Gateways"); ("ALB", "Application Load Balancers");
      ("NLB", "Network Load Balancers"); ("ELB", "Classic Load Balancers");
      ("EBS", "EBS Volumes"); ("EIP", "Elastic IPs"); ("VPC", "VPCs");
      ("VPC_ENDPOINT", "VPC Endpoints"); ("S3", "S3 Buckets");
      ("S3_BUCKET", "S3 Buckets"); ("SUBNET", "Subnets") ].

End Display.

(** ** lambda_handler.py: cost estimates of RDS instances and EBS volumes *)

Module Costs.

Import Decision.

(** The monthly price table local to [get_rds_cost]. *)
Definition rds_pricing : gmap string Q :=
  list_to_map
    [ ("db.t3.micro", 14.61); ("db.t3.small", 29.22); ("db.t3.medium", 58.43);
      ("db.t3.large", 116.86); ("db.t3.xlarge", 233.71);
      ("db.t3.2xlarge", 467.42);
      ("db.t4g.micro", 13.14); ("db.t4g.small", 26.28);
      ("db.t4g.medium", 52.56); ("db.t4g.large", 105.12);
      ("db.m5.large", 140.16); ("db.m5.xlarge", 280.32);
      ("db.m5.2xlarge", 560.64); ("db.m5.4xlarge", 1121.28);
      ("db.r5.large", 182.50); ("db.r5.xlarge", 365.00);
      ("db.r5.2xlarge", 730.00); ("db.r5.4xlarge", 1460.00) ]%Q.

(** The estimate of [get_rds_cost] for a class outside its table. *)
Definition rds_size_estimate (db_instance_class : string) : Q :=
  if contains "micro" db_instance_class then 15
  else if contains "small" db_instance_class then 30
  else if contains "medium" db_instance_class then 60
  else if contains "large" db_instance_class &&
          negb (contains "xlarge" db_instance_class) then 150
  else if contains "xlarge" db_instance_class &&
          negb (contains "2x" db_instance_class) then 300
  else 500.

(** [get_rds_cost(db_instance_class, engine)]. *)
Definition get_rds_cost (db_instance_class engine : string) : Q :=
  match rds_pricing !! db_instance_class with
  | Some estimated_cost =>
      if truthy (VNum estimated_cost) then estimated_cost
      else rds_size_estimate db_instance_class
  | None => rds_size_estimate db_instance_class
  end.

(** The per-GB price table local to [get_ebs_volume_cost]. *)
Definition ebs_pricing : gmap string Q :=
  list_to_map
    [ ("gp3", 0.08); ("gp2", 0.10); ("io1", 0.125); ("io2", 0.125);
      ("st1", 0.045); ("sc1", 0.015); ("standard", 0.05) ]%Q.

(** [get_ebs_volume_cost(volume_type, size_gb, iops)]. *)
Definition get_ebs_volume_cost (volume_type : string) (size_gb : Z)
    (iops : option Z) : Q :=
  let price_per_gb := default 0.10%Q (ebs_pricing !! volume_type) in
  let base_cost := (inject_Z size_gb * price_per_gb)%Q in
  match iops with
  | Some n =>
      if existsb (String.eqb volume_type) ["io1"; "io2"] && negb (n =? 0)
      then (base_cost + inject_Z n * 0.065)%Q
      else base_cost
  | None => base_cost
  end.

(** The net savings [lambda_handler] works out when it deletes a volume:
    the volume's cost less the cost of the snapshot it keeps. *)
Definition ebs_net_savings (volume_type : string) (size_gb : Z)
    (iops : option Z) : Q :=
  let estimated_cost := get_ebs_volume_cost volume_type size_gb iops in
  let snapshot_cost := (inject_Z size_gb * 0.05)%Q in
  (estimated_cost - snapshot_cost)%Q.

End Costs.

(** ** cost_savings_calculator.py: dashboard, history, archive, handler *)

Module Dashboard.

Import PyFmt.

(** An element of [dashboard['current_month']['savings_by_service']]. *)
Record ServiceRow : Type := mkRow {
  service : string;
  service_code : string;
  count : Z;
  savings : Q
}.

(** An element of [dashboard['breakdown']]. *)
Record Slice : Type := mkSlice {
  name : string;
  value : Q
}.

(** An element of [dashboard['historical']]. *)
Record HistoryPoint : Type := mkPoint {
  month : string;
  month_name : string;
  month_savings : Q
}.

(** [dashboard['current_month']]. *)
Record CurrentMonth : Type := mkCurrent {
  current : string;
  total_savings : Q;
  total_resources : Z;
  savings_by_service : list ServiceRow
}.

(** The dictionary built by [generate_dashboard_data] ([last_updated], a
    wall-clock stamp, is left out). *)
Record DashboardData : Type := mkDashboard {
  current_month : CurrentMonth;
  breakdown : list Slice;
  historical : list HistoryPoint;
  cumulative_savings : Q;
  resources_detail : list Calculator.DetailedResource
}.

(** What the program stores in the bucket: the dashboard, a monthly
    report as JSON, a monthly report as CSV. *)
Inductive S3Object : Type :=
| DashboardJson (d : DashboardData)
| ReportJson (report : Calculator.SavingsData)
| ReportCsv (text : string).

(** The outside world of a run of the calculator: the day it runs (days
    since 1970-01-01) and which S3 requests fail. *)
Record Env : Type := mkEnv {
  today : Z;
  put_object_raises : string -> bool;
  get_object_raises : string -> bool
}.

(** [round(x, 2)]. *)
Definition round2 (x : Q) : Q :=
  (inject_Z (round_half_even (x * 100)) / 100)%Q.

(** [get_archived_month_savings(month)]: the [total_savings] of the
    archived JSON report, [0.0] when the object is missing, cannot be
    read, is not JSON or has no such key. *)
Definition get_archived_month_savings (env : Env) (store : gmap string S3Object)
    (month : string) : Q :=
  let key := "dashboard/reports/" ++ month ++ ".json" in
  if get_object_raises env key then 0.0%Q
  else
    match store !! key with
    | Some (ReportJson report) => Calculator.total_savings report
    | Some (DashboardJson _) => 0.0%Q
    | Some (ReportCsv _) => 0.0%Q
    | None => 0.0%Q
    end.

(** The loop [while target_month <= 0: target_month += 12;
    target_year -= 1].  Every turn raises the month by twelve, so
    [1 - target_month] turns are enough. *)
Fixpoint wrap_month (turns : nat) (target_month target_year : Z) : Z * Z :=
  match turns with
  | O => (target_month, target_year)
  | S turns' =>
      if target_month <=? 0
      then wrap_month turns' (target_month + 12) (target_year - 1)
      else (target_month, target_year)
  end.

(** [strftime('%b')] of a month number. *)
Definition month_abbr (m : Z) : string :=
  nth (Z.to_nat (m - 1))
      [ "Jan"; "Feb"; "Mar"; "Apr"; "May"; "Jun";
        "Jul"; "Aug"; "Sep"; "Oct"; "Nov"; "Dec" ] EmptyString.

(** One turn of [for i in range(months, 0, -1)] in
    [get_historical_data]. *)
Definition historical_point (env : Env) (region : string) (tbl : Table)
    (store : gmap string S3Object) (year mon i : Z) : Result HistoryPoint :=
  let '(target_month, target_year) :=
    wrap_month (Z.to_nat (1 - (mon - i))) (mon - i) year in
  let month_str := Calculator.month_str target_year target_month in
  let total :=
    if String.eqb month_str (Calculator.month_str year mon) then
      match Calculator.calculate_savings region tbl target_year target_month with
      | Ok savings_data => Ok (Calculator.total_savings savings_data)
      | Raise e => Raise e
      end
    else Ok (get_archived_month_savings env store month_str) in
  match total with
  | Ok total =>
      Ok (mkPoint month_str
                  (month_abbr target_month ++ " " ++ str_int target_year)
                  (round2 total))
  | Raise e => Raise e
  end.

(** [results.append(f(x)) for x in xs], stopping at the first exception. *)
Fixpoint collect {A B : Type} (f : A -> Result B) (xs : list A)
    : Result (list B) :=
  match xs with
  | [] => Ok []
  | x :: rest =>
      match f x with
      | Raise e => Raise e
      | Ok y =>
          match collect f rest with
          | Raise e => Raise e
          | Ok ys => Ok (y :: ys)
          end
      end
  end.

(** [range(months, 0, -1)]. *)
Definition countdown (months : Z) : list Z :=
  map Z.of_nat (rev (seq 1 (Z.to_nat months))).

(** [get_historical_data(months)], run in the month [mon] of [year]. *)
Definition get_historical_data (env : Env) (region : string) (tbl : Table)
    (store : gmap string S3Object) (year mon months : Z)
    : Result (list HistoryPoint) :=
  collect (historical_point env region tbl store year mon) (countdown months).

(** [list.sort(key=lambda x: x['savings'], reverse=True)]: descending and
    stable.  A row goes in front of the first row that does not save
    more. *)
Fixpoint insert_row (row : ServiceRow) (sorted : list ServiceRow)
    : list ServiceRow :=
  match sorted with
  | [] => [row]
  | r :: rest =>
      if Qlt_le_dec (savings row) (savings r)
      then r :: insert_row row rest
      else row :: r :: rest
  end.

Definition sort_rows (rows : list ServiceRow) : list ServiceRow :=
  fold_right insert_row [] rows.

(** The row appended for one item of [savings_by_service.items()]. *)
Definition service_row (entry : string * Calculator.ServiceSavings) : ServiceRow :=
  mkRow (default entry.1 (Display.SERVICE_NAMES !! entry.1)) entry.1
        (Calculator.count entry.2) (round2 (Calculator.savings entry.2)).

(** [generate_dashboard_data(savings_data)]. *)
Definition generate_dashboard_data (env : Env) (region : string) (tbl : Table)
    (store : gmap string S3Object) (savings_data : Calculator.SavingsData)
    : Result DashboardData :=
  let '(year, mon, _) := civil_from_days (today env) in
  match get_historical_data env region tbl store year mon 6 with
  | Raise e => Raise e
  | Ok historical_data =>
      let cumulative := Calculator.calculate_cumulative_savings region tbl in
      let rows :=
        sort_rows (map service_row (Calculator.savings_by_service savings_data)) in
      Ok (mkDashboard
            (mkCurrent (Calculator.month savings_data)
                       (round2 (Calculator.total_savings savings_data))
                       (Calculator.total_resources savings_data)
                       rows)
            (map (fun item => mkSlice (service item) (savings item)) rows)
            historical_data
            (round2 cumulative)
            (Calculator.detailed_resources savings_data))
  end.

(** [upload_dashboard_data(dashboard_data)]: a failed upload is raised
    again. *)
Definition upload_dashboard_data (env : Env) (dashboard_data : DashboardData)
    (store : gmap string S3Object) : Result unit * gmap string S3Object :=
  if put_object_raises env "dashboard/data.json" then (Raise "ClientError", store)
  else (Ok tt, <["dashboard/data.json" := DashboardJson dashboard_data]> store).

(** [is_month_end()]. *)
Definition is_month_end (env : Env) : bool :=
  let '(_, today_month, _) := civil_from_days (today env) in
  let '(_, tomorrow_month, _) := civil_from_days (today env + 1) in
  negb (tomorrow_month =? today_month).

(** [archive_monthly_report(savings_data)]: the JSON report, then the
    CSV report; an exception ends the function without being raised. *)
Definition archive_monthly_report (env : Env)
    (savings_data : Calculator.SavingsData) (store : gmap string S3Object)
    : gmap string S3Object :=
  let month := Calculator.month savings_data in
  let json_key := "dashboard/reports/" ++ month ++ ".json" in
  let csv_key := "dashboard/reports/" ++ month ++ ".csv" in
  if put_object_raises env json_key then store
  else
    let store1 := <[json_key := ReportJson savings_data]> store in
    let csv_data := Calculator.generate_csv_report savings_data in
    if put_object_raises env csv_key then store1
    else <[csv_key := ReportCsv csv_data]> store1.

(** The dictionary [lambda_handler] returns. *)
Inductive Answer : Type :=
| Success (total_savings : Q) (resources_deleted : Z)
| Failure (error : string).

Definition statusCode (a : Answer) : Z :=
  match a with
  | Success _ _ => 200
  | Failure _ => 500
  end.

(** [lambda_handler(event, context)] of the savings calculator. *)
Definition lambda_handler (env : Env) (region : string) (tbl : Table)
    (store : gmap string S3Object) : Answer * gmap string S3Object :=
  let '(year, mon, _) := civil_from_days (today env) in
  match Calculator.calculate_savings region tbl year mon with
  | Raise e => (Failure e, store)
  | Ok savings_data =>
      match generate_dashboard_data env region tbl store savings_data with
      | Raise e => (Failure e, store)
      | Ok dashboard_data =>
          match upload_dashboard_data env dashboard_data store with
          | (Raise e, store1) => (Failure e, store1)
          | (Ok _, store1) =>
              let store2 :=
                if is_month_end env
                then archive_monthly_report env savings_data store1
                else store1 in
              (Success (Calculator.total_savings savings_data)
                       (Calculator.total_resources savings_data),
               store2)
          end
      end
  end.

End Dashboard.

(** * Properties *)

(** ** Vocabulary of the statements *)

Module Props.

Import Decision.

(** The status [determine_action] reads from a history entry. *)
Definition status_of (entry : Item) : Value :=
  item_get entry "Status" (VStr "UNKNOWN").

(** The entry is an idle observation ([IDLE] or [IDLE_WARNING]). *)
Definition is_idle_entry (entry : Item) : bool :=
  val_in (status_of entry) ["IDLE"; "IDLE_WARNING"].

(** The entry neither records activity nor a quarantine: the scan of
    [determine_action] goes on to the next older entry. *)
Definition scan_passes (entry : Item) : bool :=
  negb (val_is (status_of entry) "ACTIVE") &&
  negb (val_is (status_of entry) "QUARANTINE").

(** Number of idle observations among entries. *)
Definition idle_entries (l : list Item) : Z :=
  Z.of_nat (length (List.filter is_idle_entry l)).

(** A history entry with the given status and timestamp. *)
Definition observed (resource_id status : string) (ts : Z) : Item :=
  mkItem resource_id ts (list_to_map [("Status", VStr status)]).

(** A world in which every helper succeeds, given which writes to the
    table fail, the clock, whether history queries raise, the EC2
    instances, the NAT gateways, and the answers of the NAT backup and
    of the EC2 backup listing; no other resource exists. *)
Definition world_with (put_fails : Item -> bool) (clock : Q)
    (queries_raise : bool)
    (instances : list Monitor.Instance) (nats : list Monitor.NatGateway)
    (nat_backup_ok : bool) (backup_objects : Result Z) : Monitor.Cloud :=
  Monitor.mkCloud clock true true (fun _ => queries_raise) put_fails
    (Ok instances) (fun _ => 0%Q) (fun _ => true) (fun _ => Some "ami-1")
    (fun _ => backup_objects) (fun _ => true) (fun _ => [])
    nats (fun _ => true) (fun _ => nat_backup_ok) (fun _ => (true, false))
    [] (fun _ => true)
    ([], true) (fun _ => true) (fun _ => true) (fun _ => Some "snap-1")
    (fun _ => true) (fun _ => true)
    [] (fun _ => Ok []) (fun _ => true) (fun _ => true)
    (fun _ => Monitor.HasLifecycle) (fun _ => true)
    [] (fun _ => true) (fun _ => Some "snap-2") (fun _ => true)
    [] (fun _ => Ok []) (fun _ => true) (fun _ => true) (fun _ => true)
    [] (fun _ => true) (fun _ => true) (fun _ => true).

(** The same with a table that accepts every write. *)
Definition world : Q -> bool -> list Monitor.Instance ->
    list Monitor.NatGateway -> bool -> Result Z -> Monitor.Cloud :=
  world_with (fun _ => false).

(** Two idle instances; every write about the first one is refused. *)
Definition flaky_store : Monitor.Cloud :=
  world_with (fun it => String.eqb (ResourceId it) "i-001") 1700003600 false
    [ Monitor.mkInstance "i-001" "running" [] "t2.micro";
      Monitor.mkInstance "i-002" "running" [] "t3.small" ]
    [] true (Ok 1).

(** The state a step reaches extends the state it started from: requests
    are only appended and bound local variables stay bound. *)
Definition extends (st st' : Monitor.State) : Prop :=
  (exists l, Monitor.calls st' = (Monitor.calls st ++ l)%list) /\
  (forall name, is_Some (Monitor.locals st !! name) ->
                is_Some (Monitor.locals st' !! name)).

(** A computation that only extends the state, whether it raises or not. *)
Definition steady {A : Type} (m : Monitor.M A) : Prop :=
  forall st, extends st (m st).2.

(** A computation that never raises. *)
Definition safe {A : Type} (m : Monitor.M A) : Prop :=
  forall st, exists a, (m st).1 = Ok a.

(** The resource was looked at during the run. *)
Definition visited (kind resource : string) (st : Monitor.State) : Prop :=
  In (Monitor.Checking kind resource) (Monitor.calls st).

(** A summary of the statistics dictionary has been printed. *)
Definition summarised (name : string) (st : Monitor.State) : Prop :=
  exists d, In (Monitor.Summary name d) (Monitor.calls st).

(** The three probes of [validate_configuration] succeed. *)
Definition config_ok (c : Monitor.Cloud) (tbl : Table) : bool :=
  Monitor.s3_bucket_exists c && reachable tbl && Monitor.sns_topic_exists c.

(** The error counter of a statistics dictionary. *)
Definition errors_of (name : string) (st : Monitor.State) : Z :=
  Monitor.stat (default ∅ (Monitor.locals st !! name)) "errors".

(** A world whose history queries all raise. *)
Definition failing_reads : Monitor.Cloud :=
  world 1700000000 true [] [] true (Ok 1).

(** The savings data of a month with two qualifying resources, saving
    10.00 and 25.50, totalled the way [calculate_savings] does. *)
Definition two_resources_month : Calculator.SavingsData :=
  let by_service :=
    Calculator.add_service "EC2" 25.50 (Calculator.add_service "EC2" 10.00 []) in
  Calculator.mkSavings "2025-01" (Calculator.sum_savings by_service) 2 by_service
    [ Calculator.mkDetail "2025-01-03" "i-001" (VStr "EC2") (VStr "t9.a") 10.00;
      Calculator.mkDetail "2025-01-04" "i-002" (VStr "EC2") (VStr "t9.b") 25.50 ].

(** The monthly savings [calculate_savings] computes for a record. *)
Definition record_savings (region : string) (resource : Item) : Q :=
  Pricing.calculate_monthly_savings
    (item_get resource "ResourceType" (VStr "Unknown"))
    (Calculator.select_instance_type resource) region.

(** The cumulative figure as the specification words it, to compare
    with [Calculator.calculate_cumulative_savings]: the reduction of the
    monthly report applied to every [DELETED] or [STOPPED] record, with
    no time bound. *)
Definition cumulative_savings_spec (region : string) (tbl : Table) : Q :=
  match table_scan tbl Calculator.status_deleted_or_stopped with
  | Ok found =>
      Calculator.total_savings (Calculator.aggregate region EmptyString found)
  | Raise _ => 0
  end.

(** A log with one deleted RDS instance, as the monitor records it. *)
Definition rds_deleted_log : Table :=
  mkTable
    [ mkItem "orders-db" 1736000000
        (list_to_map [ ("ResourceType", VStr "RDS"); ("Status", VStr "DELETED");
                       ("DBInstanceClass", VStr "db.t3.micro");
                       ("Engine", VStr "postgres") ]) ]
    true.

(** A NAT gateway seen idle on three daily checks. *)
Definition idle_nat_log : Table :=
  mkTable
    [ mkItem "nat-0a1" 1700000000
        (list_to_map [ ("ResourceType", VStr "NAT_GATEWAY");
                       ("Status", VStr "IDLE_WARNING"); ("IdleCount", VNum 1) ]);
      mkItem "nat-0a1" 1700086400
        (list_to_map [ ("ResourceType", VStr "NAT_GATEWAY");
                       ("Status", VStr "IDLE_WARNING"); ("IdleCount", VNum 2) ]);
      mkItem "nat-0a1" 1700172800
        (list_to_map [ ("ResourceType", VStr "NAT_GATEWAY");
                       ("Status", VStr "IDLE_WARNING"); ("IdleCount", VNum 3) ]) ]
    true.

(** The fourth day: the gateway is still idle, the backup bucket refuses
    writes ([backup_nat_gateway_config] returns [False]) and holds no
    object, deletion requests succeed. *)
Definition backup_outage : Monitor.Cloud :=
  world 1700259200 false [] [Monitor.mkNat "nat-0a1" []] false (Ok 0).

(** An instance warned on three daily checks, then stopped with
    [IdleCount] 3, as a policy with quarantine records it. *)
Definition quarantined_log : Table :=
  mkTable
    [ mkItem "i-001" 1700000000
        (list_to_map [("Status", VStr "IDLE_WARNING"); ("IdleCount", VNum 1)]);
      mkItem "i-001" 1700086400
        (list_to_map [("Status", VStr "IDLE_WARNING"); ("IdleCount", VNum 2)]);
      mkItem "i-001" 1700172800
        (list_to_map [("Status", VStr "IDLE_WARNING"); ("IdleCount", VNum 3)]);
      mkItem "i-001" 1700259200
        (list_to_map [("Status", VStr "QUARANTINE"); ("IdleCount", VNum 3)]) ]
    true.

(** The day after: the instance is still stopped. *)
Definition still_stopped : Monitor.Cloud :=
  world 1700345600 false [Monitor.mkInstance "i-001" "stopped" [] "t2.micro"]
    [] true (Ok 1).

(** Timestamp, status and [IdleCount] of the items of a table. *)
Definition idle_counts (tbl : Table) : list (Z * option Value * option Value) :=
  map (fun it => (Timestamp it, attrs it !! "Status", attrs it !! "IdleCount"))
      (items tbl).

(** The idle NAT gateway of [idle_nat_log] on the fourth day, with a
    table that refuses every write about it. *)
Definition nat_store_failure : Monitor.Cloud :=
  world_with (fun it => String.eqb (ResourceId it) "nat-0a1") 1700259200 false
    [] [Monitor.mkNat "nat-0a1" []] true (Ok 1).

(** The status code a run answers with, if it answers. *)
Definition answered (run : Result Monitor.Response * Monitor.State) : option Z :=
  match run.1 with
  | Ok response => Some (Monitor.statusCode response)
  | Raise _ => None
  end.

(** The requests of a run that act on resources (summaries and metrics
    left out). *)
Definition requests (st : Monitor.State) : list Monitor.Call :=
  List.filter (fun call =>
                 match call with
                 | Monitor.Summary _ _ | Monitor.Metric _ _ => false
                 | _ => true
                 end)
              (Monitor.calls st).

(** Key and status of the items of a table, in order. *)
Definition statuses (tbl : Table) : list (string * Z * option Value) :=
  map (fun it => (ResourceId it, Timestamp it, attrs it !! "Status")) (items tbl).

(** A policy with a week of grace, quarantine before deletion and three
    idle checks before action. *)
Definition week_config : Config := mkConfig 7 false 3 5 "backups".

End Props.

(** ** Vocabulary of the further statements *)

Module Terms.

(** The number of resources counted over all services of a report. *)
Definition service_counts (d : list (string * Calculator.ServiceSavings)) : Z :=
  fold_right (fun ks acc => Calculator.count ks.2 + acc) 0 d.

(** The sum of the savings of the detail rows of a report. *)
Definition detail_total (rows : list Calculator.DetailedResource) : Q :=
  fold_right (fun r acc => (Calculator.monthly_savings r + acc)%Q) 0%Q rows.

(** The month after month [m] of year [y], as [calculate_savings] takes
    the end of its interval. *)
Definition following_month (y m : Z) : Z * Z :=
  if m =? 12 then (y + 1, 1) else (y, m + 1).

(** What the loop of [calculate_savings] keeps true of its two
    accumulators. *)
Definition accounted (acc : list (string * Calculator.ServiceSavings) *
                 list Calculator.DetailedResource)
    : Prop :=
  service_counts acc.1 = Z.of_nat (length acc.2) /\
  (Calculator.sum_savings acc.1 == detail_total acc.2)%Q /\
  List.NoDup (map fst acc.1) /\
  Forall (fun r => (0 < Calculator.monthly_savings r)%Q) acc.2.

(** An instance terminated at midnight (UTC) on 1 January 2025. *)
Definition new_year_record : Item :=
  mkItem "i-0042" 1735689600
    (list_to_map [ ("ResourceType", VStr "EC2"); ("Status", VStr "DELETED");
                   ("InstanceType", VStr "t3.micro") ]).

Definition new_year_log : Table := mkTable [new_year_record] true.

(** The key under which the JSON report of a month is archived, and the
    key of its CSV report. *)
Definition json_key (month : string) : string :=
  "dashboard/reports/" ++ month ++ ".json".

Definition csv_key (month : string) : string :=
  "dashboard/reports/" ++ month ++ ".csv".

(** The year and the month [i] months before month [mon] of [year]. *)
Definition months_before (year mon i : Z) : Z * Z :=
  (year + (mon - i - 1) / 12, (mon - i - 1) mod 12 + 1).

(** The point of the history chart for a month, read from the archive. *)
Definition archived_point (env : Dashboard.Env)
    (store : gmap string Dashboard.S3Object) (ym : Z * Z) : Dashboard.HistoryPoint :=
  Dashboard.mkPoint
    (Calculator.month_str ym.1 ym.2)
    (Dashboard.month_abbr ym.2 ++ " " ++ PyFmt.str_int ym.1)
    (Dashboard.round2
       (Dashboard.get_archived_month_savings env store
          (Calculator.month_str ym.1 ym.2))).

(** 31 January 2025, every S3 request accepted. *)
Definition month_end_day : Dashboard.Env :=
  Dashboard.mkEnv 20119 (fun _ => false) (fun _ => false).

(** 12 January 2025, every upload refused. *)
Definition bucket_down : Dashboard.Env :=
  Dashboard.mkEnv 20100 (fun _ => true) (fun _ => false).

(** Every request a computation adds to the requests already issued is
    [allowed]. *)
Definition only (allowed : Monitor.Call -> Prop) {A : Type} (m : Monitor.M A)
    : Prop :=
  forall st call,
    In call (Monitor.calls (m st).2) ->
    In call (Monitor.calls st) \/ allowed call.

(** The signal the EC2 step takes for idleness: the instance is not
    running, or its CPU reading is below the threshold. *)
Definition ec2_idle (cfg : Decision.Config) (c : Monitor.Cloud)
    (instance : Monitor.Instance) : bool :=
  negb (String.eqb (Monitor.State_Name instance) "running" &&
        Qle_bool (Decision.CPU_IDLE_THRESHOLD cfg)
                 (Monitor.get_cpu_utilization c (Monitor.InstanceId instance))).

(** An instance the EC2 step may act on: listed, not terminated, not
    tagged [CostGuardian=Ignore], and idle. *)
Definition ec2_watched (cfg : Decision.Config) (c : Monitor.Cloud)
    (instance : Monitor.Instance) : Prop :=
  (exists all, Monitor.describe_instances c = Ok all /\ In instance all) /\
  Monitor.State_Name instance <> "terminated" /\
  Monitor.ignore_tagged (Monitor.tags_dict (Monitor.Tags instance)) = false /\
  ec2_idle cfg c instance = true.

(** A NAT gateway the step may act on: listed, not tagged to be ignored,
    and reported idle. *)
Definition nat_watched (c : Monitor.Cloud) (nat_gw : Monitor.NatGateway) : Prop :=
  In nat_gw (Monitor.get_all_nat_gateways c) /\
  Monitor.ignore_tagged (Monitor.tags_dict (Monitor.nat_Tags nat_gw)) = false /\
  Monitor.check_nat_gateway_usage c (Monitor.NatGatewayId nat_gw) = true.

(** An Elastic IP the step may act on: listed, not tagged to be ignored,
    and attached to nothing. *)
Definition eip_watched (c : Monitor.Cloud) (eip : Monitor.Address) : Prop :=
  In eip (Monitor.get_all_elastic_ips c) /\
  Monitor.ignore_tagged (Monitor.tags_dict (Monitor.eip_Tags eip)) = false /\
  Monitor.is_elastic_ip_unattached eip = true.

(** A database the step may act on: listed as available or stopped, not
    tagged to be ignored, and, when available, reported idle. *)
Definition rds_watched (c : Monitor.Cloud) (db : Monitor.DBInstance) : Prop :=
  In db (Monitor.get_all_rds_instances c).1 /\
  (Monitor.DBInstanceStatus db = "available" \/
   Monitor.DBInstanceStatus db = "stopped") /\
  Monitor.ignore_tagged (Monitor.tags_dict (Monitor.TagList db)) = false /\
  (Monitor.DBInstanceStatus db = "available" ->
   Monitor.check_rds_usage c (Monitor.DBInstanceIdentifier db) = true).

(** The value of the tag [CostGuardianBucket] protects the bucket. *)
Definition bucket_protected (tags : gmap string string) : bool :=
  match tags !! "CostGuardianBucket" with
  | Some v => String.eqb v "Protected" || String.eqb v "Prime"
  | None => false
  end.

(** A bucket the step may act on: listed, with readable tags that do not
    protect it. *)
Definition s3_watched (c : Monitor.Cloud) (bucket_name : string) : Prop :=
  In bucket_name (Monitor.get_all_s3_buckets c) /\
  exists tag_set,
    Monitor.get_bucket_tags c bucket_name = Ok tag_set /\
    bucket_protected (Monitor.tags_dict tag_set) = false.

(** A volume the step may act on: listed, not tagged to be ignored, and
    in state [available]. *)
Definition ebs_watched (c : Monitor.Cloud) (volume : Monitor.Volume) : Prop :=
  In volume (Monitor.get_all_ebs_volumes c) /\
  Monitor.ignore_tagged (Monitor.tags_dict (Monitor.vol_Tags volume)) = false /\
  Monitor.vol_State volume = "available".

(** The tags the load-balancer step works with: none when they cannot
    be read. *)
Definition lb_tags (c : Monitor.Cloud) (lb : Monitor.LoadBalancer)
    : gmap string string :=
  match Monitor.describe_tags c (Monitor.LoadBalancerArn lb) with
  | Ok tag_list => Monitor.tags_dict tag_list
  | Raise _ => ∅
  end.

(** A load balancer the step may act on: listed, not known to be tagged
    to be ignored, and reported idle. *)
Definition lb_watched (c : Monitor.Cloud) (lb : Monitor.LoadBalancer) : Prop :=
  In lb (Monitor.get_all_load_balancers c) /\
  Monitor.ignore_tagged (lb_tags c lb) = false /\
  Monitor.check_load_balancer_usage c (Monitor.LoadBalancerArn lb) = true.

(** A VPC the step may act on: listed, not the default VPC, not tagged
    to be ignored, and reported empty. *)
Definition vpc_watched (c : Monitor.Cloud) (vpc : Monitor.Vpc) : Prop :=
  In vpc (Monitor.get_all_vpcs c) /\
  Monitor.IsDefault vpc = false /\
  Monitor.ignore_tagged (Monitor.tags_dict (Monitor.vpc_Tags vpc)) = false /\
  Monitor.is_vpc_empty c (Monitor.VpcId vpc) = true.

(** The resources of a kind that a cycle may act on, by identifier. *)
Definition watched (cfg : Decision.Config) (c : Monitor.Cloud)
    (kind resource : string) : Prop :=
  if String.eqb kind "EC2" then
    exists instance, Monitor.InstanceId instance = resource /\
                     ec2_watched cfg c instance
  else if String.eqb kind "NAT_GATEWAY" then
    exists nat_gw, Monitor.NatGatewayId nat_gw = resource /\ nat_watched c nat_gw
  else if String.eqb kind "ELASTIC_IP" then
    exists eip, Monitor.AllocationId eip = resource /\ eip_watched c eip
  else if String.eqb kind "RDS" then
    exists db, Monitor.DBInstanceIdentifier db = resource /\ rds_watched c db
  else if String.eqb kind "S3_BUCKET" then s3_watched c resource
  else if String.eqb kind "EBS_VOLUME" then
    exists volume, Monitor.VolumeId volume = resource /\ ebs_watched c volume
  else if String.eqb kind "LOAD_BALANCER" then
    exists lb, Monitor.LoadBalancerArn lb = resource /\ lb_watched c lb
  else if String.eqb kind "VPC" then
    exists vpc, Monitor.VpcId vpc = resource /\ vpc_watched c vpc
  else False.

(** What a cycle requires before it stops a resource. *)
Definition stoppable (cfg : Decision.Config) (c : Monitor.Cloud)
    (kind resource : string) : Prop :=
  if String.eqb kind "EC2" then
    exists instance, Monitor.InstanceId instance = resource /\
                     ec2_watched cfg c instance /\
                     Monitor.State_Name instance = "running"
  else if String.eqb kind "RDS" then
    exists db, Monitor.DBInstanceIdentifier db = resource /\
               rds_watched c db /\
               Monitor.DBInstanceStatus db = "available" /\
               is_Some (Monitor.create_rds_snapshot c resource)
  else False.

(** What a cycle requires before it destroys a resource. *)
Definition destroyable (cfg : Decision.Config) (c : Monitor.Cloud)
    (kind resource : string) : Prop :=
  if String.eqb kind "EC2" then
    (exists instance, Monitor.InstanceId instance = resource /\
                      ec2_watched cfg c instance) /\
    exists key_count,
      Monitor.list_backup_objects c resource = Ok key_count /\ 0 < key_count
  else if String.eqb kind "RDS" then
    exists db, Monitor.DBInstanceIdentifier db = resource /\
               rds_watched c db /\
               Monitor.DBInstanceStatus db = "stopped" /\
               is_Some (Monitor.create_rds_snapshot c resource)
  else if String.eqb kind "S3_BUCKET" then
    s3_watched c resource /\ Monitor.is_bucket_empty c resource = true
  else if String.eqb kind "EBS_VOLUME" then
    (exists volume, Monitor.VolumeId volume = resource /\ ebs_watched c volume) /\
    is_Some (Monitor.create_ebs_snapshot c resource)
  else watched cfg c kind resource.

(** The requests a cycle may issue. *)
Definition justified (cfg : Decision.Config) (c : Monitor.Cloud)
    (call : Monitor.Call) : Prop :=
  match call with
  | Monitor.Checking _ _ | Monitor.Summary _ _ | Monitor.Metric _ _ => True
  | Monitor.VerifyBackup resource => watched cfg c "EC2" resource
  | Monitor.Lifecycle resource =>
      s3_watched c resource /\ Monitor.is_bucket_empty c resource = false
  | Monitor.Backup kind resource
  | Monitor.Snapshot kind resource
  | Monitor.Alert kind resource _ => watched cfg c kind resource
  | Monitor.Stop kind resource => stoppable cfg c kind resource
  | Monitor.Destroy kind resource => destroyable cfg c kind resource
  end.

(** The history a step reads for a resource when the table is [tbl]. *)
Definition history_seen (c : Monitor.Cloud) (tbl : Table) (resource_id : string)
    : list Item :=
  Decision.get_resource_history
    (mkTable (items tbl)
             (reachable tbl && negb (Monitor.query_raises c resource_id)))
    (Monitor.now c) resource_id 30.

(** The number of consecutive observations a step counts in that
    history. *)
Definition streak_seen (counted stops : list string) (c : Monitor.Cloud)
    (resource_id : string) (tbl : Table) : Z :=
  Monitor.count_streak counted stops (rev (history_seen c tbl resource_id)).

(** Requests that change a resource for good: snapshot, stop, destroy. *)
Definition drastic (call : Monitor.Call) : bool :=
  match call with
  | Monitor.Snapshot _ _ | Monitor.Stop _ _ | Monitor.Destroy _ _ => true
  | _ => false
  end.

(** Every drastic request a computation adds is issued from a state
    whose table shows a streak of at least [threshold]. *)
Definition gated (threshold : Z) (streak : Table -> Z) {A : Type}
    (m : Monitor.M A) : Prop :=
  forall st call,
    In call (Monitor.calls (m st).2) ->
    drastic call = true ->
    In call (Monitor.calls st) \/ threshold <= streak (Monitor.table st).

(** A computation that does not bind the local variable [name]. *)
Definition leaves_unbound (name : string) {A : Type} (m : Monitor.M A) : Prop :=
  forall st,
    Monitor.locals st !! name = None ->
    Monitor.locals (m st).2 !! name = None.

(** The resource a request acts on: its kind and its identifier. *)
Definition acts_on (call : Monitor.Call) : option (string * string) :=
  match call with
  | Monitor.Backup kind resource
  | Monitor.Snapshot kind resource
  | Monitor.Stop kind resource
  | Monitor.Destroy kind resource
  | Monitor.Alert kind resource _ => Some (kind, resource)
  | Monitor.VerifyBackup resource => Some ("EC2", resource)
  | Monitor.Lifecycle resource => Some ("S3_BUCKET", resource)
  | Monitor.Checking _ _ | Monitor.Summary _ _ | Monitor.Metric _ _ => None
  end.

(** Three daily observations of a resource with one status, the last
    one eight days before [1700864000]. *)
Definition seen_thrice (resource_id status : string) : list Item :=
  [ Props.observed resource_id status 1700000000;
    Props.observed resource_id status 1700086400;
    Props.observed resource_id status 1700172800 ].

(** A log in which one resource of every kind has been seen idle on
    three checks, the database having been stopped after the third. *)
Definition idle_log : Table :=
  mkTable
    (seen_thrice "i-001" "IDLE_WARNING" ++
     seen_thrice "nat-001" "IDLE_WARNING" ++
     seen_thrice "eipalloc-001" "UNATTACHED" ++
     seen_thrice "orders-db" "IDLE_WARNING" ++
     [Props.observed "orders-db" "STOPPED" 1700172801] ++
     seen_thrice "old-logs" "EMPTY" ++
     seen_thrice "vol-001" "AVAILABLE" ++
     seen_thrice "arn:lb-001" "IDLE_WARNING" ++
     seen_thrice "vpc-001" "EMPTY_WARNING")%list
    true.

(** An account with one idle resource of every kind, eight days after
    the last observation of [idle_log]; every request succeeds. *)
Definition idle_account : Monitor.Cloud :=
  Monitor.mkCloud 1700864000 true true (fun _ => false) (fun _ => false)
    (Ok [Monitor.mkInstance "i-001" "running" [] "t3.micro"])
    (fun _ => 0%Q) (fun _ => true) (fun _ => Some "ami-1")
    (fun _ => Ok 1) (fun _ => true) (fun _ => [])
    [Monitor.mkNat "nat-001" []]
    (fun _ => true) (fun _ => true) (fun _ => (true, false))
    [Monitor.mkAddress "eipalloc-001" "198.51.100.7" [] None None None]
    (fun _ => true)
    ([Monitor.mkDB "orders-db" "stopped" [] "db.t3.micro" "postgres"], true)
    (fun _ => true) (fun _ => true) (fun _ => Some "snap-1")
    (fun _ => true) (fun _ => true)
    ["old-logs"] (fun _ => Ok []) (fun _ => true) (fun _ => true)
    (fun _ => Monitor.HasLifecycle) (fun _ => true)
    [Monitor.mkVolume "vol-001" "available" 100 "gp2" []]
    (fun _ => true) (fun _ => Some "snap-2") (fun _ => true)
    [Monitor.mkLB "arn:lb-001" "web" "application"]
    (fun _ => Ok []) (fun _ => true) (fun _ => true) (fun _ => true)
    [Monitor.mkVpc "vpc-001" [] false "10.0.0.0/16"]
    (fun _ => true) (fun _ => true) (fun _ => true).

(** The account of [idle_account] when the listing of instances fails. *)
Definition listing_down : Monitor.Cloud :=
  Monitor.mkCloud 1700864000 true true (fun _ => false) (fun _ => false)
    (Raise "ClientError")
    (fun _ => 0%Q) (fun _ => true) (fun _ => Some "ami-1")
    (fun _ => Ok 1) (fun _ => true) (fun _ => [])
    (Monitor.get_all_nat_gateways idle_account)
    (fun _ => true) (fun _ => true) (fun _ => (true, false))
    (Monitor.get_all_elastic_ips idle_account)
    (fun _ => true)
    (Monitor.get_all_rds_instances idle_account)
    (fun _ => true) (fun _ => true) (fun _ => Some "snap-1")
    (fun _ => true) (fun _ => true)
    (Monitor.get_all_s3_buckets idle_account)
    (fun _ => Ok []) (fun _ => true) (fun _ => true)
    (fun _ => Monitor.HasLifecycle) (fun _ => true)
    (Monitor.get_all_ebs_volumes idle_account)
    (fun _ => true) (fun _ => Some "snap-2") (fun _ => true)
    (Monitor.get_all_load_balancers idle_account)
    (fun _ => Ok []) (fun _ => true) (fun _ => true) (fun _ => true)
    (Monitor.get_all_vpcs idle_account)
    (fun _ => true) (fun _ => true) (fun _ => true).


(** A NAT gateway warned once. *)
Definition one_warning_log : Table :=
  mkTable [Props.observed "nat-0a1" "IDLE_WARNING" 1700172800] true.

(** The day after the check of [Props.backup_outage]. *)
Definition next_day : Monitor.Cloud :=
  Props.world 1700345600 false [] [Monitor.mkNat "nat-0a1" []] true (Ok 1).

(** Load-balancer monitoring switched off, VPC cleanup left on. *)
Definition lb_monitoring_off : Monitor.Switches := Monitor.mkSwitches false 1 true 1.

(** The requests of the cycle over [idle_account] and [idle_log]. *)
Definition idle_account_requests : list Monitor.Call :=
  Props.requests
    (Monitor.lambda_handler (Decision.source_config "backups")
       Monitor.source_switches idle_account (Monitor.initial_state idle_log)).2.

End Terms.

(** ** The decision function *)

Section DecisionFacts.

Import Decision Props.

Variable cfg : Config.
Variable now : Q.

Lemma idle_signal (cpu : Q) :
  (cpu < CPU_IDLE_THRESHOLD cfg)%Q ->
  Qle_bool (CPU_IDLE_THRESHOLD cfg) cpu = false.
Proof.
  intros Hlt. destruct (Qle_bool _ _) eqn:E; [|reflexivity].
  apply Qle_bool_iff in E. exfalso. apply (Qlt_not_le _ _ Hlt E).
Qed.

(** A quarantine entry ends the scan; every entry passed on the way adds
    one exactly when it is an idle observation. *)
Lemma scan_history_to_quarantine (newer_rev older_rev : list Item)
    (q_entry : Item) (n : Z) :
  forallb scan_passes newer_rev = true ->
  val_is (status_of q_entry) "QUARANTINE" = true ->
  scan_history (newer_rev ++ q_entry :: older_rev) n =
    (n + idle_entries newer_rev + 1,
     if Timestamp q_entry =? 0 then None
     else Some (inject_Z (Timestamp q_entry))).
Proof.
  revert n. induction newer_rev as [|e l IH]; intros n Hpass Hq.
  - cbn [app scan_history]. fold (status_of q_entry).
    destruct (val_is (status_of q_entry) "ACTIVE") eqn:Ea.
    { unfold val_is in *. destruct (status_of q_entry); try discriminate.
      apply String.eqb_eq in Ea, Hq. congruence. }
    destruct (val_in (status_of q_entry) ["IDLE"; "IDLE_WARNING"]) eqn:Ei.
    { unfold val_in, val_is in *. cbn in Ei.
      destruct (status_of q_entry); try discriminate.
      apply String.eqb_eq in Hq. subst s. discriminate. }
    rewrite Hq. unfold idle_entries. cbn.
    destruct (Timestamp q_entry =? 0); cbn; f_equal; lia.
  - cbn [forallb] in Hpass. apply andb_prop in Hpass as [He Hl].
    unfold scan_passes in He. apply andb_prop in He as [Ha Hqn].
    apply negb_true_iff in Ha, Hqn.
    cbn [app scan_history]. fold (status_of e). rewrite Ha.
    unfold idle_entries. cbn [List.filter]. unfold is_idle_entry at 1.
    destruct (val_in (status_of e) ["IDLE"; "IDLE_WARNING"]) eqn:Ei.
    + rewrite IH by assumption. unfold idle_entries.
      cbn [length]. f_equal. lia.
    + rewrite Hqn. rewrite IH by assumption. reflexivity.
Qed.

End DecisionFacts.

Section GracePeriod.

Import Decision Props.

Lemma forallb_rev {A : Type} (f : A -> bool) (l : list A) :
  forallb f l = true -> forallb f (rev l) = true.
Proof.
  rewrite !forallb_forall. intros H x Hx. apply H. now apply in_rev.
Qed.

Lemma idle_entries_rev (l : list Item) : idle_entries (rev l) = idle_entries l.
Proof.
  unfold idle_entries. f_equal.
  induction l as [|x l IH]; [reflexivity|].
  cbn [rev List.filter]. rewrite List.filter_app, List.length_app, IH.
  cbn [List.filter]. destruct (is_idle_entry x); cbn [length]; lia.
Qed.

(** Whole days: [g <= x] for an integer [g] exactly when [g] is at most
    the integer part of [x]. *)
Lemma whole_days (g : Z) (x : Q) :
  (inject_Z g <= x)%Q <-> g <= Qfloor x.
Proof.
  split; intros H.
  - rewrite <- (Qfloor_Z g). now apply Qfloor_resp_le.
  - apply Qle_trans with (inject_Z (Qfloor x)).
    + rewrite <- Zle_Qle. exact H.
    + apply Qfloor_le.
Qed.

(** Days against seconds. *)
Lemma days_seconds (g : Z) (e : Q) :
  (inject_Z g <= e / 86400)%Q <-> (inject_Z (g * 86400) <= e)%Q.
Proof.
  rewrite inject_Z_mult. split; intros H.
  - apply Qle_trans with (e / 86400 * 86400)%Q.
    + apply Qmult_le_compat_r; [exact H | discriminate].
    + rewrite Qmult_comm, Qmult_div_r; [apply Qle_refl | discriminate].
  - apply Qle_shift_div_l; [reflexivity | exact H].
Qed.

(** The decision once the scan has met a quarantine entry. *)
Lemma determine_action_quarantined (cfg : Config) (now : Q)
    (older newer : list Item) (q_entry : Item) (cpu : Q) :
  (cpu < CPU_IDLE_THRESHOLD cfg)%Q ->
  val_is (status_of q_entry) "QUARANTINE" = true ->
  Timestamp q_entry <> 0 ->
  forallb scan_passes newer = true ->
  determine_action cfg now (older ++ q_entry :: newer) cpu =
    (if Qle_bool (inject_Z (GRACE_PERIOD_DAYS cfg))
                 ((now - inject_Z (Timestamp q_entry)) / 86400)%Q
     then DELETE else QUARANTINE,
     idle_entries newer + 1,
     Some (inject_Z (Timestamp q_entry))).
Proof.
  intros Hidle Hq Hts Hpass. unfold determine_action.
  rewrite (idle_signal cfg cpu Hidle).
  rewrite rev_app_distr. cbn [rev]. rewrite <- app_assoc. cbn [app].
  rewrite (scan_history_to_quarantine (rev newer) (rev older) q_entry 0
             (forallb_rev _ _ Hpass) Hq).
  rewrite idle_entries_rev.
  destruct (Timestamp q_entry =? 0) eqn:E; [apply Z.eqb_eq in E; contradiction|].
  assert (Hset : date_set (Some (inject_Z (Timestamp q_entry))) = true).
  { unfold date_set, truthy. apply negb_true_iff.
    destruct (Qeq_bool _ _) eqn:Eq; [|reflexivity].
    apply Qeq_bool_iff in Eq. unfold Qeq in Eq. cbn in Eq. lia. }
  rewrite Hset. cbn [default].
  destruct (Qle_bool _ _); reflexivity.
Qed.

End GracePeriod.

(** C2 (active wins). For every history and every current CPU reading at
    or above the idle threshold, [determine_action] returns [ACTIVE] with
    idle count [0] and no quarantine date, whatever the history holds. *)
Theorem determine_action_active_wins (cfg : Decision.Config) (now : Q)
    (history : list Item) (current_cpu : Q) :
  (Decision.CPU_IDLE_THRESHOLD cfg <= current_cpu)%Q ->
  Decision.determine_action cfg now history current_cpu
  = (Decision.ACTIVE, 0, None).
Proof.
  intros Hcpu. unfold Decision.determine_action.
  apply Qle_bool_iff in Hcpu. rewrite Hcpu. reflexivity.
Qed.

(** A quarantined and warned history observed with a busy CPU. *)
Lemma determine_action_active_wins_witness :
  (Decision.CPU_IDLE_THRESHOLD (Decision.source_config "backups") <= 5)%Q /\
  Decision.determine_action (Decision.source_config "backups") 1700000000
    [ Props.observed "i-001" "IDLE_WARNING" 1699000000;
      Props.observed "i-001" "QUARANTINE" 1699100000 ] 5
  = (Decision.ACTIVE, 0, None).
Proof.
  split.
  - vm_compute. discriminate.
  - apply determine_action_active_wins. vm_compute. discriminate.
Defined.

(** C3 (grace period boundary). When the newest entry of the history that
    records activity or quarantine is a [QUARANTINE] entry with (non-zero)
    timestamp [q] and the current signal is idle, [determine_action]
    returns [DELETE] when [now - q] is at least [GRACE_PERIOD_DAYS] days,
    the boundary included, and [QUARANTINE] when it is strictly less;
    equivalently [DELETE] is returned exactly when the whole days elapsed,
    fractions rounded down, reach the grace period. *)
Theorem grace_period_boundary (cfg : Decision.Config) (now : Q)
    (older newer : list Item) (q_entry : Item) (current_cpu : Q) :
  (current_cpu < Decision.CPU_IDLE_THRESHOLD cfg)%Q ->
  val_is (Props.status_of q_entry) "QUARANTINE" = true ->
  Timestamp q_entry <> 0 ->
  forallb Props.scan_passes newer = true ->
  let elapsed := (now - inject_Z (Timestamp q_entry))%Q in
  let grace := inject_Z (Decision.GRACE_PERIOD_DAYS cfg * 86400) in
  let decision :=
    Decision.determine_action cfg now (older ++ q_entry :: newer) current_cpu in
  ((grace <= elapsed)%Q -> decision.1.1 = Decision.DELETE) /\
  ((elapsed < grace)%Q -> decision.1.1 = Decision.QUARANTINE) /\
  (decision.1.1 = Decision.DELETE <->
   Decision.GRACE_PERIOD_DAYS cfg <= Qfloor (elapsed / 86400)) /\
  decision.2 = Some (inject_Z (Timestamp q_entry)).
Proof.
  intros Hidle Hq Hts Hpass elapsed grace decision.
  unfold decision.
  rewrite (determine_action_quarantined cfg now older newer q_entry current_cpu
             Hidle Hq Hts Hpass).
  fold elapsed. cbn [fst snd].
  destruct (Qle_bool (inject_Z (Decision.GRACE_PERIOD_DAYS cfg))
                     (elapsed / 86400)) eqn:E.
  - apply Qle_bool_iff in E. repeat split; try reflexivity.
    + intros Hlt. exfalso. apply days_seconds in E.
      apply (Qlt_not_le _ _ Hlt E).
    + intros _. now apply whole_days.
  - assert (Hn : ~ (inject_Z (Decision.GRACE_PERIOD_DAYS cfg) <= elapsed / 86400)%Q).
    { intros H. apply Qle_bool_iff in H. congruence. }
    repeat split; try reflexivity.
    + intros Hge. exfalso. apply Hn. now apply days_seconds.
    + discriminate.
    + intros H. exfalso. apply Hn. now apply whole_days.
Qed.

(** A week of grace: at six days and 23:59:59 the instance stays
    quarantined, at exactly seven days it is deleted. *)
Lemma grace_period_boundary_witness :
  (Decision.determine_action Props.week_config (1700000000 + 7 * 86400 - 1)
     [ Props.observed "i-001" "IDLE_WARNING" 1699900000;
       Props.observed "i-001" "QUARANTINE" 1700000000 ] 0).1.1
  = Decision.QUARANTINE /\
  (Decision.determine_action Props.week_config (1700000000 + 7 * 86400)
     [ Props.observed "i-001" "IDLE_WARNING" 1699900000;
       Props.observed "i-001" "QUARANTINE" 1700000000 ] 0).1.1
  = Decision.DELETE.
Proof.
  split.
  - apply (grace_period_boundary Props.week_config
             (1700000000 + 7 * 86400 - 1)
             [Props.observed "i-001" "IDLE_WARNING" 1699900000] []
             (Props.observed "i-001" "QUARANTINE" 1700000000) 0);
      try reflexivity; try (vm_compute; congruence).
  - apply (grace_period_boundary Props.week_config
             (1700000000 + 7 * 86400)
             [Props.observed "i-001" "IDLE_WARNING" 1699900000] []
             (Props.observed "i-001" "QUARANTINE" 1700000000) 0);
      try reflexivity; try (vm_compute; congruence).
Defined.

Section IdleCount.

Import Decision Props.

Lemma idle_entry_not_active (e : Item) :
  is_idle_entry e = true -> val_is (status_of e) "ACTIVE" = false.
Proof.
  unfold is_idle_entry, val_in, val_is. cbn [existsb].
  destruct (status_of e) as [s| | |]; try discriminate.
  rewrite orb_false_r. intros H. apply orb_prop in H as [H|H];
    apply String.eqb_eq in H; subst s; reflexivity.
Qed.

(** Idle observations are counted one by one. *)
Lemma scan_history_idle_prefix (streak_rev rest : list Item) (n : Z) :
  forallb is_idle_entry streak_rev = true ->
  scan_history (streak_rev ++ rest) n =
  scan_history rest (n + Z.of_nat (length streak_rev)).
Proof.
  revert n. induction streak_rev as [|e l IH]; intros n H.
  - cbn. f_equal. lia.
  - cbn [forallb] in H. apply andb_prop in H as [He Hl].
    cbn [app scan_history]. fold (status_of e).
    rewrite (idle_entry_not_active e He).
    unfold is_idle_entry in He. rewrite He. rewrite IH by assumption.
    f_equal. cbn [length]. lia.
Qed.

(** The decision on a history that ends with idle observations only,
    after the last active entry (or from the start). *)
Lemma determine_action_idle_streak (cfg : Config) (now : Q)
    (older streak : list Item) (cpu : Q) :
  (cpu < CPU_IDLE_THRESHOLD cfg)%Q ->
  forallb is_idle_entry streak = true ->
  (older = [] \/
   exists older' a, older = (older' ++ [a])%list /\
                    val_is (status_of a) "ACTIVE" = true) ->
  determine_action cfg now (older ++ streak) cpu =
    (if IDLE_CHECKS_BEFORE_ACTION cfg <=? Z.of_nat (length streak)
     then (if SKIP_QUARANTINE cfg then DELETE else QUARANTINE)
     else WARN,
     Z.of_nat (length streak), None).
Proof.
  intros Hidle Hstreak Holder. unfold determine_action.
  rewrite (idle_signal cfg cpu Hidle), rev_app_distr.
  rewrite (scan_history_idle_prefix (rev streak) (rev older) 0
             (forallb_rev _ _ Hstreak)).
  rewrite length_rev, Z.add_0_l.
  assert (Hscan : forall n, scan_history (rev older) n = (n, None)).
  { intros n. destruct Holder as [-> | (older' & a & -> & Ha)].
    - reflexivity.
    - rewrite rev_app_distr. cbn [rev app scan_history].
      fold (status_of a). rewrite Ha. reflexivity. }
  rewrite Hscan. cbn [date_set].
  destruct (IDLE_CHECKS_BEFORE_ACTION cfg <=? Z.of_nat (length streak)).
  - destruct (SKIP_QUARANTINE cfg); reflexivity.
  - destruct (1 <=? Z.of_nat (length streak)) eqn:E; [reflexivity|].
    apply Z.leb_gt in E. repeat f_equal. lia.
Qed.

End IdleCount.

(** For any policy that asks for at least one idle check, the decision
    on an empty history is [ACTIVE] or [WARN]. *)
Lemma determine_action_no_history (cfg : Decision.Config) (now cpu : Q) :
  1 <= Decision.IDLE_CHECKS_BEFORE_ACTION cfg ->
  Decision.determine_action cfg now [] cpu =
    if Qle_bool (Decision.CPU_IDLE_THRESHOLD cfg) cpu
    then (Decision.ACTIVE, 0, None) else (Decision.WARN, 0, None).
Proof.
  intros Hchecks. unfold Decision.determine_action.
  destruct (Qle_bool _ _); [reflexivity|].
  cbn. destruct (Decision.IDLE_CHECKS_BEFORE_ACTION cfg <=? 0) eqn:E.
  - apply Z.leb_le in E. lia.
  - reflexivity.
Qed.

(** C9 (history read failure). If the history query raises, both at the
    table ([get_resource_history] on an unreachable table) and in a cycle
    ([resource_history] when the query for the resource raises), the
    history is the empty list and nothing propagates; on it the decision
    of the handler's settings is [WARN] with idle count [0] for an idle
    signal, and for any signal it is neither [QUARANTINE] nor [DELETE]. *)
Theorem history_failure_yields_warn (bucket : string) (tbl : Table)
    (c : Monitor.Cloud) (st : Monitor.State) (resource_id : string)
    (days : Z) (current_cpu : Q) :
  reachable tbl = false ->
  Monitor.query_raises c resource_id = true ->
  let cfg := Decision.source_config bucket in
  let history := Decision.get_resource_history tbl (Monitor.now c) resource_id days in
  let decision := Decision.determine_action cfg (Monitor.now c) history current_cpu in
  history = [] /\
  Monitor.resource_history c resource_id st = (Ok [], st) /\
  ((current_cpu < Decision.CPU_IDLE_THRESHOLD cfg)%Q ->
   decision = (Decision.WARN, 0, None)) /\
  decision.1.1 <> Decision.QUARANTINE /\
  decision.1.1 <> Decision.DELETE.
Proof.
  intros Hdown Hraise cfg history decision.
  assert (Hh : history = []).
  { unfold history, Decision.get_resource_history, Decision.table_query.
    rewrite Hdown. reflexivity. }
  assert (Hd : decision =
               if Qle_bool (Decision.CPU_IDLE_THRESHOLD cfg) current_cpu
               then (Decision.ACTIVE, 0, None) else (Decision.WARN, 0, None)).
  { unfold decision. rewrite Hh. apply determine_action_no_history.
    cbn. lia. }
  split; [exact Hh|]. split.
  { unfold Monitor.resource_history, Decision.get_resource_history,
      Decision.table_query. cbn [reachable]. rewrite Hraise.
    rewrite andb_false_r. reflexivity. }
  rewrite Hd. split.
  { intros Hidle. rewrite (idle_signal cfg current_cpu Hidle). reflexivity. }
  destruct (Qle_bool _ _); cbn; split; discriminate.
Qed.

(** An unreachable table holding a quarantine entry a year old: the
    failed read hides it and the idle instance is only warned. *)
Lemma history_failure_yields_warn_witness :
  Decision.determine_action (Decision.source_config "backups") 1700000000
    (Decision.get_resource_history
       (mkTable [Props.observed "i-001" "QUARANTINE" 1699000000] false)
       1700000000 "i-001" 30) 0
  = (Decision.WARN, 0, None).
Proof.
  apply (history_failure_yields_warn "backups"
           (mkTable [Props.observed "i-001" "QUARANTINE" 1699000000] false)
           Props.failing_reads (Monitor.initial_state (mkTable [] true))
           "i-001" 30 0);
    try reflexivity.
Defined.

Section WarnRecord.

Import Decision Monitor.

(** What [put_item] leaves in the table when it does not raise. *)
Lemma put_item_ok (c : Cloud) (it : Item) (st : State) :
  put_item_raises c it = false ->
  reachable (table st) = true ->
  put_item c it st =
    (Ok tt,
     mkState (mkTable (List.filter (fun x => negb (same_key x it))
                                   (items (table st)) ++ [it]) true)
             (locals st) (calls st)).
Proof.
  intros Hput Hup. unfold put_item. rewrite Hput, Hup. reflexivity.
Qed.

(** The record of a [WARN] decision carries the decision's idle count
    plus one. *)
Lemma ec2_execute_warn_record (cfg : Config) (c : Cloud) (instance : Instance)
    (tags : gmap string string) (idle_count : Z) (quarantine_date : option Q)
    (st : State) :
  (forall it, put_item_raises c it = false) ->
  reachable (table st) = true ->
  exists it,
    In it (items (table (ec2_execute cfg c instance tags
                           (WARN, idle_count, quarantine_date) st).2)) /\
    ResourceId it = InstanceId instance /\
    attrs it !! "Status" = Some (VStr "IDLE_WARNING") /\
    attrs it !! "IdleCount" = Some (VNum (inject_Z (idle_count + 1))).
Proof.
  intros Hput Hup.
  eexists (record c (InstanceId instance) "EC2" "IDLE_WARNING" _).
  unfold ec2_execute, mbind, M_bind, bind, when, mret, M_ret, ret.
  cbn [bump issue].
  destruct (backup_instance_config c (InstanceId instance)); cbn [bump];
    (rewrite put_item_ok; [| apply Hput | exact Hup]);
    destruct (idle_count =? 0); cbn [issue snd table items];
    (split; [apply in_or_app; right; left; reflexivity |]);
    (split; [reflexivity |]); split; reflexivity.
Qed.

End WarnRecord.

(** C4, as stated, fails: for the history [[ACTIVE@t0]] and an idle
    signal the decision carries idle count [0], not [1]; after one
    [IDLE_WARNING] record ([IdleCount] 1) the decision carries [1], not
    [2]; after a [QUARANTINE] record written with [IdleCount] 3 the
    decision carries [1], not [4], and so does the record the cycle
    writes next. *)
Lemma idle_count_plus_one_counterexample :
  Decision.determine_action (Decision.source_config "backups") 1700003600
    [Props.observed "i-001" "ACTIVE" 1700000000] 0
  = (Decision.WARN, 0, None) /\
  (Decision.determine_action Props.week_config 1700003600
     [ mkItem "i-001" 1700000000
         (list_to_map [("Status", VStr "IDLE_WARNING"); ("IdleCount", VNum 1)]) ]
     0).1.2 = 1 /\
  (Decision.determine_action Props.week_config 1700345600
     (items Props.quarantined_log) 0).1
  = (Decision.QUARANTINE, 1) /\
  Props.idle_counts
    (Monitor.table
       (Monitor.ec2_iteration Props.week_config Props.still_stopped
          (Monitor.mkInstance "i-001" "stopped" [] "t2.micro")
          (Monitor.initial_state Props.quarantined_log)).2)
  = [ (1700000000, Some (VStr "IDLE_WARNING"), Some (VNum 1));
      (1700086400, Some (VStr "IDLE_WARNING"), Some (VNum 2));
      (1700172800, Some (VStr "IDLE_WARNING"), Some (VNum 3));
      (1700259200, Some (VStr "QUARANTINE"), Some (VNum 3));
      (1700345600, Some (VStr "QUARANTINE"), Some (VNum 1)) ].
Proof. repeat split; vm_compute; reflexivity. Qed.

(** C4 (amended). With an idle signal: (1) when the history ends with [k]
    idle observations that follow the latest [ACTIVE] entry, or the start
    of the history, the decision carries idle count [k] and no quarantine
    date, and it is [WARN] while [k] is below [IDLE_CHECKS_BEFORE_ACTION];
    (2) when the newest active-or-quarantine entry is a [QUARANTINE]
    entry, the idle count is one plus the number of idle observations
    newer than it; (3) the [IDLE_WARNING] record the cycle writes for a
    [WARN] decision carries [IdleCount] equal to the decision's idle
    count plus one. *)
Theorem idle_count_counts_idle_entries (cfg : Decision.Config)
    (c : Monitor.Cloud) (current_cpu : Q) :
  (current_cpu < Decision.CPU_IDLE_THRESHOLD cfg)%Q ->
  (forall older streak : list Item,
     forallb Props.is_idle_entry streak = true ->
     (older = [] \/
      exists older' a, older = (older' ++ [a])%list /\
                       val_is (Props.status_of a) "ACTIVE" = true) ->
     Decision.determine_action cfg (Monitor.now c) (older ++ streak) current_cpu
     = (if Decision.IDLE_CHECKS_BEFORE_ACTION cfg <=? Z.of_nat (length streak)
        then (if Decision.SKIP_QUARANTINE cfg
              then Decision.DELETE else Decision.QUARANTINE)
        else Decision.WARN,
        Z.of_nat (length streak), None)) /\
  (forall (older newer : list Item) (q_entry : Item),
     val_is (Props.status_of q_entry) "QUARANTINE" = true ->
     Timestamp q_entry <> 0 ->
     forallb Props.scan_passes newer = true ->
     (Decision.determine_action cfg (Monitor.now c)
        (older ++ q_entry :: newer) current_cpu).1.2
     = Props.idle_entries newer + 1) /\
  (forall (instance : Monitor.Instance) (tags : gmap string string)
          (idle_count : Z) (quarantine_date : option Q) (st : Monitor.State),
     (forall it, Monitor.put_item_raises c it = false) ->
     reachable (Monitor.table st) = true ->
     exists it,
       In it (items (Monitor.table
                (Monitor.ec2_execute cfg c instance tags
                   (Decision.WARN, idle_count, quarantine_date) st).2)) /\
       ResourceId it = Monitor.InstanceId instance /\
       attrs it !! "Status" = Some (VStr "IDLE_WARNING") /\
       attrs it !! "IdleCount" = Some (VNum (inject_Z (idle_count + 1)))).
Proof.
  intros Hidle. split; [|split].
  - intros older streak Hstreak Holder.
    now apply determine_action_idle_streak.
  - intros older newer q_entry Hq Hts Hpass.
    rewrite (determine_action_quarantined cfg (Monitor.now c) older newer
               q_entry current_cpu Hidle Hq Hts Hpass).
    reflexivity.
  - intros instance tags idle_count quarantine_date st Hput Hup.
    now apply ec2_execute_warn_record.
Qed.

(** The scenario of C4: history [[ACTIVE@t0]], idle signal.  The
    decision is [WARN] with idle count [0]; the record written has
    [IdleCount] 1. *)
Lemma idle_count_counts_idle_entries_witness :
  Decision.determine_action (Decision.source_config "backups") 1700003600
    ([Props.observed "i-001" "ACTIVE" 1700000000] ++ []) 0
  = (Decision.WARN, 0, None) /\
  exists it,
    In it (items (Monitor.table
             (Monitor.ec2_execute (Decision.source_config "backups")
                (Props.world 1700003600 false [] [] true (Ok 1))
                (Monitor.mkInstance "i-001" "running" [] "t2.micro") ∅
                (Decision.WARN, 0, None)
                (Monitor.initial_state
                   (mkTable [Props.observed "i-001" "ACTIVE" 1700000000] true))).2)) /\
    ResourceId it = "i-001" /\
    attrs it !! "Status" = Some (VStr "IDLE_WARNING") /\
    attrs it !! "IdleCount" = Some (VNum (inject_Z (0 + 1))).
Proof.
  pose proof (idle_count_counts_idle_entries
                (Decision.source_config "backups")
                (Props.world 1700003600 false [] [] true (Ok 1)) 0
                eq_refl) as (Hstreak & _ & Hrecord).
  split.
  - apply (Hstreak [Props.observed "i-001" "ACTIVE" 1700000000] []).
    + reflexivity.
    + right. exists [], (Props.observed "i-001" "ACTIVE" 1700000000).
      split; reflexivity.
  - apply (Hrecord (Monitor.mkInstance "i-001" "running" [] "t2.micro")).
    + intros it. reflexivity.
    + reflexivity.
Defined.

Section PricingFacts.

Import Pricing Decision.

Lemma region_us_east_1 :
  default ∅ (AWS_PRICING !! "us-east-1") = list_to_map us_east_1.
Proof. unfold AWS_PRICING. rewrite lookup_singleton_eq. reflexivity. Qed.

Lemma service_entry_EC2 :
  (list_to_map us_east_1 : gmap string PriceEntry) !! "EC2"
  = Some (ByType (list_to_map EC2_rates)).
Proof. vm_compute. reflexivity. Qed.

Lemma service_entry_RDS :
  (list_to_map us_east_1 : gmap string PriceEntry) !! "RDS"
  = Some (ByType (list_to_map RDS_rates)).
Proof. vm_compute. reflexivity. Qed.

(** Every fixed-rate type of every region is bound to a number, so the
    first branch of [get_hourly_rate] never returns a dictionary. *)
Lemma fixed_rate_entries_flat (region resource_type : string) :
  In resource_type fixed_rate_types ->
  match default ∅ (AWS_PRICING !! region) !! resource_type with
  | Some (ByType _) => False
  | _ => True
  end.
Proof.
  intros Hin. unfold AWS_PRICING.
  destruct (decide (region = "us-east-1")) as [->|Hne].
  - rewrite lookup_singleton_eq. cbn [default].
    cbn in Hin.
    repeat (destruct Hin as [<- | Hin]; [vm_compute; exact I|]).
    contradiction.
  - rewrite lookup_singleton_ne by congruence. cbn [default].
    rewrite lookup_empty. exact I.
Qed.

(** The monthly savings of a by-type service in [us-east-1]. *)
Lemma monthly_savings_by_type (service instance_class : string)
    (rates : list (string * Q)) :
  val_in (VStr service) fixed_rate_types = false ->
  (list_to_map us_east_1 : gmap string PriceEntry) !! service
  = Some (ByType (list_to_map rates)) ->
  calculate_monthly_savings (VStr service) (VStr instance_class) "us-east-1"
  = (default 0.0 ((list_to_map rates : gmap string Q) !! instance_class)
     * HOURS_PER_MONTH)%Q.
Proof.
  intros Hfixed Hentry.
  unfold calculate_monthly_savings, get_hourly_rate.
  rewrite region_us_east_1, Hfixed. cbn [dict_get]. rewrite Hentry.
  reflexivity.
Qed.

(** Entries of a dictionary built from a list come from the list. *)
Lemma list_to_map_entry (l : list (string * Q)) (k : string) (v : Q) :
  (list_to_map l : gmap string Q) !! k = Some v -> In (k, v) l.
Proof.
  intros H. apply elem_of_list_to_map_2 in H. now apply list_elem_of_In.
Qed.

Lemma instance_pricing_positive (instance_type : string) (cost : Q) :
  instance_pricing !! instance_type = Some cost -> (3 < cost)%Q.
Proof.
  intros H. apply list_to_map_entry in H. cbn in H.
  repeat (destruct H as [H | H]; [inversion H; reflexivity|]).
  contradiction.
Qed.

Lemma size_bucket_estimate_lower_bound (instance_type : string) :
  (5 <= size_bucket_estimate instance_type)%Q.
Proof.
  unfold size_bucket_estimate.
  repeat (match goal with |- context [if ?b then _ else _] => destruct b end);
    discriminate.
Qed.

Lemma get_instance_cost_cases (instance_type : string) :
  get_instance_cost instance_type =
    match instance_pricing !! instance_type with
    | Some cost => cost
    | None => size_bucket_estimate instance_type
    end.
Proof.
  unfold get_instance_cost.
  destruct (instance_pricing !! instance_type) as [cost|] eqn:E; [|reflexivity].
  apply instance_pricing_positive in E.
  unfold truthy. destruct (Qeq_bool cost 0) eqn:Eq; [|reflexivity].
  apply Qeq_bool_iff in Eq. rewrite Eq in E. discriminate.
Qed.

End PricingFacts.

(** C6, as stated, fails: [m6i.large] is not in the price table, and the
    monthly cost the savings computation uses for it is zero; the deleted
    instance is left out of the month's report. *)
Lemma unknown_class_priced_zero_counterexample :
  (list_to_map Pricing.EC2_rates : gmap string Q) !! "m6i.large" = None /\
  (Pricing.calculate_monthly_savings (VStr "EC2") (VStr "m6i.large") "us-east-1"
   == 0)%Q /\
  Calculator.detailed_resources
    (Calculator.aggregate "us-east-1" "2025-01"
       [ mkItem "i-001" 1736000000
           (list_to_map [ ("ResourceType", VStr "EC2"); ("Status", VStr "DELETED");
                          ("InstanceType", VStr "m6i.large") ]) ])
  = [].
Proof. repeat split; vm_compute; reflexivity. Qed.

(** C6 (amended). For every instance class, the monthly cost used by the
    savings computation in [us-east-1] is the price-table rate times 730
    hours when the class is in the table of its service, and zero when it
    is not; the estimate the monitor records at deletion,
    [get_instance_cost], is the entry of its own table for a known class
    and a size-bucketed estimate of at least 5 for an unknown one, and is
    never zero. *)
Theorem monthly_cost_table_entry_or_fallback (instance_class : string) :
  Pricing.calculate_monthly_savings (VStr "EC2") (VStr instance_class) "us-east-1"
  = match (list_to_map Pricing.EC2_rates : gmap string Q) !! instance_class with
    | Some rate => (rate * Pricing.HOURS_PER_MONTH)%Q
    | None => (0.0 * Pricing.HOURS_PER_MONTH)%Q
    end /\
  Pricing.calculate_monthly_savings (VStr "RDS") (VStr instance_class) "us-east-1"
  = match (list_to_map Pricing.RDS_rates : gmap string Q) !! instance_class with
    | Some rate => (rate * Pricing.HOURS_PER_MONTH)%Q
    | None => (0.0 * Pricing.HOURS_PER_MONTH)%Q
    end /\
  Decision.get_instance_cost instance_class
  = match Decision.instance_pricing !! instance_class with
    | Some cost => cost
    | None => Decision.size_bucket_estimate instance_class
    end /\
  (5 <= Decision.size_bucket_estimate instance_class)%Q /\
  (0 < Decision.get_instance_cost instance_class)%Q.
Proof.
  repeat split.
  - rewrite (monthly_savings_by_type "EC2" instance_class Pricing.EC2_rates
               eq_refl service_entry_EC2).
    destruct (_ !! instance_class); reflexivity.
  - rewrite (monthly_savings_by_type "RDS" instance_class Pricing.RDS_rates
               eq_refl service_entry_RDS).
    destruct (_ !! instance_class); reflexivity.
  - apply get_instance_cost_cases.
  - apply size_bucket_estimate_lower_bound.
  - rewrite get_instance_cost_cases.
    destruct (Decision.instance_pricing !! instance_class) as [cost|] eqn:E.
    + apply Qlt_trans with 3%Q; [reflexivity|].
      now apply (instance_pricing_positive instance_class).
    + apply Qlt_le_trans with 5%Q; [reflexivity|].
      apply size_bucket_estimate_lower_bound.
Qed.

Section CsvFacts.

Import PyFmt Calculator.

(** Formatting depends on the value of the amount, not on the fraction
    that represents it. *)
Lemma fmt_2f_comp (a b : Q) : (a == b)%Q -> fmt_2f a = fmt_2f b.
Proof.
  intros H. unfold fmt_2f, round_half_even.
  assert (Hc : (a ?= 0)%Q = (b ?= 0)%Q) by (now rewrite H).
  assert (Hs : (Qabs a * 100 == Qabs b * 100)%Q) by (now rewrite H).
  assert (Hf : Qfloor (Qabs a * 100) = Qfloor (Qabs b * 100))
    by (now apply Qfloor_comp).
  assert (Hr : ((Qabs a * 100 - inject_Z (Qfloor (Qabs a * 100)) ?= 1 # 2)
                = (Qabs b * 100 - inject_Z (Qfloor (Qabs b * 100)) ?= 1 # 2))%Q)
    by (now rewrite Hf, Hs).
  rewrite Hc, Hr, Hf. reflexivity.
Qed.

Lemma csv_lines_length (sd : SavingsData) :
  length (csv_lines sd) = (length (detailed_resources sd) + 4)%nat.
Proof.
  unfold csv_lines. rewrite !List.length_app, List.length_map. cbn. lia.
Qed.

Lemma csv_lines_row (sd : SavingsData) (i : nat) (r : DetailedResource) :
  nth_error (detailed_resources sd) i = Some r ->
  nth_error (csv_lines sd) (S i) = Some (csv_row r).
Proof.
  intros H. unfold csv_lines. cbn [app nth_error].
  rewrite nth_error_app1.
  - rewrite nth_error_map, H. reflexivity.
  - rewrite List.length_map. apply nth_error_Some. congruence.
Qed.

Lemma csv_lines_trailer (sd : SavingsData) (k : nat) :
  nth_error (csv_lines sd) (S (length (detailed_resources sd)) + k) =
  nth_error [ EmptyString;
              ("Total Savings,,,$" ++ fmt_2f (total_savings sd))%string;
              ("Total Resources,,," ++ str_int (total_resources sd))%string ] k.
Proof.
  unfold csv_lines. cbn [app nth_error Nat.add].
  rewrite nth_error_app2 by (rewrite List.length_map; lia).
  rewrite List.length_map. replace (_ + k - _)%nat with k by lia.
  reflexivity.
Qed.

End CsvFacts.

(** C8 (CSV export). The lines of the report are: the header; one row per
    detailed resource, in order; an empty line; [Total Savings,,,$<amount>]
    with two decimals; [Total Resources,,,<count>].  When there are exactly
    two resources and the totals are 2 and 10.00 + 25.50, the last two
    lines are [Total Savings,,,$35.50] and [Total Resources,,,2]. *)
Theorem csv_report_layout (savings_data : Calculator.SavingsData) :
  let lines := Calculator.csv_lines savings_data in
  let n := length (Calculator.detailed_resources savings_data) in
  Calculator.generate_csv_report savings_data = PyFmt.join_lines lines /\
  nth_error lines 0
  = Some "Date,Resource ID,Resource Type,Instance Type,Monthly Savings" /\
  length lines = (n + 4)%nat /\
  (forall i r,
     nth_error (Calculator.detailed_resources savings_data) i = Some r ->
     nth_error lines (S i) = Some (Calculator.csv_row r)) /\
  nth_error lines (n + 2)
  = Some ("Total Savings,,,$" ++
          PyFmt.fmt_2f (Calculator.total_savings savings_data)) /\
  nth_error lines (n + 3)
  = Some ("Total Resources,,," ++
          PyFmt.str_int (Calculator.total_resources savings_data)) /\
  (n = 2%nat ->
   Calculator.total_resources savings_data = 2 ->
   (Calculator.total_savings savings_data == 10.00 + 25.50)%Q ->
   nth_error lines 4 = Some "Total Savings,,,$35.50" /\
   nth_error lines 5 = Some "Total Resources,,,2").
Proof.
  intros lines n. unfold lines, n.
  pose proof (csv_lines_trailer savings_data 1) as H1.
  pose proof (csv_lines_trailer savings_data 2) as H2.
  cbn [nth_error] in H1, H2.
  replace (S (length (Calculator.detailed_resources savings_data)) + 1)%nat
    with (length (Calculator.detailed_resources savings_data) + 2)%nat
    in H1 by lia.
  replace (S (length (Calculator.detailed_resources savings_data)) + 2)%nat
    with (length (Calculator.detailed_resources savings_data) + 3)%nat
    in H2 by lia.
  repeat split.
  - apply csv_lines_length.
  - apply csv_lines_row.
  - exact H1.
  - exact H2.
  - rewrite H in H1. cbn [Nat.add] in H1. rewrite H1.
    rewrite (fmt_2f_comp _ _ H3). reflexivity.
  - rewrite H in H2. cbn [Nat.add] in H2. rewrite H2, H0. reflexivity.
Qed.

(** The scenario of C8, end to end. *)
Lemma csv_report_layout_witness :
  (nth_error (Calculator.csv_lines Props.two_resources_month) 4
   = Some "Total Savings,,,$35.50" /\
   nth_error (Calculator.csv_lines Props.two_resources_month) 5
   = Some "Total Resources,,,2") /\
  Calculator.generate_csv_report Props.two_resources_month
  = "Date,Resource ID,Resource Type,Instance Type,Monthly Savings
2025-01-03,i-001,EC2,t9.a,$10.00
2025-01-04,i-002,EC2,t9.b,$25.50

Total Savings,,,$35.50
Total Resources,,,2".
Proof.
  split.
  - apply (csv_report_layout Props.two_resources_month); reflexivity.
  - reflexivity.
Defined.

(** C5 at a deleted RDS instance of class [db.t3.micro], region
    [us-east-1]: the monthly report prices the record by its
    [DBInstanceClass] (12.41 a month), and so does the reduction with no
    time bound; [calculate_cumulative_savings] projects the record to
    [ResourceType] and [InstanceType], prices it as class [Unknown] and
    returns zero. *)
Theorem cumulative_savings_ignores_db_class :
  (exists sd,
     Calculator.calculate_savings "us-east-1" Props.rds_deleted_log 2025 1 = Ok sd /\
     (Calculator.total_savings sd == 12.41)%Q /\
     Calculator.total_resources sd = 1) /\
  (Props.cumulative_savings_spec "us-east-1" Props.rds_deleted_log == 12.41)%Q /\
  (Calculator.calculate_cumulative_savings "us-east-1" Props.rds_deleted_log == 0)%Q.
Proof.
  split; [|split].
  - eexists. split; [vm_compute; reflexivity|]. split; vm_compute; reflexivity.
  - vm_compute. reflexivity.
  - vm_compute. reflexivity.
Qed.

Section Exclusion.

Import Pricing Calculator Props.

(** A record without positive savings leaves the accumulators of
    [calculate_savings] as they are. *)
Lemma savings_step_zero (region : string)
    (acc : list (string * ServiceSavings) * list DetailedResource)
    (resource : Item) :
  (record_savings region resource == 0)%Q ->
  savings_step region acc resource = acc.
Proof.
  intros Hz. unfold savings_step. destruct acc as [by_service detailed].
  fold (record_savings region resource).
  destruct (Qlt_le_dec 0 (record_savings region resource)) as [Hpos|Hle].
  - rewrite Hz in Hpos. discriminate.
  - reflexivity.
Qed.

Lemma aggregate_skips_zero (region month : string)
    (before after : list Item) (resource : Item) :
  (record_savings region resource == 0)%Q ->
  aggregate region month (before ++ resource :: after)
  = aggregate region month (before ++ after).
Proof.
  intros Hz. unfold aggregate.
  rewrite !fold_left_app. cbn [fold_left].
  rewrite (savings_step_zero region _ resource Hz). reflexivity.
Qed.

(** The types priced at [0.0] save nothing in any region, whatever the
    instance type. *)
Lemma zero_priced_types (resource_type : string) (instance_type : Value)
    (region : string) :
  In resource_type ["S3_BUCKET"; "VPC"; "SUBNET"] ->
  (calculate_monthly_savings (VStr resource_type) instance_type region == 0)%Q.
Proof.
  intros Hin. unfold calculate_monthly_savings, get_hourly_rate, AWS_PRICING.
  destruct (decide (region = "us-east-1")) as [->|Hne].
  - rewrite lookup_singleton_eq. cbn [default]. cbn in Hin.
    repeat (destruct Hin as [<- | Hin]; [vm_compute; reflexivity|]).
    contradiction.
  - rewrite lookup_singleton_ne by congruence. cbn [default].
    cbn in Hin.
    repeat (destruct Hin as [<- | Hin];
            [cbn; rewrite lookup_empty; reflexivity|]).
    contradiction.
Qed.

(** An instance type that is not in the table of its service saves
    nothing. *)
Lemma absent_instance_type_zero (instance_class : string) :
  (list_to_map EC2_rates : gmap string Q) !! instance_class = None ->
  (calculate_monthly_savings (VStr "EC2") (VStr instance_class) "us-east-1"
   == 0)%Q.
Proof.
  intros Habs.
  rewrite (monthly_savings_by_type "EC2" instance_class EC2_rates
             eq_refl service_entry_EC2), Habs.
  reflexivity.
Qed.

End Exclusion.

(** C10 (zero-savings records). A [DELETED] or [STOPPED] record whose
    monthly savings are zero changes nothing in the month's report: the
    result of [calculate_savings] (totals, [savings_by_service], detail
    rows) and the CSV built from it are those of the table without the
    record.  Records of type [S3_BUCKET], [VPC] or [SUBNET] are such
    records in every region, and so are EC2 records whose instance type
    is not in the price table. *)
Theorem zero_savings_records_excluded (region : string) (up : bool)
    (before after : list Item) (resource : Item) (year month : Z) :
  ((Props.record_savings region resource == 0)%Q ->
   Calculator.calculate_savings region
     (mkTable (before ++ resource :: after) up) year month
   = Calculator.calculate_savings region
       (mkTable (before ++ after) up) year month /\
   Calculator.generate_csv_report
     (Calculator.aggregate region (Calculator.month_str year month)
        (before ++ resource :: after))
   = Calculator.generate_csv_report
       (Calculator.aggregate region (Calculator.month_str year month)
          (before ++ after))) /\
  (forall resource_type,
     In resource_type ["S3_BUCKET"; "VPC"; "SUBNET"] ->
     item_get resource "ResourceType" (VStr "Unknown") = VStr resource_type ->
     (Props.record_savings region resource == 0)%Q) /\
  (forall instance_class,
     item_get resource "ResourceType" (VStr "Unknown") = VStr "EC2" ->
     attrs resource !! "InstanceType" = Some (VStr instance_class) ->
     (list_to_map Pricing.EC2_rates : gmap string Q) !! instance_class = None ->
     (Props.record_savings "us-east-1" resource == 0)%Q).
Proof.
  split; [|split].
  - intros Hz. split.
    + unfold Calculator.calculate_savings, table_scan. cbn [reachable items].
      destruct up; [|reflexivity].
      rewrite !List.filter_app. cbn [List.filter].
      destruct (_ && _); [|reflexivity].
      f_equal. now apply aggregate_skips_zero.
    + f_equal. now apply aggregate_skips_zero.
  - intros resource_type Hin Hty. unfold Props.record_savings.
    rewrite Hty. now apply zero_priced_types.
  - intros instance_class Hty Hit Habs.
    unfold Props.record_savings, Calculator.select_instance_type.
    rewrite Hty.
    change (val_in (VStr "EC2") Pricing.fixed_rate_types) with false.
    change (val_is (VStr "EC2") "EBS") with false. cbn iota.
    unfold item_get at 1. rewrite Hit. cbn [default from_option id].
    now apply absent_instance_type_zero.
Qed.

(** An emptied bucket deleted in January 2025 next to a deleted RDS
    instance: the report is that of the RDS instance alone. *)
Lemma zero_savings_records_excluded_witness :
  Calculator.calculate_savings "us-east-1"
    (mkTable
       ([] ++ mkItem "logs-bucket" 1736000500
                (list_to_map [ ("ResourceType", VStr "S3_BUCKET");
                               ("Status", VStr "DELETED") ])
           :: items Props.rds_deleted_log) true) 2025 1
  = Calculator.calculate_savings "us-east-1"
      (mkTable ([] ++ items Props.rds_deleted_log) true) 2025 1.
Proof.
  apply zero_savings_records_excluded. vm_compute. reflexivity.
Defined.

(** ** The monitoring cycle *)

Section BackupGate.

Import Decision Monitor.

(** The EC2 path refuses to terminate when the backup listing raises or
    finds nothing: no destroy request is issued, nothing is written, and
    the refusal is counted as an error. *)
Lemma ec2_delete_needs_verified_backup (cfg : Config) (c : Cloud)
    (instance : Instance) (tags : gmap string string)
    (quarantine_date : option Q) (st : State) :
  match list_backup_objects c (InstanceId instance) with
  | Ok key_count => key_count <= 0
  | Raise _ => True
  end ->
  ec2_delete cfg c instance tags quarantine_date st =
    bump "stats" "errors"
      (mkState (table st) (locals st)
               (calls st ++ [VerifyBackup (InstanceId instance)])).
Proof.
  intros Hverify.
  unfold ec2_delete, try_except, mbind, M_bind, bind. cbn [issue].
  destruct (list_backup_objects c (InstanceId instance)) as [key_count|e].
  - destruct (0 <? key_count) eqn:E; [apply Z.ltb_lt in E; lia|].
    reflexivity.
  - reflexivity.
Qed.

End BackupGate.

(** C1 at an idle NAT gateway whose configuration backup fails: the cycle
    asks for the backup, does not look at its result, issues the deletion
    and records [DELETED]; no backup is verified before the destroy
    request. *)
Theorem nat_gateway_deleted_without_backup :
  Monitor.backup_nat_gateway_config Props.backup_outage "nat-0a1" = false /\
  Props.answered
    (Monitor.lambda_handler (Decision.source_config "backups")
       Monitor.source_switches Props.backup_outage
       (Monitor.initial_state Props.idle_nat_log))
  = Some 200 /\
  Props.requests
    (Monitor.lambda_handler (Decision.source_config "backups")
       Monitor.source_switches Props.backup_outage
       (Monitor.initial_state Props.idle_nat_log)).2
  = [ Monitor.Checking "NAT_GATEWAY" "nat-0a1";
      Monitor.Backup "NAT_GATEWAY" "nat-0a1";
      Monitor.Destroy "NAT_GATEWAY" "nat-0a1";
      Monitor.Alert "NAT_GATEWAY" "nat-0a1" "DELETED" ] /\
  Props.statuses
    (Monitor.table
       (Monitor.lambda_handler (Decision.source_config "backups")
          Monitor.source_switches Props.backup_outage
          (Monitor.initial_state Props.idle_nat_log)).2)
  = [ ("nat-0a1", 1700000000, Some (VStr "IDLE_WARNING"));
      ("nat-0a1", 1700086400, Some (VStr "IDLE_WARNING"));
      ("nat-0a1", 1700172800, Some (VStr "IDLE_WARNING"));
      ("nat-0a1", 1700259200, Some (VStr "DELETED")) ].
Proof. repeat split; vm_compute; reflexivity. Qed.

Section MonadFacts.

Import Decision Monitor Props.

Lemma extends_refl (st : State) : extends st st.
Proof.
  split; [exists []; now rewrite app_nil_r | auto].
Qed.

Lemma extends_trans (a b c : State) : extends a b -> extends b c -> extends a c.
Proof.
  intros [[l1 H1] B1] [[l2 H2] B2]. split.
  - exists (l1 ++ l2)%list. rewrite H2, H1, app_assoc. reflexivity.
  - auto.
Qed.

Lemma extends_calls (st st' : State) (call : Call) :
  extends st st' -> In call (calls st) -> In call (calls st').
Proof.
  intros [[l H] _] Hin. rewrite H. apply in_or_app. now left.
Qed.

Lemma extends_bound (st st' : State) (name : string) :
  extends st st' -> is_Some (locals st !! name) -> is_Some (locals st' !! name).
Proof. intros [_ H]. apply H. Qed.

(** A change of the local variables that keeps bound names bound. *)
Lemma extends_locals (st : State) (l : gmap string (gmap string Z)) :
  (forall name, is_Some (locals st !! name) -> is_Some (l !! name)) ->
  extends st (mkState (table st) l (calls st)).
Proof.
  intros H. split; [exists []; cbn; now rewrite app_nil_r | exact H].
Qed.

Lemma insert_keeps_bound (l : gmap string (gmap string Z)) (name : string)
    (d : gmap string Z) (other : string) :
  is_Some (l !! other) -> is_Some (<[name := d]> l !! other).
Proof.
  intros H. destruct (decide (name = other)) as [->|Hne].
  - rewrite lookup_insert_eq. eauto.
  - now rewrite lookup_insert_ne.
Qed.

Lemma steady_ret {A : Type} (a : A) : steady (mret a : M A).
Proof. intros st. apply extends_refl. Qed.

Lemma steady_raise {A : Type} (e : string) : steady (raise e : M A).
Proof. intros st. apply extends_refl. Qed.

Lemma steady_bind {A B : Type} (m : M A) (k : A -> M B) :
  steady m -> (forall a, steady (k a)) -> steady (m ≫= k).
Proof.
  intros Hm Hk st. specialize (Hm st).
  unfold mbind, M_bind, bind. destruct (m st) as [[a|e] st1]; cbn in *.
  - eapply extends_trans; [exact Hm | apply Hk].
  - exact Hm.
Qed.

Lemma steady_try_except {A : Type} (body : M A) (handler : string -> M A) :
  steady body -> (forall e, steady (handler e)) -> steady (try_except body handler).
Proof.
  intros Hb Hh st. specialize (Hb st).
  unfold try_except. destruct (body st) as [[a|e] st1]; cbn in *.
  - exact Hb.
  - eapply extends_trans; [exact Hb | apply Hh].
Qed.

Lemma steady_issue (call : Call) : steady (issue call).
Proof.
  intros st. split; [exists [call]; reflexivity | auto].
Qed.

Lemma steady_bump (name key : string) : steady (bump name key).
Proof. intros st. apply extends_locals. intros other. apply insert_keeps_bound. Qed.

Lemma steady_set_key (name key : string) (value : Z) :
  steady (set_key name key value).
Proof. intros st. apply extends_locals. intros other. apply insert_keeps_bound. Qed.

Lemma steady_set_local (name : string) (d : list (string * Z)) :
  steady (set_local name d).
Proof. intros st. apply extends_locals. intros other. apply insert_keeps_bound. Qed.

Lemma steady_read_local (name : string) : steady (read_local name).
Proof.
  intros st. unfold read_local. destruct (locals st !! name); apply extends_refl.
Qed.

Lemma steady_in_locals (name : string) : steady (in_locals name).
Proof. intros st. apply extends_refl. Qed.

Lemma steady_put_item (c : Cloud) (it : Item) : steady (put_item c it).
Proof.
  intros st. unfold put_item. destruct (_ || _); cbn.
  - apply extends_refl.
  - split; [exists []; cbn; now rewrite app_nil_r | auto].
Qed.

Lemma steady_resource_history (c : Cloud) (resource_id : string) :
  steady (resource_history c resource_id).
Proof. intros st. apply extends_refl. Qed.

Lemma steady_when (cond : bool) (body : M unit) :
  steady body -> steady (when cond body).
Proof. intros H. destruct cond; [exact H | apply steady_ret]. Qed.

Lemma steady_isolate (name : string) (body : M unit) :
  steady body -> steady (isolate name body).
Proof.
  intros H. apply steady_try_except; [exact H | intros e; apply steady_bump].
Qed.

Lemma steady_for_each {R : Type} (body : R -> M unit) (xs : list R) :
  (forall x, steady (body x)) -> steady (for_each body xs).
Proof.
  intros H. induction xs as [|x rest IH]; cbn [for_each].
  - apply steady_ret.
  - apply steady_bind; [apply H | intros _; exact IH].
Qed.

Lemma steady_validate (c : Cloud) : steady (validate_configuration c).
Proof.
  intros st. unfold validate_configuration.
  repeat (match goal with |- context [if ?b then _ else _] => destruct b end);
    apply extends_refl.
Qed.

End MonadFacts.

(** Steps that only extend the state, taken apart by their syntax. *)
Ltac steady_step :=
  first
    [ apply steady_bind; [|intros ?]
    | apply steady_ret
    | apply steady_raise
    | apply steady_issue
    | apply steady_bump
    | apply steady_set_key
    | apply steady_set_local
    | apply steady_read_local
    | apply steady_in_locals
    | apply steady_put_item
    | apply steady_resource_history
    | apply steady_when
    | apply steady_isolate
    | apply steady_try_except; [|intros ?]
    | apply steady_for_each; intros ?
    | match goal with
      | |- Props.steady (if ?b then _ else _) => destruct b
      | |- Props.steady (match ?x with _ => _ end) => destruct x
      | |- Props.steady (let _ := _ in _) => cbv zeta
      end ].

Ltac steady_auto := repeat steady_step.

Section StepsAreSteady.

Import Decision Monitor Props.

Variable cfg : Config.
Variable sw : Switches.
Variable c : Cloud.

Lemma steady_ec2_iteration (instance : Instance) :
  steady (ec2_iteration cfg c instance).
Proof.
  unfold ec2_iteration, ec2_check, ec2_decide, ec2_execute, ec2_delete.
  steady_auto.
Qed.

Lemma steady_nat_iteration (nat_gw : NatGateway) :
  steady (nat_iteration cfg c nat_gw).
Proof. unfold nat_iteration, nat_check. steady_auto. Qed.

Lemma steady_eip_iteration (eip : Address) : steady (eip_iteration c eip).
Proof. unfold eip_iteration, eip_check. steady_auto. Qed.

Lemma steady_rds_iteration (db_instance : DBInstance) :
  steady (rds_iteration cfg c db_instance).
Proof. unfold rds_iteration, rds_check. steady_auto. Qed.

Lemma steady_s3_iteration (bucket_name : string) :
  steady (s3_iteration c bucket_name).
Proof. unfold s3_iteration, s3_check. steady_auto. Qed.

Lemma steady_ebs_iteration (volume : Volume) :
  steady (ebs_iteration cfg c volume).
Proof. unfold ebs_iteration, ebs_check. steady_auto. Qed.

Lemma steady_lb_iteration (lb : LoadBalancer) :
  steady (lb_iteration cfg sw c lb).
Proof. unfold lb_iteration, lb_check. steady_auto. Qed.

Lemma steady_vpc_iteration (vpc : Vpc) :
  steady (vpc_iteration cfg sw c vpc).
Proof. unfold vpc_iteration, vpc_check. steady_auto. Qed.

End StepsAreSteady.

Section Safety.

Import Decision Monitor Props.

Lemma safe_ret {A : Type} (a : A) : safe (mret a : M A).
Proof. intros st. now exists a. Qed.

Lemma safe_bind {A B : Type} (m : M A) (k : A -> M B) :
  safe m -> (forall a, safe (k a)) -> safe (m ≫= k).
Proof.
  intros Hm Hk st. destruct (Hm st) as [a Ha].
  unfold mbind, M_bind, bind. destruct (m st) as [r st1]. cbn in Ha. subst r.
  apply Hk.
Qed.

Lemma safe_issue (call : Call) : safe (issue call).
Proof. intros st. now exists tt. Qed.

Lemma safe_bump (name key : string) : safe (bump name key).
Proof. intros st. now exists tt. Qed.

Lemma safe_set_key (name key : string) (value : Z) : safe (set_key name key value).
Proof. intros st. now exists tt. Qed.

Lemma safe_set_local (name : string) (d : list (string * Z)) :
  safe (set_local name d).
Proof. intros st. now exists tt. Qed.

Lemma safe_in_locals (name : string) : safe (in_locals name).
Proof. intros st. eexists. reflexivity. Qed.

Lemma safe_when (cond : bool) (body : M unit) : safe body -> safe (when cond body).
Proof. intros H. destruct cond; [exact H | apply safe_ret]. Qed.

(** The per-resource guard never lets an exception out. *)
Lemma safe_isolate (name : string) (body : M unit) : safe (isolate name body).
Proof.
  intros st. unfold isolate, try_except.
  destruct (body st) as [[[]|e] st1]; now exists tt.
Qed.

Lemma safe_for_each {R : Type} (body : R -> M unit) (xs : list R) :
  (forall x, safe (body x)) -> safe (for_each body xs).
Proof.
  intros H. induction xs as [|x rest IH]; cbn [for_each].
  - apply safe_ret.
  - apply safe_bind; [apply H | intros _; exact IH].
Qed.

(** After a step that cannot raise, the rest runs on the state it left. *)
Lemma run_seq {A B : Type} (m : M A) (k : M B) (st : State) :
  safe m -> (m ;; k) st = k (m st).2.
Proof.
  intros Hm. destruct (Hm st) as [a Ha].
  unfold mbind, M_bind, bind. destruct (m st) as [r st1]. cbn in *. subst r.
  reflexivity.
Qed.

Lemma steady_keeps_call {A : Type} (m : M A) (st : State) (call : Call) :
  steady m -> In call (calls st) -> In call (calls (m st).2).
Proof. intros Hm. apply extends_calls, Hm. Qed.

Lemma steady_keeps_bound {A : Type} (m : M A) (st : State) (name : string) :
  steady m -> is_Some (locals st !! name) -> is_Some (locals (m st).2 !! name).
Proof. intros Hm. apply extends_bound, Hm. Qed.

Lemma bound_after_set_local (name : string) (d : list (string * Z)) (st : State) :
  is_Some (locals (set_local name d st).2 !! name).
Proof. cbn. rewrite lookup_insert_eq. eauto. Qed.

(** A step that announces the resource and then only extends the state
    leaves the announcement among the requests. *)
Lemma announced (call : Call) (rest : M unit) (st : State) :
  steady rest -> In call (calls ((issue call ;; rest) st).2).
Proof.
  intros Hrest. rewrite run_seq by apply safe_issue.
  apply steady_keeps_call; [exact Hrest|].
  cbn. apply in_or_app. right. now left.
Qed.

(** A loop whose iterations cannot raise passes over every element. *)
Lemma for_each_visits {R : Type} (body : R -> M unit) (mark : R -> Call)
    (xs : list R) (st : State) (x : R) :
  (forall y, steady (body y)) ->
  (forall y, safe (body y)) ->
  (forall y st0, In (mark y) (calls (body y st0).2)) ->
  In x xs ->
  In (mark x) (calls (for_each body xs st).2).
Proof.
  intros Hsteady Hsafe Hmark. revert st.
  induction xs as [|y rest IH]; intros st Hin; [contradiction|].
  cbn [for_each]. rewrite run_seq by apply Hsafe.
  destruct Hin as [-> | Hin].
  - apply steady_keeps_call; [now apply steady_for_each | apply Hmark].
  - now apply IH.
Qed.

End Safety.

Ltac safe_step :=
  first
    [ apply safe_bind; [|intros ?]
    | apply safe_ret
    | apply safe_issue
    | apply safe_bump
    | apply safe_set_key
    | apply safe_set_local
    | apply safe_in_locals
    | apply safe_isolate
    | apply safe_when
    | apply safe_for_each; intros ?
    | match goal with
      | |- Props.safe (if ?b then _ else _) => destruct b
      | |- Props.safe (match ?x with _ => _ end) => destruct x
      | |- Props.safe (let _ := _ in _) => cbv zeta
      end ].

Ltac safe_auto := repeat safe_step.

Section IterationsAreSafe.

Import Decision Monitor Props.

Variable cfg : Config.
Variable sw : Switches.
Variable c : Cloud.

Lemma safe_ec2_iteration (instance : Instance) : safe (ec2_iteration cfg c instance).
Proof. unfold ec2_iteration. safe_auto. Qed.

Lemma safe_nat_iteration (nat_gw : NatGateway) : safe (nat_iteration cfg c nat_gw).
Proof. unfold nat_iteration. safe_auto. Qed.

Lemma safe_eip_iteration (eip : Address) : safe (eip_iteration c eip).
Proof. unfold eip_iteration. safe_auto. Qed.

Lemma safe_rds_iteration (db_instance : DBInstance) :
  safe (rds_iteration cfg c db_instance).
Proof. unfold rds_iteration. safe_auto. Qed.

Lemma safe_s3_iteration (bucket_name : string) : safe (s3_iteration c bucket_name).
Proof. unfold s3_iteration. safe_auto. Qed.

Lemma safe_ebs_iteration (volume : Volume) : safe (ebs_iteration cfg c volume).
Proof. unfold ebs_iteration. safe_auto. Qed.

Lemma safe_lb_iteration (lb : LoadBalancer) : safe (lb_iteration cfg sw c lb).
Proof. unfold lb_iteration. safe_auto. Qed.

Lemma safe_vpc_iteration (vpc : Vpc) : safe (vpc_iteration cfg sw c vpc).
Proof. unfold vpc_iteration. safe_auto. Qed.

(** Every iteration leaves its announcement among the requests. *)
Lemma ec2_iteration_visits (instance : Instance) (st : State) :
  visited "EC2" (InstanceId instance) (ec2_iteration cfg c instance st).2.
Proof.
  apply announced.
  unfold ec2_check, ec2_decide, ec2_execute, ec2_delete. steady_auto.
Qed.

Lemma nat_iteration_visits (nat_gw : NatGateway) (st : State) :
  visited "NAT_GATEWAY" (NatGatewayId nat_gw) (nat_iteration cfg c nat_gw st).2.
Proof. apply announced. unfold nat_check. steady_auto. Qed.

Lemma eip_iteration_visits (eip : Address) (st : State) :
  visited "ELASTIC_IP" (AllocationId eip) (eip_iteration c eip st).2.
Proof. apply announced. unfold eip_check. steady_auto. Qed.

Lemma rds_iteration_visits (db_instance : DBInstance) (st : State) :
  visited "RDS" (DBInstanceIdentifier db_instance)
          (rds_iteration cfg c db_instance st).2.
Proof. apply announced. unfold rds_check. steady_auto. Qed.

Lemma s3_iteration_visits (bucket_name : string) (st : State) :
  visited "S3_BUCKET" bucket_name (s3_iteration c bucket_name st).2.
Proof. apply announced. unfold s3_check. steady_auto. Qed.

Lemma ebs_iteration_visits (volume : Volume) (st : State) :
  visited "EBS_VOLUME" (VolumeId volume) (ebs_iteration cfg c volume st).2.
Proof. apply announced. unfold ebs_check. steady_auto. Qed.

Lemma lb_iteration_visits (lb : LoadBalancer) (st : State) :
  visited "LOAD_BALANCER" (LoadBalancerArn lb) (lb_iteration cfg sw c lb st).2.
Proof. apply announced. unfold lb_check. steady_auto. Qed.

Lemma vpc_iteration_visits (vpc : Vpc) (st : State) :
  visited "VPC" (VpcId vpc) (vpc_iteration cfg sw c vpc st).2.
Proof. apply announced. unfold vpc_check. steady_auto. Qed.

End IterationsAreSafe.

Section Handler.

Import Decision Monitor Props.

Variable cfg : Config.
Variable sw : Switches.
Variable c : Cloud.

Lemma run_seq_at {A B : Type} (m : M A) (k : M B) (st : State) :
  (exists a, (m st).1 = Ok a) -> (m ;; k) st = k (m st).2.
Proof.
  intros [a Ha]. unfold mbind, M_bind, bind.
  destruct (m st) as [r st1]. cbn in *. subst r. reflexivity.
Qed.

Lemma read_local_bound (name : string) (st : State) :
  is_Some (locals st !! name) ->
  exists d, locals st !! name = Some d /\ read_local name st = (Ok d, st).
Proof.
  intros [d Hd]. exists d. unfold read_local. rewrite Hd. auto.
Qed.

Lemma print_summary_bound (name : string) (st : State) :
  is_Some (locals st !! name) -> exists a, (print_summary name st).1 = Ok a.
Proof.
  intros Hb. destruct (read_local_bound name st Hb) as (d & _ & Hr).
  unfold print_summary, mbind, M_bind, bind. rewrite Hr. now exists tt.
Qed.

Lemma steady_print_summary (name : string) : steady (print_summary name).
Proof. unfold print_summary. steady_auto. Qed.

Lemma steady_metrics_block (name : string)
    (update : gmap string Z -> Totals -> Totals) (metric key : string)
    (t : Totals) :
  steady (metrics_block name update metric key t).
Proof. unfold metrics_block, send_cloudwatch_metric. steady_auto. Qed.

Lemma safe_metrics_block (name : string)
    (update : gmap string Z -> Totals -> Totals) (metric key : string)
    (t : Totals) :
  safe (metrics_block name update metric key t).
Proof.
  intros st.
  unfold metrics_block, mbind, M_bind, bind, in_locals, read_local,
    send_cloudwatch_metric, mret, M_ret, ret, issue.
  destruct (locals st !! name) as [d|] eqn:E.
  - rewrite bool_decide_eq_true_2 by eauto. rewrite E.
    destruct (String.eqb metric EmptyString); eexists; reflexivity.
  - rewrite bool_decide_eq_false_2 by (intros [? ?]; discriminate).
    eexists; reflexivity.
Qed.

Lemma steady_send_metrics : steady send_metrics.
Proof.
  unfold send_metrics, send_cloudwatch_metric.
  repeat (apply steady_metrics_block || steady_step).
Qed.

Lemma safe_send_metrics : safe send_metrics.
Proof.
  unfold send_metrics, send_cloudwatch_metric.
  repeat (apply safe_metrics_block || safe_step).
Qed.

End Handler.

Ltac steady_full :=
  repeat first
    [ apply steady_ec2_iteration | apply steady_nat_iteration
    | apply steady_eip_iteration | apply steady_rds_iteration
    | apply steady_s3_iteration | apply steady_ebs_iteration
    | apply steady_lb_iteration | apply steady_vpc_iteration
    | apply steady_print_summary | apply steady_send_metrics
    | steady_step ].

Ltac safe_full :=
  repeat first
    [ apply safe_ec2_iteration | apply safe_nat_iteration
    | apply safe_eip_iteration | apply safe_rds_iteration
    | apply safe_s3_iteration | apply safe_ebs_iteration
    | apply safe_lb_iteration | apply safe_vpc_iteration
    | apply safe_send_metrics
    | safe_step ].

(** A name bound by an earlier step of a chain of steady steps. *)
Ltac bound_tac :=
  repeat first
    [ assumption
    | apply bound_after_set_local
    | apply steady_keeps_bound; [solve [steady_full] |] ].

Section Cycle.

Import Decision Monitor Props.

Lemma when_true (body : M unit) : when true body = body.
Proof. reflexivity. Qed.

(** What the first step left among the requests stays there whether the
    second step runs or not. *)
Lemma after_first {A B : Type} (m : M A) (k : A -> M B) (st : State)
    (call : Call) :
  (forall a, steady (k a)) ->
  In call (calls (m st).2) -> In call (calls ((m ≫= k) st).2).
Proof.
  intros Hk Hin. unfold mbind, M_bind, bind.
  destruct (m st) as [[a|e] st1]; cbn in *.
  - now apply steady_keeps_call.
  - exact Hin.
Qed.

Lemma steady_keeps_summarised {A : Type} (m : M A) (st : State) (name : string) :
  steady m -> summarised name st -> summarised name (m st).2.
Proof.
  intros Hm [d Hd]. exists d. now apply steady_keeps_call.
Qed.

Lemma print_summary_issues (name : string) (st : State) :
  is_Some (locals st !! name) -> summarised name (print_summary name st).2.
Proof.
  intros Hb. destruct (read_local_bound name st Hb) as (d & _ & Hr).
  exists d. unfold print_summary, mbind, M_bind, bind. rewrite Hr.
  cbn. apply in_or_app. right. now left.
Qed.

(** The guard counts the exception in the dictionary it names and
    touches nothing else. *)
Lemma isolate_counts (name : string) (body : M unit) (st st' : State)
    (e : string) :
  body st = (Raise e, st') ->
  isolate name body st = (Ok tt, (bump name "errors" st').2) /\
  errors_of name (bump name "errors" st').2 = errors_of name st' + 1 /\
  table (bump name "errors" st').2 = table st' /\
  calls (bump name "errors" st').2 = calls st'.
Proof.
  intros H. unfold isolate, try_except. rewrite H.
  split; [reflexivity|]. split; [|split; reflexivity].
  unfold errors_of, stat. cbn [bump snd locals].
  rewrite lookup_insert_eq. cbn [default from_option id].
  rewrite lookup_insert_eq. reflexivity.
Qed.

End Cycle.

Ltac skip := rewrite run_seq by (solve [safe_full]).

Ltac here := apply after_first; [intros ?; solve [steady_full] |].

Ltac summarised_tac :=
  repeat first
    [ apply print_summary_issues; solve [bound_tac]
    | apply steady_keeps_summarised; [solve [steady_full] |] ].

Section RunSteps.

Import Decision Monitor Props.

Variable cfg : Config.
Variable sw : Switches.
Variable c : Cloud.
Variable st0 : State.
Variable all_instances : list Instance.
Hypothesis Hdesc : describe_instances c = Ok all_instances.

Lemma run_steps_visits_ec2 (instance : Instance) :
  In instance all_instances ->
  visited "EC2" (InstanceId instance) (run_steps cfg sw c st0).2.
Proof.
  intros Hin. unfold visited, run_steps. rewrite Hdesc.
  skip. here.
  apply (for_each_visits _ (fun i => Checking "EC2" (InstanceId i)));
    [ intros; apply steady_ec2_iteration | intros; apply safe_ec2_iteration
    | intros; apply ec2_iteration_visits | exact Hin ].
Qed.

Lemma run_steps_visits_nat (nat_gw : NatGateway) :
  In nat_gw (get_all_nat_gateways c) ->
  visited "NAT_GATEWAY" (NatGatewayId nat_gw) (run_steps cfg sw c st0).2.
Proof.
  intros Hin. unfold visited, run_steps. rewrite Hdesc.
  do 3 skip. here.
  apply (for_each_visits _ (fun g => Checking "NAT_GATEWAY" (NatGatewayId g)));
    [ intros; apply steady_nat_iteration | intros; apply safe_nat_iteration
    | intros; apply nat_iteration_visits | exact Hin ].
Qed.

Lemma run_steps_visits_eip (eip : Address) :
  In eip (get_all_elastic_ips c) ->
  visited "ELASTIC_IP" (AllocationId eip) (run_steps cfg sw c st0).2.
Proof.
  intros Hin. unfold visited, run_steps. rewrite Hdesc.
  do 5 skip. here.
  apply (for_each_visits _ (fun a => Checking "ELASTIC_IP" (AllocationId a)));
    [ intros; apply steady_eip_iteration | intros; apply safe_eip_iteration
    | intros; apply eip_iteration_visits | exact Hin ].
Qed.

Lemma run_steps_visits_rds (db_instance : DBInstance) :
  (get_all_rds_instances c).2 = true ->
  In db_instance (get_all_rds_instances c).1 ->
  visited "RDS" (DBInstanceIdentifier db_instance) (run_steps cfg sw c st0).2.
Proof.
  intros Hclient Hin. unfold visited, run_steps. rewrite Hdesc.
  do 6 skip. destruct (get_all_rds_instances c) as [rds_instances rds_client].
  cbn in Hclient, Hin. subst rds_client. rewrite when_true.
  skip. here.
  apply (for_each_visits _ (fun d => Checking "RDS" (DBInstanceIdentifier d)));
    [ intros; apply steady_rds_iteration | intros; apply safe_rds_iteration
    | intros; apply rds_iteration_visits | exact Hin ].
Qed.

Lemma run_steps_visits_s3 (bucket_name : string) :
  In bucket_name (get_all_s3_buckets c) ->
  visited "S3_BUCKET" bucket_name (run_steps cfg sw c st0).2.
Proof.
  intros Hin. unfold visited, run_steps. rewrite Hdesc.
  do 6 skip. destruct (get_all_rds_instances c) as [rds_instances rds_client].
  do 3 skip. here.
  apply (for_each_visits _ (fun b => Checking "S3_BUCKET" b));
    [ intros; apply steady_s3_iteration | intros; apply safe_s3_iteration
    | intros; apply s3_iteration_visits | exact Hin ].
Qed.

Lemma run_steps_visits_ebs (volume : Volume) :
  In volume (get_all_ebs_volumes c) ->
  visited "EBS_VOLUME" (VolumeId volume) (run_steps cfg sw c st0).2.
Proof.
  intros Hin. unfold visited, run_steps. rewrite Hdesc.
  do 6 skip. destruct (get_all_rds_instances c) as [rds_instances rds_client].
  do 5 skip. here.
  apply (for_each_visits _ (fun v => Checking "EBS_VOLUME" (VolumeId v)));
    [ intros; apply steady_ebs_iteration | intros; apply safe_ebs_iteration
    | intros; apply ebs_iteration_visits | exact Hin ].
Qed.

Lemma run_steps_visits_lb (lb : LoadBalancer) :
  ENABLE_LB_MONITORING sw = true ->
  In lb (get_all_load_balancers c) ->
  visited "LOAD_BALANCER" (LoadBalancerArn lb) (run_steps cfg sw c st0).2.
Proof.
  intros Hen Hin. unfold visited, run_steps. rewrite Hdesc, Hen, when_true.
  do 6 skip. destruct (get_all_rds_instances c) as [rds_instances rds_client].
  do 6 skip. here. skip.
  apply (for_each_visits _ (fun l => Checking "LOAD_BALANCER" (LoadBalancerArn l)));
    [ intros; apply steady_lb_iteration | intros; apply safe_lb_iteration
    | intros; apply lb_iteration_visits | exact Hin ].
Qed.

Lemma run_steps_visits_vpc (vpc : Vpc) :
  ENABLE_VPC_CLEANUP sw = true ->
  In vpc (get_all_vpcs c) ->
  visited "VPC" (VpcId vpc) (run_steps cfg sw c st0).2.
Proof.
  intros Hen Hin. unfold visited, run_steps. rewrite Hdesc, Hen, when_true.
  do 6 skip. destruct (get_all_rds_instances c) as [rds_instances rds_client].
  do 7 skip. here. skip. here.
  apply (for_each_visits _ (fun v => Checking "VPC" (VpcId v)));
    [ intros; apply steady_vpc_iteration | intros; apply safe_vpc_iteration
    | intros; apply vpc_iteration_visits | exact Hin ].
Qed.

(** With the listing of instances answered and load-balancer monitoring
    on, the steps run to the end and answer 200 with the EC2 statistics,
    every statistics dictionary having been printed. *)
Lemma run_steps_answers :
  ENABLE_LB_MONITORING sw = true ->
  is_Some (locals st0 !! "stats") ->
  exists stats,
    (run_steps cfg sw c st0).1 = Ok (mkResponse 200 (Some stats) None) /\
    locals (run_steps cfg sw c st0).2 !! "stats" = Some stats /\
    (forall name,
       In name ["stats"; "nat_stats"; "eip_stats"; "rds_stats"; "s3_stats";
                "ebs_stats"; "lb_stats"] ->
       summarised name (run_steps cfg sw c st0).2).
Proof.
  intros Hlb Hstats. unfold run_steps. rewrite Hdesc, Hlb, when_true.
  do 6 skip. destruct (get_all_rds_instances c) as [rds_instances rds_client].
  do 7 skip.
  rewrite (run_seq (set_local "lb_stats" _) (for_each _ _))
    by (solve [safe_full]).
  match goal with
  | |- ex (fun _ => (?K ?S).1 = _ /\ _) => set (s := S)
  end.
  assert (Hb : forall name,
             In name ["stats"; "nat_stats"; "eip_stats"; "rds_stats";
                      "s3_stats"; "ebs_stats"; "lb_stats"] ->
             is_Some (locals s !! name)).
  { intros name Hin. cbn in Hin. unfold s.
    repeat (destruct Hin as [<- | Hin]; [solve [bound_tac]|]).
    contradiction. }
  assert (Hst : is_Some (locals s !! "stats")) by (apply Hb; cbn; tauto).
  assert (Hnat : is_Some (locals s !! "nat_stats")) by (apply Hb; cbn; tauto).
  assert (Heip : is_Some (locals s !! "eip_stats")) by (apply Hb; cbn; tauto).
  assert (Hrds : is_Some (locals s !! "rds_stats")) by (apply Hb; cbn; tauto).
  assert (Hs3 : is_Some (locals s !! "s3_stats")) by (apply Hb; cbn; tauto).
  assert (Hebs : is_Some (locals s !! "ebs_stats")) by (apply Hb; cbn; tauto).
  assert (Hlbs : is_Some (locals s !! "lb_stats")) by (apply Hb; cbn; tauto).
  clear Hb. clearbody s.
  assert (Hvpc : exists a,
             (when (ENABLE_VPC_CLEANUP sw)
                (set_local "vpc_stats"
                   [("total", Z.of_nat (length (get_all_vpcs c)));
                    ("empty", 0); ("active", 0); ("deleted", 0); ("errors", 0)] ;;
                 for_each (vpc_iteration cfg sw c) (get_all_vpcs c) ;;
                 print_summary "vpc_stats") s).1 = Ok a).
  { destruct (ENABLE_VPC_CLEANUP sw); [|now exists tt].
    rewrite when_true. do 2 skip.
    apply print_summary_bound. bound_tac. }
  rewrite (run_seq_at _ _ _ Hvpc).
  do 7 (rewrite run_seq_at by (apply print_summary_bound; solve [bound_tac])).
  skip.
  match goal with
  | |- ex (fun _ => (?K ?S).1 = _ /\ _) => set (final := S)
  end.
  destruct (read_local_bound "stats" final) as (d & Hd & Hr);
    [unfold final; bound_tac|].
  exists d. unfold mbind, M_bind, bind. rewrite Hr. cbn [fst snd].
  split; [reflexivity|]. split; [exact Hd|].
  intros name Hin. cbn in Hin. unfold final.
  repeat (destruct Hin as [<- | Hin]; [solve [summarised_tac]|]).
  contradiction.
Qed.

End RunSteps.

Section LambdaHandler.

Import Decision Monitor Props.

Variable cfg : Config.
Variable sw : Switches.
Variable c : Cloud.
Variable tbl : Table.

Lemma try_except_ok {A : Type} (body : M A) (handler : string -> M A)
    (st : State) (a : A) :
  (body st).1 = Ok a -> try_except body handler st = body st.
Proof.
  intros H. unfold try_except. destruct (body st) as [r st1]. cbn in H.
  subst r. reflexivity.
Qed.

(** A failed probe is re-raised before anything has been done. *)
Lemma lambda_handler_config_error :
  config_ok c tbl = false ->
  lambda_handler cfg sw c (initial_state tbl)
  = (Raise "ClientError", initial_state tbl).
Proof.
  unfold config_ok. intros H.
  unfold lambda_handler, mbind, M_bind, bind, validate_configuration.
  cbn [initial_state table].
  destruct (s3_bucket_exists c); [|reflexivity].
  destruct (reachable tbl); [|reflexivity].
  destruct (sns_topic_exists c); [discriminate | reflexivity].
Qed.

(** With a valid configuration the handler is the run of its steps from
    a state where [stats] is bound. *)
Lemma lambda_handler_runs_steps (all_instances : list Instance) :
  config_ok c tbl = true ->
  ENABLE_LB_MONITORING sw = true ->
  describe_instances c = Ok all_instances ->
  exists st1,
    is_Some (locals st1 !! "stats") /\
    lambda_handler cfg sw c (initial_state tbl) = run_steps cfg sw c st1.
Proof.
  unfold config_ok. intros Hok Hlb Hdesc.
  apply andb_prop in Hok as [Hok Hsns]. apply andb_prop in Hok as [Hs3 Hup].
  unfold lambda_handler.
  assert (Hv : validate_configuration c (initial_state tbl)
               = (Ok true, initial_state tbl)).
  { unfold validate_configuration. cbn [initial_state table].
    rewrite Hs3, Hup, Hsns. reflexivity. }
  rewrite run_seq_at by (rewrite Hv; now exists true).
  rewrite Hv. cbn [snd]. skip.
  match goal with
  | |- context [try_except _ _ ?S] =>
      exists S; split; [apply bound_after_set_local|];
      destruct (run_steps_answers cfg sw c S all_instances Hdesc Hlb
                  (bound_after_set_local "stats" _ (initial_state tbl)))
        as (stats & Hr & _)
  end.
  now apply try_except_ok with (a := mkResponse 200 (Some stats) None).
Qed.

End LambdaHandler.

(** C7, as stated, fails in its clause on the summary: in a cycle where
    the write about a NAT gateway raises, the error is counted in
    [nat_stats] (which is printed), and the dictionary the handler
    returns holds the five EC2 counters only, with no error. *)
Lemma returned_summary_is_ec2_only_counterexample :
  (Monitor.lambda_handler (Decision.source_config "backups")
     Monitor.source_switches Props.nat_store_failure
     (Monitor.initial_state Props.idle_nat_log)).1
  = Ok (Monitor.mkResponse 200
          (Some (list_to_map
                   [ ("total_instances", 0); ("active_instances", 0);
                     ("idle_instances", 0); ("backed_up", 0); ("errors", 0) ]))
          None) /\
  Props.errors_of "nat_stats"
    (Monitor.lambda_handler (Decision.source_config "backups")
       Monitor.source_switches Props.nat_store_failure
       (Monitor.initial_state Props.idle_nat_log)).2 = 1.
Proof. split; vm_compute; reflexivity. Qed.

(** C7 (amended; isolate and continue).  (1) When a probe of the configuration
    fails, the handler raises and the state is the initial one: nothing
    was processed.  (2) The guard around each resource turns an exception
    of its body into one more error in the statistics dictionary of the
    resource type and changes nothing else; (3) so an EC2 instance whose
    processing raises ends its iteration normally with [stats['errors']]
    incremented.  (4) With a valid configuration, the instances listed
    and load-balancer monitoring on, the handler answers 200 and returns
    the EC2 statistics dictionary; the dictionaries of the other types
    are printed, not returned; every resource of every type has been
    looked at, whatever failed on the way. *)
Theorem cycle_isolates_resource_failures (cfg : Decision.Config)
    (sw : Monitor.Switches) (c : Monitor.Cloud) (tbl : Table) :
  (Props.config_ok c tbl = false ->
   Monitor.lambda_handler cfg sw c (Monitor.initial_state tbl)
   = (Raise "ClientError", Monitor.initial_state tbl)) /\
  (forall (name : string) (body : Monitor.M unit) (st st' : Monitor.State)
          (e : string),
     body st = (Raise e, st') ->
     Monitor.isolate name body st
     = (Ok tt, (Monitor.bump name "errors" st').2) /\
     Props.errors_of name (Monitor.bump name "errors" st').2
     = Props.errors_of name st' + 1 /\
     Monitor.table (Monitor.bump name "errors" st').2 = Monitor.table st' /\
     Monitor.calls (Monitor.bump name "errors" st').2 = Monitor.calls st') /\
  (forall (instance : Monitor.Instance) (st st' : Monitor.State) (e : string),
     String.eqb (Monitor.State_Name instance) "terminated" = false ->
     Monitor.ignore_tagged (Monitor.tags_dict (Monitor.Tags instance)) = false ->
     Monitor.ec2_check cfg c instance (Monitor.tags_dict (Monitor.Tags instance))
       (Monitor.issue (Monitor.Checking "EC2" (Monitor.InstanceId instance)) st).2
     = (Raise e, st') ->
     Monitor.ec2_iteration cfg c instance st
     = (Ok tt, (Monitor.bump "stats" "errors" st').2)) /\
  (Props.config_ok c tbl = true ->
   Monitor.ENABLE_LB_MONITORING sw = true ->
   forall all_instances,
     Monitor.describe_instances c = Ok all_instances ->
     let run := Monitor.lambda_handler cfg sw c (Monitor.initial_state tbl) in
     (exists stats,
        run.1 = Ok (Monitor.mkResponse 200 (Some stats) None) /\
        Monitor.locals run.2 !! "stats" = Some stats) /\
     (forall name,
        In name ["stats"; "nat_stats"; "eip_stats"; "rds_stats"; "s3_stats";
                 "ebs_stats"; "lb_stats"] ->
        Props.summarised name run.2) /\
     (forall instance, In instance all_instances ->
        Props.visited "EC2" (Monitor.InstanceId instance) run.2) /\
     (forall nat_gw, In nat_gw (Monitor.get_all_nat_gateways c) ->
        Props.visited "NAT_GATEWAY" (Monitor.NatGatewayId nat_gw) run.2) /\
     (forall eip, In eip (Monitor.get_all_elastic_ips c) ->
        Props.visited "ELASTIC_IP" (Monitor.AllocationId eip) run.2) /\
     ((Monitor.get_all_rds_instances c).2 = true ->
      forall db_instance, In db_instance (Monitor.get_all_rds_instances c).1 ->
        Props.visited "RDS" (Monitor.DBInstanceIdentifier db_instance) run.2) /\
     (forall bucket_name, In bucket_name (Monitor.get_all_s3_buckets c) ->
        Props.visited "S3_BUCKET" bucket_name run.2) /\
     (forall volume, In volume (Monitor.get_all_ebs_volumes c) ->
        Props.visited "EBS_VOLUME" (Monitor.VolumeId volume) run.2) /\
     (forall lb, In lb (Monitor.get_all_load_balancers c) ->
        Props.visited "LOAD_BALANCER" (Monitor.LoadBalancerArn lb) run.2) /\
     (Monitor.ENABLE_VPC_CLEANUP sw = true ->
      forall vpc, In vpc (Monitor.get_all_vpcs c) ->
        Props.visited "VPC" (Monitor.VpcId vpc) run.2)).
Proof.
  split; [apply lambda_handler_config_error|].
  split; [intros name body st st' e; apply isolate_counts|].
  split.
  { intros instance st st' e Hstate Htag Hraise.
    unfold Monitor.ec2_iteration.
    rewrite run_seq by apply safe_issue. rewrite Hstate, Htag.
    now apply (isolate_counts "stats" _ _ st' e). }
  intros Hok Hlb all_instances Hdesc run.
  destruct (lambda_handler_runs_steps cfg sw c tbl all_instances Hok Hlb Hdesc)
    as (st1 & Hbound & Hrun).
  unfold run. rewrite Hrun.
  destruct (run_steps_answers cfg sw c st1 all_instances Hdesc Hlb Hbound)
    as (stats & Hr & Hs & Hsum).
  split; [now exists stats|].
  split; [exact Hsum|].
  split; [intros; now apply (run_steps_visits_ec2 cfg sw c st1 all_instances)|].
  split; [intros; now apply (run_steps_visits_nat cfg sw c st1 all_instances)|].
  split; [intros; now apply (run_steps_visits_eip cfg sw c st1 all_instances)|].
  split; [intros; now apply (run_steps_visits_rds cfg sw c st1 all_instances)|].
  split; [intros; now apply (run_steps_visits_s3 cfg sw c st1 all_instances)|].
  split; [intros; now apply (run_steps_visits_ebs cfg sw c st1 all_instances)|].
  split; [intros; now apply (run_steps_visits_lb cfg sw c st1 all_instances)|].
  intros; now apply (run_steps_visits_vpc cfg sw c st1 all_instances).
Qed.

(** Two idle instances and a table that refuses every write about the
    first: the failure is counted once, the second instance is warned and
    recorded, and the cycle answers 200. *)
Lemma cycle_isolates_resource_failures_witness :
  (exists stats,
     (Monitor.lambda_handler (Decision.source_config "backups")
        Monitor.source_switches Props.flaky_store
        (Monitor.initial_state (mkTable [] true))).1
     = Ok (Monitor.mkResponse 200 (Some stats) None) /\
     Monitor.locals
       (Monitor.lambda_handler (Decision.source_config "backups")
          Monitor.source_switches Props.flaky_store
          (Monitor.initial_state (mkTable [] true))).2 !! "stats"
     = Some stats) /\
  Props.errors_of "stats"
    (Monitor.lambda_handler (Decision.source_config "backups")
       Monitor.source_switches Props.flaky_store
       (Monitor.initial_state (mkTable [] true))).2 = 1 /\
  Props.statuses
    (Monitor.table
       (Monitor.lambda_handler (Decision.source_config "backups")
          Monitor.source_switches Props.flaky_store
          (Monitor.initial_state (mkTable [] true))).2)
  = [("i-002", 1700003600, Some (VStr "IDLE_WARNING"))].
Proof.
  split.
  - pose proof (cycle_isolates_resource_failures
                  (Decision.source_config "backups") Monitor.source_switches
                  Props.flaky_store (mkTable [] true)) as (_ & _ & _ & H).
    specialize (H eq_refl eq_refl _ eq_refl). cbv zeta in H.
    destruct H as [H _]. exact H.
  - split; vm_compute; reflexivity.
Defined.

(** * Further properties *)

Section PriceTables.

Import Pricing.

(** Entries of a dictionary built from a list come from the list. *)
Lemma list_to_map_In {A : Type} (l : list (string * A)) (k : string) (v : A) :
  (list_to_map l : gmap string A) !! k = Some v -> In (k, v) l.
Proof.
  intros H. apply elem_of_list_to_map_2 in H. now apply list_elem_of_In.
Qed.

(** No rate of a by-type table is negative. *)
Lemma rates_nonnegative (rates : list (string * Q)) (k : string) :
  forallb (fun kv => Qle_bool 0 kv.2) rates = true ->
  (0 <= default 0.0 ((list_to_map rates : gmap string Q) !! k))%Q.
Proof.
  intros Hall. destruct (list_to_map rates !! k) as [v|] eqn:E; cbn.
  - apply list_to_map_In in E.
    rewrite forallb_forall in Hall. apply Hall in E. now apply Qle_bool_imp_le.
  - discriminate.
Qed.


Lemma dict_get_rate_nonnegative (rates : list (string * Q)) (key : Value) :
  forallb (fun kv => Qle_bool 0 kv.2) rates = true ->
  (0 <= default 0.0 (dict_get (list_to_map rates : gmap string Q) key))%Q.
Proof.
  intros Hall. destruct key; cbn [dict_get default]; try discriminate.
  now apply rates_nonnegative.
Qed.

Lemma hourly_rate_nonnegative (resource_type instance_type : Value)
    (region : string) :
  (0 <= get_hourly_rate resource_type instance_type region)%Q.
Proof.
  unfold get_hourly_rate, AWS_PRICING.
  destruct (decide (region = "us-east-1")) as [->|Hne].
  - rewrite lookup_singleton_eq. cbn [default].
    destruct resource_type as [s| | |];
      try (cbn [dict_get]; destruct (val_in _ _); discriminate).
    cbn [dict_get].
    match goal with
    | |- context [?m !! s] => destruct (m !! s) as [entry|] eqn:E
    end; [|destruct (val_in _ _); discriminate].
    apply list_to_map_In in E. unfold us_east_1 in E.
    destruct (val_in (VStr s) fixed_rate_types);
      repeat (destruct E as [E | E];
              [apply pair_equal_spec in E; destruct E as [<- <-]; cbv beta iota;
               first [ discriminate
                     | apply dict_get_rate_nonnegative; vm_compute; reflexivity ]|]);
      contradiction.
  - rewrite lookup_singleton_ne by congruence. cbn [default].
    assert (dict_get (∅ : gmap string PriceEntry) resource_type = None) as ->.
    { destruct resource_type; cbn [dict_get]; first [reflexivity | apply lookup_empty]. }
    destruct (val_in _ _); discriminate.
Qed.

End PriceTables.

(** X1 (savings are never negative). Whatever the resource type, the
    instance type and the region, [get_hourly_rate] and
    [calculate_monthly_savings] return a number that is not negative. *)
Theorem monthly_savings_nonnegative (resource_type instance_type : Value)
    (region : string) :
  (0 <= Pricing.get_hourly_rate resource_type instance_type region)%Q /\
  (0 <= Pricing.calculate_monthly_savings resource_type instance_type region)%Q.
Proof.
  pose proof (hourly_rate_nonnegative resource_type instance_type region) as H.
  split; [exact H|].
  unfold Pricing.calculate_monthly_savings, Pricing.HOURS_PER_MONTH.
  apply Qmult_le_0_compat; [exact H | discriminate].
Qed.

Section OtherRegions.

Import Pricing Calculator Props.

Lemma unpriced_region_rate (region : string) (resource_type instance_type : Value) :
  region <> "us-east-1" ->
  get_hourly_rate resource_type instance_type region = 0.0%Q.
Proof.
  intros Hne. unfold get_hourly_rate, AWS_PRICING.
  rewrite lookup_singleton_ne by congruence. cbn [default].
  assert (dict_get (∅ : gmap string PriceEntry) resource_type = None) as ->.
  { destruct resource_type; cbn [dict_get]; first [reflexivity | apply lookup_empty]. }
  now destruct (val_in _ _).
Qed.

Lemma unpriced_region_record (region : string) (resource : Item) :
  region <> "us-east-1" -> (record_savings region resource == 0)%Q.
Proof.
  intros Hne. unfold record_savings, calculate_monthly_savings.
  rewrite unpriced_region_rate by exact Hne. reflexivity.
Qed.

Lemma unpriced_region_fold (region : string) (records : list Item)
    (acc : list (string * ServiceSavings) * list DetailedResource) :
  region <> "us-east-1" ->
  fold_left (savings_step region) records acc = acc.
Proof.
  intros Hne. induction records as [|r rest IH]; cbn [fold_left]; [reflexivity|].
  rewrite savings_step_zero by now apply unpriced_region_record. exact IH.
Qed.

End OtherRegions.

(** X2 (regions without prices). The price table has an entry for
    [us-east-1] only.  In every other region, the default [us-west-1]
    included, every resource is valued at nothing: the month's report is
    empty whatever the table holds, and the cumulative figure is zero. *)
Theorem unpriced_region_saves_nothing (region : string) (tbl : Table) (y m : Z) :
  region <> "us-east-1" ->
  (forall resource_type instance_type,
     (Pricing.calculate_monthly_savings resource_type instance_type region == 0)%Q) /\
  (reachable tbl = true ->
   Calculator.calculate_savings region tbl y m
   = Ok (Calculator.mkSavings (Calculator.month_str y m) 0 0 [] [])) /\
  (Calculator.calculate_cumulative_savings region tbl == 0)%Q.
Proof.
  intros Hne. split; [|split].
  - intros rt it. unfold Pricing.calculate_monthly_savings.
    rewrite unpriced_region_rate by exact Hne. reflexivity.
  - intros Hup. unfold Calculator.calculate_savings, table_scan. rewrite Hup.
    unfold Calculator.aggregate. rewrite unpriced_region_fold by exact Hne.
    reflexivity.
  - unfold Calculator.calculate_cumulative_savings, table_scan.
    destruct (reachable tbl); [|reflexivity].
    generalize (List.filter Calculator.status_deleted_or_stopped (items tbl)).
    intros found.
    assert (forall acc : Q, (acc == 0)%Q ->
            (fold_left
               (fun total item0 =>
                  (total + Pricing.calculate_monthly_savings
                     (item_get (project ["ResourceType"; "InstanceType"] item0)
                        "ResourceType" (VStr "Unknown"))
                     (item_get (project ["ResourceType"; "InstanceType"] item0)
                        "InstanceType" (VStr "Unknown")) region)%Q)
               found acc == 0)%Q) as H.
    { induction found as [|r rest IH]; intros acc Hacc; cbn [fold_left].
      - exact Hacc.
      - apply IH. unfold Pricing.calculate_monthly_savings.
        rewrite unpriced_region_rate by exact Hne. rewrite Hacc. reflexivity. }
    apply H. reflexivity.
Qed.

Lemma unpriced_region_saves_nothing_witness :
  (forall resource_type instance_type,
     (Pricing.calculate_monthly_savings resource_type instance_type "us-west-1"
      == 0)%Q) /\
  (reachable Props.rds_deleted_log = true ->
   Calculator.calculate_savings "us-west-1" Props.rds_deleted_log 2025 1
   = Ok (Calculator.mkSavings (Calculator.month_str 2025 1) 0 0 [] [])) /\
  (Calculator.calculate_cumulative_savings "us-west-1" Props.rds_deleted_log == 0)%Q.
Proof.
  apply unpriced_region_saves_nothing. discriminate.
Defined.

Section CostEstimates.

Import Decision Costs.

Lemma prefix_cons (c c' : ascii) (s1 s2 : string) :
  String.prefix (String c s1) (String c' s2) = true ->
  c = c' /\ String.prefix s1 s2 = true.
Proof.
  cbn [String.prefix]. destruct (ascii_dec c c'); [auto | discriminate].
Qed.

Lemma prefix_contains (needle hay : string) :
  String.prefix needle hay = true -> contains needle hay = true.
Proof.
  intros H. destruct hay; cbn [contains]; rewrite H; reflexivity.
Qed.

(** A type name that contains [xlarge] contains [large]. *)
Lemma contains_xlarge_large (s : string) :
  contains "xlarge" s = true -> contains "large" s = true.
Proof.
  induction s as [|ch rest IH]; [discriminate|].
  intros H. cbn [contains] in H |- *.
  apply orb_true_iff in H. apply orb_true_iff. right.
  destruct H as [H|H]; [|now apply IH].
  apply prefix_cons in H. apply prefix_contains, H.
Qed.

End CostEstimates.

(** X3 (unlisted extra-large instance types). [get_instance_cost] tests
    ['large' in instance_type] before ['xlarge' in instance_type], so its
    estimate of 140 is never returned: an instance type outside its table
    whose name contains [xlarge] is estimated at 70 a month or less, like
    a [large] one, and no instance type at all is estimated at 140. *)
Theorem unlisted_xlarge_estimated_as_large (instance_type : string) :
  ~ (Decision.get_instance_cost instance_type == 140)%Q /\
  (Decision.instance_pricing !! instance_type = None ->
   Decision.contains "xlarge" instance_type = true ->
   (Decision.get_instance_cost instance_type <= 70)%Q).
Proof.
  rewrite get_instance_cost_cases. split.
  - destruct (Decision.instance_pricing !! instance_type) as [cost|] eqn:E.
    + apply list_to_map_entry in E. cbn in E.
      repeat (destruct E as [E | E];
              [inversion E; intros Hq; vm_compute in Hq; discriminate Hq|]).
      contradiction.
    + unfold Decision.size_bucket_estimate.
      destruct (Decision.contains "large" instance_type) eqn:L.
      * repeat (match goal with |- context [if ?b then _ else _] => destruct b end);
          intros Hq; vm_compute in Hq; discriminate Hq.
      * destruct (Decision.contains "xlarge" instance_type) eqn:X.
        { apply contains_xlarge_large in X. congruence. }
        cbn [andb].
        repeat (match goal with |- context [if ?b then _ else _] => destruct b end);
          intros Hq; vm_compute in Hq; discriminate Hq.
  - intros -> X. apply contains_xlarge_large in X.
    unfold Decision.size_bucket_estimate. rewrite X.
    repeat (match goal with |- context [if ?b then _ else _] => destruct b end);
      discriminate.
Qed.

Lemma unlisted_xlarge_estimated_as_large_witness :
  (Decision.get_instance_cost "m6i.xlarge" <= 70)%Q.
Proof.
  apply (unlisted_xlarge_estimated_as_large "m6i.xlarge"); vm_compute; reflexivity.
Defined.

(** X4 (RDS cost estimate). [get_rds_cost] never returns less than 13.14:
    a class of its table has the table's price, and any other class is
    estimated from the size word in its name, an unlisted [xlarge] class
    at 300 or more unless its name also says micro, small or medium. *)
Theorem get_rds_cost_bounds (db_instance_class engine : string) :
  (13.14 <= Costs.get_rds_cost db_instance_class engine)%Q /\
  (forall cost, Costs.rds_pricing !! db_instance_class = Some cost ->
                Costs.get_rds_cost db_instance_class engine = cost) /\
  (Costs.rds_pricing !! db_instance_class = None ->
   Decision.contains "xlarge" db_instance_class = true ->
   Decision.contains "micro" db_instance_class = false ->
   Decision.contains "small" db_instance_class = false ->
   Decision.contains "medium" db_instance_class = false ->
   (300 <= Costs.get_rds_cost db_instance_class engine)%Q).
Proof.
  assert (forall cost, Costs.rds_pricing !! db_instance_class = Some cost ->
                       (13.14 <= cost)%Q) as Htable.
  { intros cost E. apply list_to_map_entry in E. cbn in E.
    repeat (destruct E as [E | E];
            [inversion E; subst; apply Qle_bool_imp_le; vm_compute; reflexivity|]).
    contradiction. }
  assert (13.14 <= Costs.rds_size_estimate db_instance_class)%Q as Hest.
  { unfold Costs.rds_size_estimate.
    repeat (match goal with |- context [if ?b then _ else _] => destruct b end);
      discriminate. }
  assert (forall cost, Costs.rds_pricing !! db_instance_class = Some cost ->
                       Costs.get_rds_cost db_instance_class engine = cost) as Hhit.
  { intros cost E. unfold Costs.get_rds_cost. rewrite E.
    apply Htable in E. unfold truthy.
    destruct (Qeq_bool cost 0) eqn:Eq; [|reflexivity].
    apply Qeq_bool_iff in Eq. rewrite Eq in E. exfalso. apply E. reflexivity. }
  split; [|split].
  - destruct (Costs.rds_pricing !! db_instance_class) as [cost|] eqn:E.
    + rewrite (Hhit cost eq_refl). now apply Htable.
    + unfold Costs.get_rds_cost. rewrite E. exact Hest.
  - exact Hhit.
  - intros E X Hmicro Hsmall Hmedium.
    unfold Costs.get_rds_cost. rewrite E. unfold Costs.rds_size_estimate.
    rewrite Hmicro, Hsmall, Hmedium, X, (contains_xlarge_large _ X).
    cbn [negb andb]. destruct (Decision.contains "2x" db_instance_class);
      discriminate.
Qed.

Lemma get_rds_cost_bounds_witness :
  (300 <= Costs.get_rds_cost "db.m6g.xlarge" "mysql")%Q.
Proof.
  apply (get_rds_cost_bounds "db.m6g.xlarge" "mysql"); vm_compute; reflexivity.
Defined.

Section VolumeCosts.

Import Costs.

Lemma ebs_price_cases (volume_type : string) :
  (exists price, In (volume_type, price)
                   [ ("gp3", 0.08); ("gp2", 0.10); ("io1", 0.125); ("io2", 0.125);
                     ("st1", 0.045); ("sc1", 0.015); ("standard", 0.05) ]%Q /\
                 ebs_pricing !! volume_type = Some price) \/
  (ebs_pricing !! volume_type = None /\
   existsb (String.eqb volume_type) ["io1"; "io2"] = false).
Proof.
  destruct (ebs_pricing !! volume_type) as [price|] eqn:E.
  - left. exists price. split; [|reflexivity]. now apply list_to_map_entry in E.
  - right. split; [reflexivity|].
    cbn [existsb]. rewrite orb_false_r. apply orb_false_iff.
    split; apply String.eqb_neq; intros ->; vm_compute in E; discriminate.
Qed.

End VolumeCosts.

(** X5 (net savings of a deleted volume). The handler records for a
    deleted volume its monthly cost less 0.05 per GB for the snapshot it
    keeps.  For a volume of positive size that figure is negative exactly
    when the volume type is [st1] or [sc1], whose price per GB is below
    the snapshot's. *)
Theorem ebs_net_savings_sign (volume_type : string) (size_gb : Z)
    (iops : option Z) :
  0 < size_gb ->
  (forall n, iops = Some n -> 0 <= n) ->
  ((Costs.ebs_net_savings volume_type size_gb iops < 0)%Q <->
   volume_type = "st1" \/ volume_type = "sc1").
Proof.
  intros Hsize Hiops.
  assert (0 < inject_Z size_gb)%Q as Hq.
  { change 0%Q with (inject_Z 0). now rewrite <- Zlt_Qlt. }
  assert (forall n, iops = Some n -> 0 <= inject_Z n)%Q as Hn.
  { intros n E. change 0%Q with (inject_Z 0). rewrite <- Zle_Qle. now apply Hiops. }
  unfold Costs.ebs_net_savings, Costs.get_ebs_volume_cost.
  destruct (ebs_price_cases volume_type) as [(price & Hin & ->) | [E Hio]];
    [|rewrite E, Hio].
  - cbn [In] in Hin.
    repeat (destruct Hin as [Hin | Hin];
            [ apply pair_equal_spec in Hin; destruct Hin as [<- <-];
              cbn [default from_option id existsb String.eqb Ascii.eqb Bool.eqb
                   orb andb];
              destruct iops as [n|];
              [ specialize (Hn n eq_refl); try destruct (n =? 0) | ];
              cbn [negb andb];
              (split; [ intros H; first [ lra | now auto ]
                      | intros [H|H]; first [ discriminate H | lra ] ]) | ]).
    contradiction.
  - cbn [default from_option id andb].
    split; [|intros [H|H]; subst; vm_compute in E; discriminate E].
    destruct iops; intros H; lra.
Qed.

Lemma ebs_net_savings_sign_witness :
  (Costs.ebs_net_savings "sc1" 100 None < 0)%Q.
Proof.
  apply (ebs_net_savings_sign "sc1" 100 None); [lia | discriminate | now right].
Defined.

Section ReportTotals.

Import Pricing Calculator Props Terms.

Lemma sum_savings_from (d : list (string * ServiceSavings)) (acc : Q) :
  (fold_left (fun acc ks => (acc + savings ks.2)%Q) d acc == acc + sum_savings d)%Q.
Proof.
  unfold sum_savings. revert acc.
  induction d as [|ks rest IH]; intros acc; cbn [fold_left].
  - lra.
  - rewrite IH, (IH (0 + savings ks.2)%Q). lra.
Qed.

Lemma sum_savings_cons (ks : string * ServiceSavings)
    (d : list (string * ServiceSavings)) :
  (sum_savings (ks :: d) == savings ks.2 + sum_savings d)%Q.
Proof.
  unfold sum_savings at 1. cbn [fold_left]. rewrite sum_savings_from. lra.
Qed.

Lemma sum_savings_add (key : string) (amount : Q)
    (d : list (string * ServiceSavings)) :
  (sum_savings (add_service key amount d) == sum_savings d + amount)%Q.
Proof.
  induction d as [|[k s] rest IH]; cbn [add_service].
  - rewrite sum_savings_cons. cbn. unfold sum_savings. cbn. lra.
  - destruct (String.eqb k key).
    + rewrite !sum_savings_cons. cbn [snd savings]. lra.
    + rewrite !sum_savings_cons, IH. lra.
Qed.

Lemma service_counts_add (key : string) (amount : Q)
    (d : list (string * ServiceSavings)) :
  service_counts (add_service key amount d) = service_counts d + 1.
Proof.
  induction d as [|[k s] rest IH]; cbn [add_service].
  - reflexivity.
  - destruct (String.eqb k key); cbn [service_counts fold_right snd count] in *.
    + lia.
    + fold (service_counts (add_service key amount rest)).
      fold (service_counts rest). lia.
Qed.

Lemma add_service_keys (key : string) (amount : Q)
    (d : list (string * ServiceSavings)) (k : string) :
  In k (map fst (add_service key amount d)) <-> k = key \/ In k (map fst d).
Proof.
  induction d as [|[k0 s] rest IH]; cbn [add_service].
  - cbn. intuition.
  - destruct (String.eqb k0 key) eqn:E.
    + apply String.eqb_eq in E. subst. cbn. intuition.
    + cbn [map fst In]. rewrite IH. intuition.
Qed.

Lemma add_service_NoDup (key : string) (amount : Q)
    (d : list (string * ServiceSavings)) :
  List.NoDup (map fst d) -> List.NoDup (map fst (add_service key amount d)).
Proof.
  induction d as [|[k0 s] rest IH]; cbn [add_service]; intros Hnd.
  - cbn. constructor; [intros []|constructor].
  - destruct (String.eqb k0 key) eqn:E; [exact Hnd|].
    cbn [map fst] in *. inversion Hnd as [|? ? Hnot Hrest]; subst.
    constructor; [|now apply IH].
    rewrite add_service_keys. intros [->|Hin]; [|contradiction].
    now rewrite String.eqb_refl in E.
Qed.

Lemma detail_total_snoc (rows : list DetailedResource) (r : DetailedResource) :
  (detail_total (rows ++ [r]) == detail_total rows + monthly_savings r)%Q.
Proof.
  induction rows as [|x rest IH]; cbn [app detail_total fold_right].
  - lra.
  - fold (detail_total (rest ++ [r])). fold (detail_total rest). rewrite IH. lra.
Qed.

Lemma savings_step_accounted (region : string)
    (acc : list (string * ServiceSavings) * list DetailedResource) (resource : Item) :
  accounted acc -> accounted (savings_step region acc resource).
Proof.
  intros (Hc & Hs & Hk & Hp). unfold savings_step.
  destruct acc as [by_service detailed]. cbn [fst snd] in *.
  destruct (Qlt_le_dec 0 _) as [Hpos|Hle]; [|split; [|split; [|split]]; assumption].
  split; [|split; [|split]]; cbn [fst snd].
  - rewrite service_counts_add, Hc, length_app. cbn [length]. lia.
  - rewrite sum_savings_add, detail_total_snoc, Hs. reflexivity.
  - now apply add_service_NoDup.
  - apply Forall_app. split; [exact Hp|]. constructor; [exact Hpos|constructor].
Qed.

Lemma fold_accounted (region : string) (records : list Item)
    (acc : list (string * ServiceSavings) * list DetailedResource) :
  accounted acc -> accounted (fold_left (savings_step region) records acc).
Proof.
  revert acc. induction records as [|r rest IH]; intros acc H; cbn [fold_left].
  - exact H.
  - apply IH. now apply savings_step_accounted.
Qed.

End ReportTotals.

(** X6 (a month's report adds up). In the data [calculate_savings]
    builds from any list of records, the counts of the services add up to
    [total_resources], which is the number of detail rows; [total_savings]
    is the sum of the rows' savings; no service is listed twice; and every
    row saves a positive amount. *)
Theorem report_totals_consistent (region month : string) (records : list Item) :
  Terms.service_counts
    (Calculator.savings_by_service (Calculator.aggregate region month records))
  = Calculator.total_resources (Calculator.aggregate region month records) /\
  Calculator.total_resources (Calculator.aggregate region month records)
  = Z.of_nat (length (Calculator.detailed_resources
                        (Calculator.aggregate region month records))) /\
  (Calculator.total_savings (Calculator.aggregate region month records)
   == Terms.detail_total
        (Calculator.detailed_resources (Calculator.aggregate region month records)))%Q /\
  List.NoDup (map fst (Calculator.savings_by_service
                         (Calculator.aggregate region month records))) /\
  Forall (fun r => (0 < Calculator.monthly_savings r)%Q)
         (Calculator.detailed_resources (Calculator.aggregate region month records)).
Proof.
  unfold Calculator.aggregate.
  pose proof (fold_accounted region records ([], [])) as H.
  destruct (fold_left (Calculator.savings_step region) records ([], []))
    as [by_service detailed].
  destruct H as (Hc & Hs & Hk & Hp).
  { split; [reflexivity | split; [reflexivity | split; constructor]]. }
  cbn [fst snd] in *. cbn.
  split; [|split; [|split; [|split]]]; try assumption. reflexivity.
Qed.

(** Comparisons of numerals, evaluated. *)
Ltac closed_tests :=
  repeat match goal with
         | |- context [Z.leb ?a ?b] =>
             let v := eval vm_compute in (Z.leb a b) in
             change (Z.leb a b) with v; cbv iota
         | |- context [Z.ltb ?a ?b] =>
             let v := eval vm_compute in (Z.ltb a b) in
             change (Z.ltb a b) with v; cbv iota
         | |- context [Z.eqb ?a ?b] =>
             let v := eval vm_compute in (Z.eqb a b) in
             change (Z.eqb a b) with v; cbv iota
         end.

Section MonthBoundary.

Import Pricing PyFmt Calculator Props Terms.

(** The first day of a month comes before the first day of the next. *)
Lemma month_starts_increase (y m : Z) :
  1 <= m <= 12 ->
  month_start_timestamp y m
  < month_start_timestamp (following_month y m).1 (following_month y m).2.
Proof.
  intros Hm. unfold month_start_timestamp.
  apply Z.mul_lt_mono_pos_r; [lia|].
  assert (m = 1 \/ m = 2 \/ m = 3 \/ m = 4 \/ m = 5 \/ m = 6 \/ m = 7 \/
          m = 8 \/ m = 9 \/ m = 10 \/ m = 11 \/ m = 12) as Hcases by lia.
  unfold following_month, days_from_civil.
  repeat (destruct Hcases as [-> | Hcases]); [ .. | subst m ];
    closed_tests; cbn [fst snd]; closed_tests;
    Z.to_euclidean_division_equations; lia.
Qed.

Lemma savings_step_keeps_rows (region : string)
    (acc : list (string * ServiceSavings) * list DetailedResource)
    (resource : Item) (rid : string) :
  In rid (map resource_id acc.2) ->
  In rid (map resource_id (savings_step region acc resource).2).
Proof.
  intros Hin. unfold savings_step. destruct acc as [by_service detailed].
  destruct (Qlt_le_dec 0 _); [|exact Hin].
  cbn [snd] in *. rewrite map_app. apply in_or_app. now left.
Qed.

Lemma fold_keeps_rows (region : string) (records : list Item)
    (acc : list (string * ServiceSavings) * list DetailedResource) (rid : string) :
  In rid (map resource_id acc.2) ->
  In rid (map resource_id (fold_left (savings_step region) records acc).2).
Proof.
  revert acc. induction records as [|r rest IH]; intros acc Hin; cbn [fold_left].
  - exact Hin.
  - apply IH. now apply savings_step_keeps_rows.
Qed.

(** A scanned record with positive savings gets a detail row. *)
Lemma fold_lists_positive (region : string) (records : list Item)
    (acc : list (string * ServiceSavings) * list DetailedResource) (it : Item) :
  In it records -> (0 < record_savings region it)%Q ->
  In (ResourceId it)
     (map resource_id (fold_left (savings_step region) records acc).2).
Proof.
  revert acc. induction records as [|r rest IH]; intros acc Hin Hpos; [destruct Hin|].
  cbn [fold_left]. destruct Hin as [->|Hin]; [|now apply IH].
  apply fold_keeps_rows. unfold savings_step. destruct acc as [by_service detailed].
  fold (record_savings region it).
  destruct (Qlt_le_dec 0 (record_savings region it)) as [_|Hle].
  - cbn [snd]. rewrite map_app. apply in_or_app. right. now left.
  - exfalso. apply (Qlt_not_le _ _ Hpos Hle).
Qed.

Lemma aggregate_lists_positive (region month : string) (records : list Item)
    (it : Item) :
  In it records -> (0 < record_savings region it)%Q ->
  In (ResourceId it)
     (map resource_id (detailed_resources (aggregate region month records))).
Proof.
  intros Hin Hpos. unfold aggregate.
  pose proof (fold_lists_positive region records ([], []) it Hin Hpos) as H.
  destruct (fold_left (savings_step region) records ([], [])). exact H.
Qed.

(** The records a month's scan selects. *)
Lemma calculate_savings_selects (region : string) (tbl : Table) (y m : Z)
    (it : Item) :
  reachable tbl = true -> In it (items tbl) ->
  status_deleted_or_stopped it = true ->
  month_start_timestamp y m <= Timestamp it
  <= month_start_timestamp (following_month y m).1 (following_month y m).2 ->
  (0 < record_savings region it)%Q ->
  exists report,
    calculate_savings region tbl y m = Ok report /\
    In (ResourceId it) (map resource_id (detailed_resources report)).
Proof.
  intros Hup Hin Hstatus Hts Hpos.
  unfold calculate_savings, table_scan. rewrite Hup.
  eexists. split; [reflexivity|].
  apply aggregate_lists_positive; [|exact Hpos].
  apply filter_In. split; [exact Hin|].
  rewrite Hstatus. cbn [andb]. unfold ts_between, following_month in *.
  destruct (m =? 12); cbn [fst snd] in Hts; apply andb_true_iff; split;
    apply Z.leb_le; lia.
Qed.

End MonthBoundary.

(** X7 (month boundary). The scan of [calculate_savings] takes the
    timestamps from the first second of the month to the first second of
    the next month, both included.  A [DELETED] or [STOPPED] record with
    positive savings stamped at the first second of a month is therefore
    reported twice: in that month and in the month before. *)
Theorem month_boundary_counted_twice (region : string) (tbl : Table) (y m : Z)
    (it : Item) :
  1 <= m <= 12 ->
  reachable tbl = true ->
  In it (items tbl) ->
  Calculator.status_deleted_or_stopped it = true ->
  (0 < Props.record_savings region it)%Q ->
  Timestamp it
  = PyFmt.month_start_timestamp (Terms.following_month y m).1
                                (Terms.following_month y m).2 ->
  exists before after,
    Calculator.calculate_savings region tbl y m = Ok before /\
    Calculator.calculate_savings region tbl (Terms.following_month y m).1
                                 (Terms.following_month y m).2 = Ok after /\
    In (ResourceId it)
       (map Calculator.resource_id (Calculator.detailed_resources before)) /\
    In (ResourceId it)
       (map Calculator.resource_id (Calculator.detailed_resources after)).
Proof.
  intros Hm Hup Hin Hstatus Hpos Hts.
  assert (1 <= (Terms.following_month y m).2 <= 12) as Hm'.
  { unfold Terms.following_month. destruct (m =? 12) eqn:E; cbn [snd]; lia. }
  pose proof (month_starts_increase y m Hm) as H1.
  pose proof (month_starts_increase (Terms.following_month y m).1 _ Hm') as H2.
  destruct (calculate_savings_selects region tbl y m it) as (before & Hb & Hinb);
    try assumption; [lia|].
  destruct (calculate_savings_selects region tbl
              (Terms.following_month y m).1 (Terms.following_month y m).2 it)
    as (after & Ha & Hina); try assumption; [lia|].
  exists before, after. auto.
Qed.

Lemma month_boundary_counted_twice_witness :
  exists before after,
    Calculator.calculate_savings "us-east-1" Terms.new_year_log 2024 12
    = Ok before /\
    Calculator.calculate_savings "us-east-1" Terms.new_year_log
      (Terms.following_month 2024 12).1 (Terms.following_month 2024 12).2
    = Ok after /\
    In (ResourceId Terms.new_year_record)
       (map Calculator.resource_id (Calculator.detailed_resources before)) /\
    In (ResourceId Terms.new_year_record)
       (map Calculator.resource_id (Calculator.detailed_resources after)).
Proof.
  apply month_boundary_counted_twice.
  - lia.
  - reflexivity.
  - now left.
  - reflexivity.
  - vm_compute. reflexivity.
  - vm_compute. reflexivity.
Defined.

Section Strings.

Lemma length_append (a b : string) :
  String.length (a ++ b) = (String.length a + String.length b)%nat.
Proof.
  induction a as [|c a IH]; [reflexivity|].
  simpl. now rewrite <- IH.
Qed.

(** Two concatenations with tails of one length agree part by part. *)
Lemma append_inv_tail (a b s t : string) :
  String.length s = String.length t -> a ++ s = b ++ t -> a = b /\ s = t.
Proof.
  revert b. induction a as [|c a IH]; intros [|c' b] Hlen Heq.
  - auto.
  - exfalso. apply (f_equal String.length) in Heq.
    rewrite !length_append in Heq. simpl in Heq. lia.
  - exfalso. apply (f_equal String.length) in Heq.
    rewrite !length_append in Heq. simpl in Heq. lia.
  - simpl in Heq. injection Heq as -> Heq. destruct (IH b Hlen Heq) as [-> ->]. auto.
Qed.

Lemma report_keys_differ (month : string) :
  "dashboard/reports/" ++ month ++ ".json" <> "dashboard/reports/" ++ month ++ ".csv".
Proof.
  intros H. apply String.app_inj in H. apply String.app_inj in H. discriminate.
Qed.

End Strings.

Section CalculatorRun.

Import PyFmt Calculator Dashboard.

Variable env : Env.
Variable region : string.

Lemma collect_total {A B : Type} (f : A -> Result B) (xs : list A) :
  (forall x, exists y, f x = Ok y) -> exists ys, collect f xs = Ok ys.
Proof.
  intros H. induction xs as [|x rest [ys IH]]; cbn [collect]; [eauto|].
  destruct (H x) as [y ->]. rewrite IH. eauto.
Qed.

Lemma historical_point_reachable (tbl : Table) (store : gmap string S3Object)
    (year mon i : Z) :
  reachable tbl = true ->
  exists point, historical_point env region tbl store year mon i = Ok point.
Proof.
  intros Hup. unfold historical_point.
  destruct (wrap_month _ _ _) as [target_month target_year].
  destruct (String.eqb _ _); [|eauto].
  unfold calculate_savings, table_scan. rewrite Hup. eauto.
Qed.

Lemma generate_dashboard_data_reachable (tbl : Table)
    (store : gmap string S3Object) (savings_data : SavingsData) :
  reachable tbl = true ->
  exists dashboard,
    generate_dashboard_data env region tbl store savings_data = Ok dashboard.
Proof.
  intros Hup. unfold generate_dashboard_data, get_historical_data.
  destruct (civil_from_days (today env)) as [[year mon] day].
  destruct (collect_total (historical_point env region tbl store year mon)
              (countdown 6)) as [points ->]; [|eauto].
  intros i. now apply historical_point_reachable.
Qed.

End CalculatorRun.

(** X8 (answer of the savings calculator). [lambda_handler] of the
    calculator answers 200 exactly when the history table can be scanned
    and the upload of [dashboard/data.json] is accepted; otherwise it
    answers 500.  Neither a failing read of an archived report nor a
    failing write of the month-end archive changes the answer. *)
Theorem calculator_answers_200_iff (env : Dashboard.Env) (region : string)
    (tbl : Table) (store : gmap string Dashboard.S3Object) :
  (Dashboard.statusCode (Dashboard.lambda_handler env region tbl store).1 = 200 <->
   reachable tbl = true /\
   Dashboard.put_object_raises env "dashboard/data.json" = false) /\
  (Dashboard.statusCode (Dashboard.lambda_handler env region tbl store).1 = 200 \/
   Dashboard.statusCode (Dashboard.lambda_handler env region tbl store).1 = 500).
Proof.
  unfold Dashboard.lambda_handler.
  destruct (PyFmt.civil_from_days (Dashboard.today env)) as [[year mon] day].
  unfold Calculator.calculate_savings, table_scan.
  destruct (reachable tbl) eqn:Hup.
  - match goal with
    | |- context [Dashboard.generate_dashboard_data env region tbl store ?sd] =>
        destruct (generate_dashboard_data_reachable env region tbl store sd Hup)
          as [dashboard ->]
    end.
    unfold Dashboard.upload_dashboard_data.
    destruct (Dashboard.put_object_raises env "dashboard/data.json");
      cbn [fst Dashboard.statusCode];
      (split;
       [ split; [ intros H; first [discriminate H | auto]
                | intros [H1 H2]; first [discriminate | reflexivity] ]
       | first [left; reflexivity | right; reflexivity] ]).
  - cbn [fst Dashboard.statusCode].
    split; [split; [intros H | intros [H _]]; discriminate H | right; reflexivity].
Qed.

(** X9 (a failed run writes nothing). When the calculator answers 500,
    the bucket is left exactly as it was: neither the dashboard nor a
    report has been written. *)
Theorem calculator_failure_writes_nothing (env : Dashboard.Env) (region : string)
    (tbl : Table) (store : gmap string Dashboard.S3Object) :
  Dashboard.statusCode (Dashboard.lambda_handler env region tbl store).1 = 500 ->
  (Dashboard.lambda_handler env region tbl store).2 = store.
Proof.
  unfold Dashboard.lambda_handler.
  destruct (PyFmt.civil_from_days (Dashboard.today env)) as [[year mon] day].
  destruct (Calculator.calculate_savings region tbl year mon) as [sd|e];
    [|reflexivity].
  destruct (Dashboard.generate_dashboard_data env region tbl store sd) as [d|e];
    [|reflexivity].
  unfold Dashboard.upload_dashboard_data.
  destruct (Dashboard.put_object_raises env "dashboard/data.json");
    [reflexivity|].
  cbn [fst Dashboard.statusCode]. discriminate.
Qed.

Lemma calculator_failure_writes_nothing_witness :
  (Dashboard.lambda_handler Terms.bucket_down "us-east-1" Props.rds_deleted_log ∅).2
  = ∅.
Proof.
  apply calculator_failure_writes_nothing. vm_compute. reflexivity.
Defined.

Section Archive.

Import PyFmt Calculator Dashboard Terms.

Lemma archive_keeps_other_keys (env : Env) (savings_data : SavingsData)
    (store : gmap string S3Object) (key : string) :
  key <> json_key (Calculator.month savings_data) ->
  key <> csv_key (Calculator.month savings_data) ->
  archive_monthly_report env savings_data store !! key = store !! key.
Proof.
  intros Hj Hc. unfold archive_monthly_report.
  fold (json_key (Calculator.month savings_data)). fold (csv_key (Calculator.month savings_data)).
  destruct (put_object_raises env (json_key _)); [reflexivity|].
  destruct (put_object_raises env (csv_key _)).
  - now rewrite lookup_insert_ne by congruence.
  - now rewrite !lookup_insert_ne by congruence.
Qed.

Lemma archive_stores_report (env : Env) (savings_data : SavingsData)
    (store : gmap string S3Object) :
  put_object_raises env (json_key (Calculator.month savings_data)) = false ->
  archive_monthly_report env savings_data store !! json_key (Calculator.month savings_data)
  = Some (ReportJson savings_data).
Proof.
  intros Hput. unfold archive_monthly_report.
  fold (json_key (Calculator.month savings_data)). fold (csv_key (Calculator.month savings_data)).
  rewrite Hput.
  destruct (put_object_raises env (csv_key _)).
  - now rewrite lookup_insert_eq.
  - rewrite lookup_insert_ne by (symmetry; apply report_keys_differ).
    now rewrite lookup_insert_eq.
Qed.

End Archive.

(** X10 (archive round trip). Once [archive_monthly_report] has stored
    the JSON report of a month, [get_archived_month_savings] returns that
    report's [total_savings] for the month, whether or not the CSV upload
    that follows succeeds; if the JSON upload is refused, nothing is
    written at all, the CSV report included. *)
Theorem archive_round_trip (writer reader : Dashboard.Env)
    (savings_data : Calculator.SavingsData)
    (store : gmap string Dashboard.S3Object) :
  Dashboard.get_object_raises reader
    (Terms.json_key (Calculator.month savings_data)) = false ->
  (Dashboard.put_object_raises writer
     (Terms.json_key (Calculator.month savings_data)) = false ->
   Dashboard.get_archived_month_savings reader
     (Dashboard.archive_monthly_report writer savings_data store)
     (Calculator.month savings_data)
   = Calculator.total_savings savings_data) /\
  (Dashboard.put_object_raises writer
     (Terms.json_key (Calculator.month savings_data)) = true ->
   Dashboard.archive_monthly_report writer savings_data store = store).
Proof.
  intros Hget. split; intros Hput.
  - unfold Dashboard.get_archived_month_savings.
    fold (Terms.json_key (Calculator.month savings_data)).
    rewrite Hget, archive_stores_report by exact Hput. reflexivity.
  - unfold Dashboard.archive_monthly_report.
    fold (Terms.json_key (Calculator.month savings_data)).
    now rewrite Hput.
Qed.

Lemma archive_round_trip_witness :
  Dashboard.get_archived_month_savings Terms.month_end_day
    (Dashboard.archive_monthly_report Terms.month_end_day
       Props.two_resources_month ∅)
    (Calculator.month Props.two_resources_month)
  = Calculator.total_savings Props.two_resources_month.
Proof.
  apply (archive_round_trip Terms.month_end_day Terms.month_end_day
           Props.two_resources_month ∅); reflexivity.
Defined.

(** X11 (what a successful run writes). A run of the calculator that can
    scan the table and upload the dashboard answers with the month's
    totals and leaves the dashboard it generated under
    [dashboard/data.json].  No other key of the bucket changes, except, on
    the last day of a month, the keys of that month's two reports; on that
    day the JSON report stored is the month's data, if its upload is
    accepted. *)
Theorem calculator_success_writes (env : Dashboard.Env) (region : string)
    (tbl : Table) (store : gmap string Dashboard.S3Object) (year mon day : Z) :
  PyFmt.civil_from_days (Dashboard.today env) = (year, mon, day) ->
  reachable tbl = true ->
  Dashboard.put_object_raises env "dashboard/data.json" = false ->
  exists savings_data dashboard,
    Calculator.calculate_savings region tbl year mon = Ok savings_data /\
    Dashboard.generate_dashboard_data env region tbl store savings_data
    = Ok dashboard /\
    (Dashboard.lambda_handler env region tbl store).1
    = Dashboard.Success (Calculator.total_savings savings_data)
                        (Calculator.total_resources savings_data) /\
    (Dashboard.lambda_handler env region tbl store).2 !! "dashboard/data.json"
    = Some (Dashboard.DashboardJson dashboard) /\
    (forall key,
       key <> "dashboard/data.json" ->
       Dashboard.is_month_end env = false \/
       (key <> Terms.json_key (Calculator.month_str year mon) /\
        key <> Terms.csv_key (Calculator.month_str year mon)) ->
       (Dashboard.lambda_handler env region tbl store).2 !! key = store !! key) /\
    (Dashboard.is_month_end env = true ->
     Dashboard.put_object_raises env
       (Terms.json_key (Calculator.month_str year mon)) = false ->
     (Dashboard.lambda_handler env region tbl store).2
       !! Terms.json_key (Calculator.month_str year mon)
     = Some (Dashboard.ReportJson savings_data)).
Proof.
  intros Hday Hup Hput. unfold Dashboard.lambda_handler. rewrite Hday.
  assert (exists sd, Calculator.calculate_savings region tbl year mon = Ok sd /\
                     Calculator.month sd = Calculator.month_str year mon)
    as (sd & Hsd & Hmonth).
  { unfold Calculator.calculate_savings, table_scan. rewrite Hup.
    eexists. split; [reflexivity|]. unfold Calculator.aggregate.
    now destruct (fold_left _ _ _). }
  rewrite Hsd.
  destruct (generate_dashboard_data_reachable env region tbl store sd Hup)
    as [dashboard Hd].
  rewrite Hd. unfold Dashboard.upload_dashboard_data. rewrite Hput.
  exists sd, dashboard. cbn [fst snd].
  assert (forall month, "dashboard/data.json" <> Terms.json_key month) as Hj
    by (intros month H; vm_compute in H; discriminate H).
  assert (forall month, "dashboard/data.json" <> Terms.csv_key month) as Hc
    by (intros month H; vm_compute in H; discriminate H).
  split; [first [reflexivity | exact Hsd]|].
  split; [first [reflexivity | exact Hd]|].
  split; [reflexivity|].
  split; [|split].
  - destruct (Dashboard.is_month_end env).
    + rewrite archive_keeps_other_keys by (rewrite Hmonth; auto).
      now rewrite lookup_insert_eq.
    + now rewrite lookup_insert_eq.
  - intros key Hkey Hother.
    destruct (Dashboard.is_month_end env).
    + destruct Hother as [Hno | [Hkj Hkc]]; [discriminate|].
      rewrite archive_keeps_other_keys by now rewrite Hmonth.
      now rewrite lookup_insert_ne by congruence.
    + now rewrite lookup_insert_ne by congruence.
  - intros -> Hputj. rewrite <- Hmonth. apply archive_stores_report.
    now rewrite Hmonth.
Qed.

Lemma calculator_success_writes_witness :
  exists savings_data dashboard,
    Calculator.calculate_savings "us-east-1" Props.rds_deleted_log 2025 1
    = Ok savings_data /\
    Dashboard.generate_dashboard_data Terms.month_end_day "us-east-1"
      Props.rds_deleted_log ∅ savings_data
    = Ok dashboard /\
    (Dashboard.lambda_handler Terms.month_end_day "us-east-1"
       Props.rds_deleted_log ∅).1
    = Dashboard.Success (Calculator.total_savings savings_data)
                        (Calculator.total_resources savings_data) /\
    (Dashboard.lambda_handler Terms.month_end_day "us-east-1"
       Props.rds_deleted_log ∅).2 !! "dashboard/data.json"
    = Some (Dashboard.DashboardJson dashboard) /\
    (forall key,
       key <> "dashboard/data.json" ->
       Dashboard.is_month_end Terms.month_end_day = false \/
       (key <> Terms.json_key (Calculator.month_str 2025 1) /\
        key <> Terms.csv_key (Calculator.month_str 2025 1)) ->
       (Dashboard.lambda_handler Terms.month_end_day "us-east-1"
          Props.rds_deleted_log ∅).2 !! key
       = (∅ : gmap string Dashboard.S3Object) !! key) /\
    (Dashboard.is_month_end Terms.month_end_day = true ->
     Dashboard.put_object_raises Terms.month_end_day
       (Terms.json_key (Calculator.month_str 2025 1)) = false ->
     (Dashboard.lambda_handler Terms.month_end_day "us-east-1"
        Props.rds_deleted_log ∅).2
       !! Terms.json_key (Calculator.month_str 2025 1)
     = Some (Dashboard.ReportJson savings_data)).
Proof.
  apply (calculator_success_writes Terms.month_end_day "us-east-1"
           Props.rds_deleted_log ∅ 2025 1 31); reflexivity.
Defined.

Section History.

Import PyFmt Calculator Dashboard Terms.

(** The loop that brings the month back into 1..12 ends within its
    bound and yields the month and the year of the calendar. *)
Lemma wrap_month_calendar (turns : nat) (target_month target_year : Z) :
  target_month <= 12 ->
  1 - target_month <= Z.of_nat turns ->
  wrap_month turns target_month target_year
  = ((target_month - 1) mod 12 + 1, target_year + (target_month - 1) / 12).
Proof.
  revert target_month target_year.
  induction turns as [|turns IH]; intros t y Hle Hfuel; cbn [wrap_month].
  - f_equal; Z.to_euclidean_division_equations; lia.
  - destruct (t <=? 0) eqn:E.
    + apply Z.leb_le in E. rewrite IH by lia.
      f_equal; Z.to_euclidean_division_equations; lia.
    + apply Z.leb_gt in E. f_equal; Z.to_euclidean_division_equations; lia.
Qed.

Lemma two_digits_length (m : Z) :
  1 <= m <= 12 -> String.length (two_digits m) = 2%nat.
Proof.
  intros Hm.
  assert (m = 1 \/ m = 2 \/ m = 3 \/ m = 4 \/ m = 5 \/ m = 6 \/ m = 7 \/
          m = 8 \/ m = 9 \/ m = 10 \/ m = 11 \/ m = 12) as Hcases by lia.
  repeat (destruct Hcases as [-> | Hcases]); try subst m; reflexivity.
Qed.

Lemma two_digits_inj (m m' : Z) :
  1 <= m <= 12 -> 1 <= m' <= 12 -> two_digits m = two_digits m' -> m = m'.
Proof.
  intros Hm Hm' Heq.
  pose (decode := fun s =>
          match s with
          | String a (String b _) =>
              Z.of_nat (nat_of_ascii a) * 10 + Z.of_nat (nat_of_ascii b) - 528
          | _ => 0
          end).
  assert (forall k, 1 <= k <= 12 -> decode (two_digits k) = k) as Hdecode.
  { intros k Hk.
    assert (k = 1 \/ k = 2 \/ k = 3 \/ k = 4 \/ k = 5 \/ k = 6 \/ k = 7 \/
            k = 8 \/ k = 9 \/ k = 10 \/ k = 11 \/ k = 12) as Hcases by lia.
    repeat (destruct Hcases as [-> | Hcases]); try subst k; reflexivity. }
  rewrite <- (Hdecode m Hm), <- (Hdecode m' Hm'). now rewrite Heq.
Qed.

(** Months with different numbers have different ["%Y-%m"] strings. *)
Lemma month_str_differs (y y' m m' : Z) :
  1 <= m <= 12 -> 1 <= m' <= 12 -> m <> m' -> month_str y m <> month_str y' m'.
Proof.
  intros Hm Hm' Hne Heq. unfold month_str in Heq.
  apply append_inv_tail in Heq.
  - destruct Heq as [_ Heq]. apply String.app_inj in Heq.
    now apply two_digits_inj in Heq.
  - rewrite !length_append, !two_digits_length by assumption. reflexivity.
Qed.

Lemma countdown_range (months i : Z) :
  In i (countdown months) -> 1 <= i <= months.
Proof.
  unfold countdown. rewrite in_map_iff. intros (n & <- & Hin).
  apply in_rev, in_seq in Hin. lia.
Qed.

Lemma collect_map {A B : Type} (f : A -> Result B) (g : A -> B) (xs : list A) :
  (forall x, In x xs -> f x = Ok (g x)) -> collect f xs = Ok (map g xs).
Proof.
  induction xs as [|x rest IH]; intros H; cbn [collect map]; [reflexivity|].
  rewrite (H x) by now left. rewrite IH; [reflexivity|].
  intros y Hy. apply H. now right.
Qed.

Lemma historical_point_archived (env : Env) (region : string) (tbl : Table)
    (store : gmap string S3Object) (year mon i : Z) :
  1 <= mon <= 12 -> 1 <= i <= 11 ->
  historical_point env region tbl store year mon i
  = Ok (archived_point env store (months_before year mon i)).
Proof.
  intros Hmon Hi. unfold historical_point.
  rewrite wrap_month_calendar by lia.
  assert (1 <= (mon - i - 1) mod 12 + 1 <= 12) as Hrange
    by (Z.to_euclidean_division_equations; lia).
  assert ((mon - i - 1) mod 12 + 1 <> mon) as Hother
    by (Z.to_euclidean_division_equations; lia).
  pose proof (month_str_differs (year + (mon - i - 1) / 12) year _ _
                Hrange Hmon Hother) as Hne.
  apply String.eqb_neq in Hne. rewrite Hne. reflexivity.
Qed.

End History.

Section HistoryClosedForm.

Import Dashboard Terms.

Lemma historical_data_closed_form (env : Env) (region : string)
    (tbl : Table) (store : gmap string S3Object) (year mon months : Z) :
  1 <= mon <= 12 ->
  months <= 11 ->
  get_historical_data env region tbl store year mon months
  = Ok (map (fun i => archived_point env store (months_before year mon i))
            (countdown months)).
Proof.
  intros Hmon Hmonths. unfold get_historical_data.
  apply collect_map. intros i Hin. apply countdown_range in Hin.
  apply historical_point_archived; lia.
Qed.

End HistoryClosedForm.

Section Calendar.

Import PyFmt Dashboard.

(** The month of a calendar date is between 1 and 12. *)
Lemma civil_month_range (z : Z) : 1 <= (civil_from_days z).1.2 <= 12.
Proof.
  unfold civil_from_days. cbv zeta. cbn [fst snd].
  set (doe := z + 719468 - (z + 719468) / 146097 * 146097).
  assert (0 <= doe < 146097) as Hdoe
    by (subst doe; Z.to_euclidean_division_equations; lia).
  set (yoe := (doe - doe / 1460 + doe / 36524 - doe / 146096) / 365).
  assert (0 <= yoe <= 399) as Hyoe
    by (subst yoe; Z.to_euclidean_division_equations; lia).
  set (doy := doe - (365 * yoe + yoe / 4 - yoe / 100)).
  assert (0 <= doy <= 365) as Hdoy.
  { subst doy yoe. clearbody doe. Z.to_euclidean_division_equations. lia. }
  clearbody doy.
  destruct ((5 * doy + 2) / 153 <? 10) eqn:E;
    [apply Z.ltb_lt in E | apply Z.ltb_ge in E];
    Z.to_euclidean_division_equations; lia.
Qed.

(** [generate_dashboard_data] does not fail. *)
Lemma generate_dashboard_data_total (env : Env) (region : string) (tbl : Table)
    (store : gmap string S3Object) (savings_data : Calculator.SavingsData) :
  exists dashboard,
    generate_dashboard_data env region tbl store savings_data = Ok dashboard.
Proof.
  unfold generate_dashboard_data.
  pose proof (civil_month_range (today env)) as Hmon.
  destruct (civil_from_days (today env)) as [[year mon] day]. cbn [fst snd] in Hmon.
  rewrite historical_data_closed_form by (auto; lia). eauto.
Qed.

End Calendar.

(** X12 (history chart). For up to eleven months back (the dashboard
    asks for six), [get_historical_data] never fails and returns one
    point per month, oldest first, for the calendar months before the
    current one.  Every point is read from the archived report of its
    month (0 when there is none); the history table and the current
    month are not consulted. *)
Theorem history_reads_archive (env : Dashboard.Env) (region : string)
    (tbl : Table) (store : gmap string Dashboard.S3Object) (year mon months : Z) :
  1 <= mon <= 12 ->
  months <= 11 ->
  Dashboard.get_historical_data env region tbl store year mon months
  = Ok (map (fun i => Terms.archived_point env store
                        (Terms.months_before year mon i))
            (Dashboard.countdown months)).
Proof.
  intros Hmon Hmonths. now apply historical_data_closed_form.
Qed.

Lemma history_reads_archive_witness :
  Dashboard.get_historical_data Terms.month_end_day "us-east-1"
    (mkTable [] false) ∅ 2025 2 6
  = Ok (map (fun i => Terms.archived_point Terms.month_end_day ∅
                        (Terms.months_before 2025 2 i))
            (Dashboard.countdown 6)).
Proof.
  apply history_reads_archive; lia.
Defined.

Section MonthEnd.

Import PyFmt Calculator Dashboard Terms.

(** On the last day of a month a successful run stores the month's data
    as the JSON report of the month. *)
Lemma month_end_run_archives (env : Env) (region : string) (tbl : Table)
    (store : gmap string S3Object) (year mon day : Z)
    (savings_data : SavingsData) :
  civil_from_days (today env) = (year, mon, day) ->
  calculate_savings region tbl year mon = Ok savings_data ->
  is_month_end env = true ->
  put_object_raises env "dashboard/data.json" = false ->
  put_object_raises env (json_key (month_str year mon)) = false ->
  (lambda_handler env region tbl store).2 !! json_key (month_str year mon)
  = Some (ReportJson savings_data).
Proof.
  intros Hday Hsd Hend Hput Hputj.
  assert (reachable tbl = true) as Hup.
  { unfold calculate_savings, table_scan in Hsd.
    destruct (reachable tbl); [reflexivity | discriminate]. }
  assert (Calculator.month savings_data = month_str year mon) as Hmonth.
  { unfold calculate_savings, table_scan in Hsd. rewrite Hup in Hsd.
    injection Hsd as <-. unfold aggregate. now destruct (fold_left _ _ _). }
  unfold lambda_handler. rewrite Hday, Hsd.
  destruct (generate_dashboard_data_reachable env region tbl store savings_data Hup)
    as [dashboard ->].
  unfold upload_dashboard_data. rewrite Hput, Hend. cbn [snd].
  rewrite <- Hmonth. apply archive_stores_report. now rewrite Hmonth.
Qed.

Lemma months_before_following (year mon : Z) :
  1 <= mon <= 12 ->
  months_before (following_month year mon).1 (following_month year mon).2 1
  = (year, mon).
Proof.
  intros Hmon. unfold months_before, following_month.
  destruct (mon =? 12) eqn:E; cbn [fst snd].
  - apply Z.eqb_eq in E. subst mon. f_equal; Z.to_euclidean_division_equations; lia.
  - apply Z.eqb_neq in E. f_equal; Z.to_euclidean_division_equations; lia.
Qed.

End MonthEnd.

(** X13 (from the month-end archive to the history chart). When a run on
    the last day of a month succeeds and its JSON report is stored, the
    history computed in the following month ends with the point of that
    month, and the point carries the month's total rounded to cents:
    what the chart shows for a past month is what was archived. *)
Theorem month_end_total_enters_history (env later : Dashboard.Env)
    (region region' : string) (tbl tbl' : Table)
    (store : gmap string Dashboard.S3Object) (year mon day : Z)
    (savings_data : Calculator.SavingsData) :
  PyFmt.civil_from_days (Dashboard.today env) = (year, mon, day) ->
  Calculator.calculate_savings region tbl year mon = Ok savings_data ->
  Dashboard.is_month_end env = true ->
  Dashboard.put_object_raises env "dashboard/data.json" = false ->
  Dashboard.put_object_raises env
    (Terms.json_key (Calculator.month_str year mon)) = false ->
  Dashboard.get_object_raises later
    (Terms.json_key (Calculator.month_str year mon)) = false ->
  exists points,
    Dashboard.get_historical_data later region' tbl'
      (Dashboard.lambda_handler env region tbl store).2
      (Terms.following_month year mon).1 (Terms.following_month year mon).2 6
    = Ok points /\
    last points
    = Some (Dashboard.mkPoint
              (Calculator.month_str year mon)
              (Dashboard.month_abbr mon ++ " " ++ PyFmt.str_int year)
              (Dashboard.round2 (Calculator.total_savings savings_data))).
Proof.
  intros Hday Hsd Hend Hput Hputj Hget.
  pose proof (civil_month_range (Dashboard.today env)) as Hmon.
  rewrite Hday in Hmon. cbn [fst snd] in Hmon.
  assert (1 <= (Terms.following_month year mon).2 <= 12) as Hnext.
  { unfold Terms.following_month. destruct (mon =? 12) eqn:E; cbn [snd]; lia. }
  rewrite historical_data_closed_form by (auto; lia).
  eexists. split; [reflexivity|].
  change (Dashboard.countdown 6) with [6; 5; 4; 3; 2; 1].
  cbn [map]. rewrite last_cons_cons, last_cons_cons, last_cons_cons,
    last_cons_cons, last_cons_cons. cbn [last].
  rewrite months_before_following by exact Hmon.
  unfold Terms.archived_point, Dashboard.get_archived_month_savings.
  cbn [fst snd]. fold (Terms.json_key (Calculator.month_str year mon)).
  rewrite Hget.
  rewrite (month_end_run_archives env region tbl store year mon day savings_data)
    by assumption.
  reflexivity.
Qed.

Lemma month_end_total_enters_history_witness :
  exists points,
    Dashboard.get_historical_data Terms.month_end_day "us-east-1"
      Props.rds_deleted_log
      (Dashboard.lambda_handler Terms.month_end_day "us-east-1"
         Props.rds_deleted_log ∅).2
      (Terms.following_month 2025 1).1 (Terms.following_month 2025 1).2 6
    = Ok points /\
    last points
    = Some (Dashboard.mkPoint
              (Calculator.month_str 2025 1)
              (Dashboard.month_abbr 1 ++ " " ++ PyFmt.str_int 2025)
              (Dashboard.round2
                 (Calculator.total_savings
                    (Calculator.aggregate "us-east-1" (Calculator.month_str 2025 1)
                       (items Props.rds_deleted_log))))).
Proof.
  apply (month_end_total_enters_history Terms.month_end_day Terms.month_end_day
           "us-east-1" "us-east-1" Props.rds_deleted_log Props.rds_deleted_log
           ∅ 2025 1 31);
    first [lia | vm_compute; reflexivity].
Defined.

Section DashboardRows.

Import Calculator Dashboard.

Lemma insert_row_permutation (row : ServiceRow) (sorted : list ServiceRow) :
  Permutation (insert_row row sorted) (row :: sorted).
Proof.
  induction sorted as [|r rest IH]; cbn [insert_row]; [reflexivity|].
  destruct (Qlt_le_dec _ _); [|reflexivity].
  rewrite IH. apply perm_swap.
Qed.

Lemma insert_row_sorted (row : ServiceRow) (sorted : list ServiceRow) :
  StronglySorted (fun a b => (Dashboard.savings b <= Dashboard.savings a)%Q) sorted ->
  StronglySorted (fun a b => (Dashboard.savings b <= Dashboard.savings a)%Q)
                 (insert_row row sorted).
Proof.
  induction sorted as [|r rest IH]; cbn [insert_row]; intros Hs.
  - repeat constructor.
  - apply StronglySorted_inv in Hs. destruct Hs as [Hrest Hr].
    destruct (Qlt_le_dec _ _) as [Hlt|Hle].
    + constructor; [now apply IH|].
      rewrite insert_row_permutation. constructor; [now apply Qlt_le_weak|exact Hr].
    + constructor; [now constructor|].
      constructor; [exact Hle|].
      eapply Forall_impl; [exact Hr|]. intros x Hx. cbn beta in *.
      now apply Qle_trans with (Dashboard.savings r).
Qed.

Lemma sort_rows_spec (rows : list ServiceRow) :
  StronglySorted (fun a b => (Dashboard.savings b <= Dashboard.savings a)%Q)
                 (sort_rows rows) /\
  Permutation (sort_rows rows) rows.
Proof.
  unfold sort_rows. induction rows as [|r rest [IHs IHp]]; cbn [fold_right].
  - split; [constructor | reflexivity].
  - split; [now apply insert_row_sorted|].
    rewrite insert_row_permutation. now constructor.
Qed.

End DashboardRows.

(** X14 (rows of the dashboard). [generate_dashboard_data] does not
    fail.  In the dashboard it builds, every service of the month's data
    has exactly one row, with its display name, its count and its savings
    rounded to cents; the rows are in order of decreasing savings; and the
    pie-chart breakdown lists the rows' names and savings in the same
    order. *)
Theorem dashboard_rows_sorted (env : Dashboard.Env) (region : string)
    (tbl : Table) (store : gmap string Dashboard.S3Object)
    (savings_data : Calculator.SavingsData) :
  exists dashboard,
    Dashboard.generate_dashboard_data env region tbl store savings_data
    = Ok dashboard /\
    Permutation
      (Dashboard.savings_by_service (Dashboard.current_month dashboard))
      (map Dashboard.service_row (Calculator.savings_by_service savings_data)) /\
    StronglySorted
      (fun a b => (Dashboard.savings b <= Dashboard.savings a)%Q)
      (Dashboard.savings_by_service (Dashboard.current_month dashboard)) /\
    map Dashboard.name (Dashboard.breakdown dashboard)
    = map Dashboard.service
          (Dashboard.savings_by_service (Dashboard.current_month dashboard)) /\
    map Dashboard.value (Dashboard.breakdown dashboard)
    = map Dashboard.savings
          (Dashboard.savings_by_service (Dashboard.current_month dashboard)).
Proof.
  destruct (generate_dashboard_data_total env region tbl store savings_data)
    as [dashboard Hd].
  exists dashboard. split; [exact Hd|].
  unfold Dashboard.generate_dashboard_data in Hd.
  destruct (PyFmt.civil_from_days (Dashboard.today env)) as [[year mon] day].
  destruct (Dashboard.get_historical_data _ _ _ _ _ _ _); [|discriminate].
  injection Hd as <-. cbn [Dashboard.current_month Dashboard.savings_by_service
                            Dashboard.breakdown].
  destruct (sort_rows_spec
              (map Dashboard.service_row
                   (Calculator.savings_by_service savings_data))) as [Hs Hp].
  split; [exact Hp|]. split; [exact Hs|].
  rewrite !map_map. split; reflexivity.
Qed.

Section ScanStops.

Import Decision Props.

(** The scan of [determine_action] does not look behind an [ACTIVE] or a
    [QUARANTINE] entry. *)
Lemma scan_history_stops (newer_rev rest rest' : list Item) (e : Item) (n : Z) :
  val_is (status_of e) "ACTIVE" = true \/
  val_is (status_of e) "QUARANTINE" = true ->
  scan_history (newer_rev ++ e :: rest) n
  = scan_history (newer_rev ++ e :: rest') n.
Proof.
  intros He. revert n. induction newer_rev as [|x l IH]; intros n.
  - cbn [app scan_history]. fold (status_of e).
    destruct (val_is (status_of e) "ACTIVE") eqn:Ea; [reflexivity|].
    destruct He as [He|He]; [discriminate|].
    destruct (val_in (status_of e) ["IDLE"; "IDLE_WARNING"]) eqn:Ei.
    { unfold val_in, val_is in *. cbn in Ei.
      destruct (status_of e); try discriminate.
      apply String.eqb_eq in He. subst s. discriminate. }
    now rewrite He.
  - cbn [app scan_history]. rewrite !IH. reflexivity.
Qed.

(** What the scan can return: a count that is at least the count it
    started from, and the non-zero timestamp of an entry, if any. *)
Lemma scan_history_result (l : list Item) (n : Z) :
  n <= (scan_history l n).1 /\
  ((scan_history l n).2 = None \/
   exists e, In e l /\ Timestamp e <> 0 /\
             (scan_history l n).2 = Some (inject_Z (Timestamp e))).
Proof.
  revert n. induction l as [|x l IH]; intros n; cbn [scan_history].
  - cbn. split; [lia | now left].
  - destruct (val_is _ "ACTIVE"); [cbn; split; [lia | now left]|].
    destruct (val_in _ _).
    { destruct (IH (n + 1)) as [H1 H2]. split; [lia|].
      destruct H2 as [H2 | (e & Hin & Hts & H2)]; [now left|].
      right. exists e. split; [now right | auto]. }
    destruct (val_is _ "QUARANTINE").
    { cbn [fst snd]. split; [lia|].
      destruct (Timestamp x =? 0) eqn:E; cbn [negb]; [now left|].
      right. exists x. apply Z.eqb_neq in E. split; [now left | auto]. }
    destruct (IH n) as [H1 H2]. split; [lia|].
    destruct H2 as [H2 | (e & Hin & Hts & H2)]; [now left|].
    right. exists e. split; [now right | auto].
Qed.

End ScanStops.

(** X15 (what the decision reads of the history). [determine_action]
    reads the history from the newest entry back to the newest [ACTIVE]
    or [QUARANTINE] entry: whatever was recorded before that entry has no
    effect on the action, on the idle count or on the quarantine date. *)
Theorem determine_action_forgets_older (cfg : Decision.Config) (now : Q)
    (older newer : list Item) (entry : Item) (current_cpu : Q) :
  val_is (Props.status_of entry) "ACTIVE" = true \/
  val_is (Props.status_of entry) "QUARANTINE" = true ->
  Decision.determine_action cfg now (older ++ entry :: newer) current_cpu
  = Decision.determine_action cfg now (entry :: newer) current_cpu.
Proof.
  intros He. unfold Decision.determine_action.
  destruct (Qle_bool _ _); [reflexivity|].
  rewrite rev_app_distr. cbn [rev]. rewrite <- !app_assoc. cbn [app].
  rewrite (scan_history_stops (rev newer) (rev older) [] entry 0 He).
  reflexivity.
Qed.

Lemma determine_action_forgets_older_witness :
  Decision.determine_action Props.week_config 1700300000
    ([ Props.observed "i-001" "QUARANTINE" 1690000000;
       Props.observed "i-001" "IDLE_WARNING" 1699000000 ]
     ++ Props.observed "i-001" "ACTIVE" 1700000000
     :: [ Props.observed "i-001" "IDLE_WARNING" 1700100000 ]) 0
  = Decision.determine_action Props.week_config 1700300000
      (Props.observed "i-001" "ACTIVE" 1700000000
       :: [ Props.observed "i-001" "IDLE_WARNING" 1700100000 ]) 0.
Proof.
  apply determine_action_forgets_older. left. reflexivity.
Defined.

Section SourcePolicy.

Import Decision Props.

(** With no grace period, a quarantine that is not in the future has
    always expired. *)
Lemma no_grace_expired (now : Q) (ts : Z) :
  (inject_Z ts <= now)%Q ->
  Qle_bool (inject_Z 0) ((now - inject_Z ts) / 86400) = true.
Proof.
  intros Hpast. apply Qle_bool_iff. apply Qle_shift_div_l; [reflexivity|].
  change (inject_Z 0) with 0%Q. lra.
Qed.

(** The decision of the source's settings for an idle signal, given what
    the scan returns. *)
Lemma source_decision (bucket : string) (now : Q) (history : list Item)
    (cpu : Q) :
  (forall entry, In entry history -> (inject_Z (Timestamp entry) <= now)%Q) ->
  Qle_bool (CPU_IDLE_THRESHOLD (source_config bucket)) cpu = false ->
  (determine_action (source_config bucket) now history cpu).1.1
  = if 1 <=? (scan_history (rev history) 0).1 then DELETE
    else if date_set (scan_history (rev history) 0).2 then DELETE else WARN.
Proof.
  intros Hpast Hidle. unfold determine_action. rewrite Hidle.
  destruct (scan_history_result (rev history) 0) as [_ Hq].
  destruct (scan_history (rev history) 0) as [idle_count quarantine_date].
  cbn [fst snd] in *. cbn [GRACE_PERIOD_DAYS IDLE_CHECKS_BEFORE_ACTION
                           SKIP_QUARANTINE source_config].
  destruct (date_set quarantine_date) eqn:Hset.
  - destruct Hq as [-> | (e & Hin & Hts & ->)]; [discriminate|].
    cbn [default from_option id].
    rewrite no_grace_expired by (apply Hpast, List.in_rev; exact Hin).
    now destruct (1 <=? idle_count).
  - now destruct (1 <=? idle_count).
Qed.

End SourcePolicy.

(** X16 (the policy of the source). With the settings the source assigns
    (no grace period, quarantine skipped, one idle check before action)
    and a history whose timestamps are not in the future, the decision is
    never [QUARANTINE]: an instance is not stopped first.  An idle
    instance whose newest record is an idle observation is to be deleted:
    the first idle check warns, the second deletes. *)
Theorem source_policy_skips_quarantine (bucket : string) (now : Q)
    (history : list Item) (current_cpu : Q) :
  (forall entry, In entry history -> (inject_Z (Timestamp entry) <= now)%Q) ->
  (Decision.determine_action (Decision.source_config bucket) now history
     current_cpu).1.1 <> Decision.QUARANTINE /\
  ((current_cpu < 5)%Q ->
   forall older newest,
     history = (older ++ [newest])%list ->
     Props.is_idle_entry newest = true ->
     (Decision.determine_action (Decision.source_config bucket) now history
        current_cpu).1.1 = Decision.DELETE).
Proof.
  intros Hpast. split.
  - destruct (Qle_bool (Decision.CPU_IDLE_THRESHOLD (Decision.source_config bucket))
                       current_cpu) eqn:Hcpu.
    + unfold Decision.determine_action. rewrite Hcpu. discriminate.
    + rewrite source_decision by assumption.
      repeat (match goal with |- context [if ?b then _ else _] => destruct b end);
        discriminate.
  - intros Hcpu older newest -> Hnewest.
    rewrite source_decision;
      [|exact Hpast
       |apply (idle_signal (Decision.source_config bucket));
        cbn [Decision.CPU_IDLE_THRESHOLD Decision.source_config]; lra].
    rewrite rev_app_distr. cbn [rev app Decision.scan_history].
    fold (Props.status_of newest).
    rewrite (idle_entry_not_active newest Hnewest).
    unfold Props.is_idle_entry in Hnewest. rewrite Hnewest.
    destruct (scan_history_result (rev older) (0 + 1)) as [Hcount _].
    destruct (1 <=? _) eqn:E; [reflexivity|].
    apply Z.leb_gt in E. lia.
Qed.

Lemma source_policy_skips_quarantine_witness :
  (Decision.determine_action (Decision.source_config "backups") 1700100000
     [ Props.observed "i-001" "ACTIVE" 1699900000;
       Props.observed "i-001" "IDLE_WARNING" 1700000000 ] 0).1.1
  <> Decision.QUARANTINE /\
  ((0 < 5)%Q ->
   forall older newest,
     [ Props.observed "i-001" "ACTIVE" 1699900000;
       Props.observed "i-001" "IDLE_WARNING" 1700000000 ]
     = (older ++ [newest])%list ->
     Props.is_idle_entry newest = true ->
     (Decision.determine_action (Decision.source_config "backups") 1700100000
        [ Props.observed "i-001" "ACTIVE" 1699900000;
          Props.observed "i-001" "IDLE_WARNING" 1700000000 ] 0).1.1
     = Decision.DELETE).
Proof.
  apply source_policy_skips_quarantine.
  intros entry [<- | [<- | []]]; vm_compute; discriminate.
Defined.

Section OnlyFacts.

Import Decision Monitor Props Terms.

Variable allowed : Call -> Prop.

(** A computation that issues no request. *)
Lemma only_quiet {A : Type} (m : M A) :
  (forall st, calls (m st).2 = calls st) -> only allowed m.
Proof. intros H st call Hin. rewrite H in Hin. now left. Qed.

Lemma only_ret {A : Type} (a : A) : only allowed (mret a : M A).
Proof. now apply only_quiet. Qed.

Lemma only_raise {A : Type} (e : string) : only allowed (raise e : M A).
Proof. now apply only_quiet. Qed.

Lemma only_bump (name key : string) : only allowed (bump name key).
Proof. now apply only_quiet. Qed.

Lemma only_set_key (name key : string) (value : Z) :
  only allowed (set_key name key value).
Proof. now apply only_quiet. Qed.

Lemma only_set_local (name : string) (d : list (string * Z)) :
  only allowed (set_local name d).
Proof. now apply only_quiet. Qed.

Lemma only_read_local (name : string) : only allowed (read_local name).
Proof.
  apply only_quiet. intros st. unfold read_local.
  now destruct (locals st !! name).
Qed.

Lemma only_in_locals (name : string) : only allowed (in_locals name).
Proof. now apply only_quiet. Qed.

Lemma only_put_item (c : Cloud) (it : Item) : only allowed (put_item c it).
Proof.
  apply only_quiet. intros st. unfold put_item. now destruct (_ || _).
Qed.

Lemma only_resource_history (c : Cloud) (resource_id : string) :
  only allowed (resource_history c resource_id).
Proof. now apply only_quiet. Qed.

Lemma only_validate (c : Cloud) : only allowed (validate_configuration c).
Proof.
  apply only_quiet. intros st. unfold validate_configuration.
  repeat (match goal with |- context [if ?b then _ else _] => destruct b end);
    reflexivity.
Qed.

Lemma only_issue (call : Call) : allowed call -> only allowed (issue call).
Proof.
  intros Hok st call' Hin. cbn in Hin. apply in_app_or in Hin.
  destruct Hin as [Hin | [<- | []]]; auto.
Qed.

(** Sequencing, with what is known of the first result. *)
Lemma only_bind_post {A B : Type} (post : A -> Prop) (m : M A) (k : A -> M B) :
  only allowed m ->
  (forall st a st', m st = (Ok a, st') -> post a) ->
  (forall a, post a -> only allowed (k a)) ->
  only allowed (m ≫= k).
Proof.
  intros Hm Hpost Hk st call. specialize (Hm st call).
  unfold mbind, M_bind, bind.
  destruct (m st) as [[a|e] st'] eqn:E; cbn [snd] in *; [|exact Hm].
  intros Hin. destruct (Hk a (Hpost st a st' E) st' call Hin) as [H|H]; auto.
Qed.

Lemma only_bind {A B : Type} (m : M A) (k : A -> M B) :
  only allowed m -> (forall a, only allowed (k a)) -> only allowed (m ≫= k).
Proof.
  intros Hm Hk. apply (only_bind_post (fun _ => True)); auto.
Qed.

Lemma only_try_except {A : Type} (body : M A) (handler : string -> M A) :
  only allowed body -> (forall e, only allowed (handler e)) ->
  only allowed (try_except body handler).
Proof.
  intros Hb Hh st call. specialize (Hb st call). unfold try_except.
  destruct (body st) as [[a|e] st']; cbn [snd] in *; [exact Hb|].
  intros Hin. destruct (Hh e st' call Hin) as [H|H]; auto.
Qed.

Lemma only_when (cond : bool) (body : M unit) :
  (cond = true -> only allowed body) -> only allowed (when cond body).
Proof. destruct cond; intros H; [now apply H | apply only_ret]. Qed.

Lemma only_isolate (name : string) (body : M unit) :
  only allowed body -> only allowed (isolate name body).
Proof.
  intros H. apply only_try_except; [exact H | intros e; apply only_bump].
Qed.

Lemma only_for_each {R : Type} (body : R -> M unit) (xs : list R) :
  (forall x, In x xs -> only allowed (body x)) -> only allowed (for_each body xs).
Proof.
  induction xs as [|x rest IH]; intros H; cbn [for_each].
  - apply only_ret.
  - apply only_bind; [apply H; now left | intros _; apply IH].
    intros y Hy. apply H. now right.
Qed.

End OnlyFacts.

(** Requests taken apart by the syntax of the step that issues them. *)
Ltac only_step :=
  first
    [ apply only_bind; [|intros ?]
    | apply only_ret
    | apply only_raise
    | apply only_bump
    | apply only_set_key
    | apply only_set_local
    | apply only_read_local
    | apply only_in_locals
    | apply only_put_item
    | apply only_resource_history
    | apply only_when; intros ?
    | apply only_isolate
    | apply only_try_except; [|intros ?]
    | apply only_issue
    | match goal with
      | |- Terms.only _ (if ?b then _ else _) => destruct b eqn:?
      | |- Terms.only _ (match ?x with _ => _ end) => destruct x eqn:?
      | |- Terms.only _ (let _ := _ in _) => cbv zeta
      end ].

Ltac only_auto := repeat only_step.

(** Tests of the code, read as propositions. *)
Ltac tidy :=
  repeat match goal with
         | H : negb _ = false |- _ => apply negb_false_iff in H
         | H : negb _ = true |- _ => apply negb_true_iff in H
         | H : (_ && _) = true |- _ => apply andb_true_iff in H; destruct H
         | H : (_ || _) = false |- _ => apply orb_false_iff in H; destruct H
         | H : String.eqb _ _ = true |- _ => apply String.eqb_eq in H
         | H : String.eqb _ _ = false |- _ => apply String.eqb_neq in H
         end.

Ltac justify :=
  try exact I;
  cbn [Terms.justified]; unfold Terms.destroyable, Terms.stoppable, Terms.watched;
  simpl String.eqb; cbv iota; tidy.

Section IterationsAreJustified.

Import Decision Monitor Props Terms.

Variable cfg : Config.
Variable sw : Switches.
Variable c : Cloud.

Lemma nat_iteration_justified (nat_gw : NatGateway) :
  In nat_gw (get_all_nat_gateways c) ->
  only (justified cfg c) (nat_iteration cfg c nat_gw).
Proof.
  intros Hin. unfold nat_iteration, nat_check. only_auto; justify.
  all: exists nat_gw; split; [reflexivity|]; repeat split; assumption.
Qed.

Lemma eip_iteration_justified (eip : Address) :
  In eip (get_all_elastic_ips c) ->
  only (justified cfg c) (eip_iteration c eip).
Proof.
  intros Hin. unfold eip_iteration, eip_check. only_auto; justify.
  all: exists eip; split; [reflexivity|]; repeat split; assumption.
Qed.

Lemma ebs_iteration_justified (volume : Volume) :
  In volume (get_all_ebs_volumes c) ->
  only (justified cfg c) (ebs_iteration cfg c volume).
Proof.
  intros Hin. unfold ebs_iteration, ebs_check. only_auto; justify.
  all: try (split; [|eauto]).
  all: exists volume; split; [reflexivity|]; repeat split; assumption.
Qed.

Lemma lb_iteration_justified (lb : LoadBalancer) :
  In lb (get_all_load_balancers c) ->
  only (justified cfg c) (lb_iteration cfg sw c lb).
Proof.
  intros Hin. unfold lb_iteration, lb_check. fold (lb_tags c lb).
  only_auto; justify.
  all: exists lb; split; [reflexivity|]; repeat split; assumption.
Qed.

Lemma vpc_iteration_justified (vpc : Vpc) :
  In vpc (get_all_vpcs c) ->
  only (justified cfg c) (vpc_iteration cfg sw c vpc).
Proof.
  intros Hin. unfold vpc_iteration, vpc_check. only_auto; justify.
  all: exists vpc; split; [reflexivity|]; repeat split; assumption.
Qed.

Lemma s3_iteration_justified (bucket_name : string) :
  In bucket_name (get_all_s3_buckets c) ->
  only (justified cfg c) (s3_iteration c bucket_name).
Proof.
  intros Hin. unfold s3_iteration, s3_check.
  destruct (get_bucket_tags c bucket_name) as [tag_set|e] eqn:Htags;
    [|only_auto; justify].
  fold (bucket_protected (tags_dict tag_set)).
  only_auto; justify.
  all: unfold s3_watched; eauto 10.
Qed.

Lemma rds_watched_intro (db : DBInstance) :
  In db (get_all_rds_instances c).1 ->
  existsb (String.eqb (DBInstanceStatus db)) ["available"; "stopped"] = true ->
  ignore_tagged (tags_dict (TagList db)) = false ->
  (if String.eqb (DBInstanceStatus db) "available"
   then check_rds_usage c (DBInstanceIdentifier db) else true) = true ->
  rds_watched c db.
Proof.
  intros Hin Hstatus Htag Hidle. repeat split; try assumption.
  - cbn [existsb] in Hstatus. rewrite orb_false_r in Hstatus.
    apply orb_true_iff in Hstatus.
    destruct Hstatus as [H|H]; apply String.eqb_eq in H; auto.
  - intros Havailable. rewrite Havailable in Hidle. exact Hidle.
Qed.

Lemma rds_iteration_justified (db : DBInstance) :
  In db (get_all_rds_instances c).1 ->
  only (justified cfg c) (rds_iteration cfg c db).
Proof.
  intros Hin. unfold rds_iteration, rds_check. only_auto; justify.
  all: try (assert (rds_watched c db) as Hwatched
              by (apply rds_watched_intro; assumption)).
  all: exists db; split; [reflexivity|]; repeat split; eauto; apply Hwatched.
Qed.

(** The decision on an instance that is running and busy. *)
Lemma ec2_decide_busy (instance : Instance) (st st' : State)
    (decision : Action * Z * option Q) :
  ec2_decide cfg c instance st = (Ok decision, st') ->
  ec2_idle cfg c instance = false ->
  decision = (ACTIVE, 0, None).
Proof.
  unfold ec2_decide, resource_history, ec2_idle.
  unfold mbind, M_bind, bind, mret, M_ret, ret. cbn.
  intros Heq Hbusy. injection Heq as <- _.
  apply negb_false_iff, andb_true_iff in Hbusy. destruct Hbusy as [Hrun Hcpu].
  rewrite Hrun. unfold determine_action. now rewrite Hcpu.
Qed.

Lemma ec2_iteration_justified (instance : Instance) (all : list Instance) :
  describe_instances c = Ok all -> In instance all ->
  only (justified cfg c) (ec2_iteration cfg c instance).
Proof.
  intros Hall Hin. unfold ec2_iteration.
  only_step; [only_step; exact I|].
  destruct (String.eqb _ "terminated") eqn:Hstate; [only_step|].
  cbv zeta.
  destruct (ignore_tagged _) eqn:Htag; [only_step|].
  apply only_isolate. unfold ec2_check.
  apply (only_bind_post _
           (fun decision => ec2_idle cfg c instance = false ->
                            decision = (ACTIVE, 0, None))).
  { unfold ec2_decide. only_auto. }
  { intros st decision st' Heq. now apply (ec2_decide_busy instance st st'). }
  intros decision Hbusy.
  destruct (ec2_idle cfg c instance) eqn:Hidle.
  - assert (ec2_watched cfg c instance) as Hwatched.
    { tidy. repeat split; eauto. }
    destruct decision as [[action idle_count] quarantine_date].
    unfold ec2_execute, ec2_delete. only_auto; justify.
    all: try (split; [|eexists; split; [eassumption | now apply Z.ltb_lt]]).
    all: exists instance; split; [reflexivity|]; repeat split; eauto; apply Hwatched.
  - rewrite (Hbusy eq_refl). unfold ec2_execute. only_auto.
Qed.

End IterationsAreJustified.

Section RunIsJustified.

Import Decision Monitor Props Terms.

Variable cfg : Config.
Variable sw : Switches.
Variable c : Cloud.

Lemma print_summary_justified (name : string) :
  only (justified cfg c) (print_summary name).
Proof. unfold print_summary. only_auto. exact I. Qed.

Lemma send_metrics_justified : only (justified cfg c) send_metrics.
Proof.
  unfold send_metrics, metrics_block, send_cloudwatch_metric.
  only_auto; exact I.
Qed.

(** Every request of a cycle is justified by what the cloud reports. *)
Lemma lambda_handler_justified :
  only (justified cfg c) (lambda_handler cfg sw c).
Proof.
  unfold lambda_handler.
  apply only_bind; [apply only_validate | intros _].
  apply only_bind; [apply only_set_local | intros _].
  apply only_try_except; [|intros e; apply only_ret].
  unfold run_steps.
  destruct (describe_instances c) as [all_instances|e] eqn:Hall;
    [|apply only_raise].
  destruct (get_all_rds_instances c) as [rds_instances rds_client] eqn:Hrds.
  repeat first
    [ apply print_summary_justified
    | apply send_metrics_justified
    | apply only_for_each; intros ? ?
    | eapply ec2_iteration_justified; eassumption
    | apply nat_iteration_justified; assumption
    | apply eip_iteration_justified; assumption
    | apply rds_iteration_justified; rewrite Hrds; assumption
    | apply s3_iteration_justified; assumption
    | apply ebs_iteration_justified; assumption
    | apply lb_iteration_justified; assumption
    | apply vpc_iteration_justified; assumption
    | only_step ].
Qed.

(** The requests of a cycle started with no request issued. *)
Lemma cycle_requests_justified (tbl : Table) (call : Call) :
  In call (calls (lambda_handler cfg sw c (initial_state tbl)).2) ->
  justified cfg c call.
Proof.
  intros Hin.
  destruct (lambda_handler_justified (initial_state tbl) call Hin) as [[]|H].
  exact H.
Qed.

End RunIsJustified.

Section RequestsOfACycle.

Import Decision Monitor Props Terms.

Variable cfg : Config.
Variable sw : Switches.
Variable c : Cloud.
Variable tbl : Table.

(** A request of a cycle that acts on a resource of a kind. *)
Lemma cycle_request_cases (call : Call) (kind resource : string) :
  In call (calls (lambda_handler cfg sw c (initial_state tbl)).2) ->
  acts_on call = Some (kind, resource) ->
  (call = Destroy kind resource /\ destroyable cfg c kind resource) \/
  (call = Stop kind resource /\ stoppable cfg c kind resource) \/
  (call = Lifecycle resource /\ kind = "S3_BUCKET" /\
   s3_watched c resource /\ is_bucket_empty c resource = false) \/
  (call <> Destroy kind resource /\ call <> Stop kind resource /\
   call <> Lifecycle resource /\ watched cfg c kind resource).
Proof.
  intros Hin Hacts. apply cycle_requests_justified in Hin.
  destruct call; cbn [acts_on] in Hacts; try discriminate;
    injection Hacts as <- <-; cbn [justified] in Hin.
  - right. right. right. repeat split; try discriminate. exact Hin.
  - right. right. right. repeat split; try discriminate. exact Hin.
  - right. right. right. repeat split; try discriminate. exact Hin.
  - right. left. auto.
  - left. auto.
  - right. right. left. destruct Hin. auto.
  - right. right. right. repeat split; try discriminate. exact Hin.
Qed.

End RequestsOfACycle.

(** X17 (what a cycle does to EC2 instances). Every backup, stop,
    backup verification, termination or alert of a cycle for an EC2
    instance is for an instance that [describe_instances] listed, that is
    not terminated, that does not carry the tag [CostGuardian=Ignore], and
    that is idle (not running, or with a CPU reading below the threshold).
    An instance is stopped only if it is running, and terminated only if
    the listing of its backup prefix reports at least one object. *)
Theorem ec2_requests_justified (cfg : Decision.Config) (sw : Monitor.Switches)
    (c : Monitor.Cloud) (tbl : Table) (call : Monitor.Call) (resource : string) :
  In call (Monitor.calls
             (Monitor.lambda_handler cfg sw c (Monitor.initial_state tbl)).2) ->
  Terms.acts_on call = Some ("EC2", resource) ->
  exists instance,
    Monitor.InstanceId instance = resource /\
    Terms.ec2_watched cfg c instance /\
    match call with
    | Monitor.Stop _ _ => Monitor.State_Name instance = "running"
    | Monitor.Destroy _ _ =>
        exists key_count,
          Monitor.list_backup_objects c resource = Ok key_count /\ 0 < key_count
    | _ => True
    end.
Proof.
  intros Hin Hacts.
  destruct (cycle_request_cases cfg sw c tbl call "EC2" resource Hin Hacts)
    as [[-> H] | [[-> H] | [(-> & Hkind & _) | (Hd & Hs & _ & H)]]];
    try discriminate; cbn in H.
  - destruct H as [(instance & Hid & Hw) Hb]. exists instance. auto.
  - destruct H as (instance & Hid & Hw & Hrun). exists instance. auto.
  - destruct H as (instance & Hid & Hw). exists instance.
    split; [exact Hid|]. split; [exact Hw|].
    destruct call; try exact I; cbn [Terms.acts_on] in Hacts;
      injection Hacts as -> ->; contradiction.
Qed.

Lemma ec2_requests_justified_witness :
  exists instance,
    Monitor.InstanceId instance = "i-001" /\
    Terms.ec2_watched (Decision.source_config "backups") Terms.idle_account
      instance /\
    exists key_count,
      Monitor.list_backup_objects Terms.idle_account "i-001" = Ok key_count /\
      0 < key_count.
Proof.
  apply (ec2_requests_justified (Decision.source_config "backups")
           Monitor.source_switches Terms.idle_account Terms.idle_log
           (Monitor.Destroy "EC2" "i-001") "i-001").
  - apply (nth_error_In _ 2). vm_compute. reflexivity.
  - reflexivity.
Defined.

(** X18 (what a cycle does to NAT gateways). Every backup, deletion or
    alert of a cycle for a NAT gateway is for a gateway that was listed,
    that does not carry the tag [CostGuardian=Ignore] and that
    [check_nat_gateway_usage] reports idle: a gateway with traffic is
    never deleted. *)
Theorem nat_requests_justified (cfg : Decision.Config) (sw : Monitor.Switches)
    (c : Monitor.Cloud) (tbl : Table) (call : Monitor.Call) (resource : string) :
  In call (Monitor.calls
             (Monitor.lambda_handler cfg sw c (Monitor.initial_state tbl)).2) ->
  Terms.acts_on call = Some ("NAT_GATEWAY", resource) ->
  exists nat_gw,
    Monitor.NatGatewayId nat_gw = resource /\ Terms.nat_watched c nat_gw.
Proof.
  intros Hin Hacts.
  destruct (cycle_request_cases cfg sw c tbl call _ resource Hin Hacts)
    as [[_ H] | [[_ H] | [(_ & Hkind & _) | (_ & _ & _ & H)]]];
    try discriminate; try exact H; destruct H.
Qed.

Lemma nat_requests_justified_witness :
  exists nat_gw,
    Monitor.NatGatewayId nat_gw = "nat-001" /\
    Terms.nat_watched Terms.idle_account nat_gw.
Proof.
  apply (nat_requests_justified (Decision.source_config "backups")
           Monitor.source_switches Terms.idle_account Terms.idle_log
           (Monitor.Destroy "NAT_GATEWAY" "nat-001") "nat-001").
  - apply (nth_error_In _ 6). vm_compute. reflexivity.
  - reflexivity.
Defined.



(** X20 (what a cycle does to databases). Every backup, snapshot, stop,
    deletion or alert of a cycle for a database is for a database listed
    as available or stopped, without the tag [CostGuardian=Ignore], and,
    if it is available, reported idle.  A database is stopped only if it
    is available and its snapshot was created; it is deleted only if it
    is already stopped and its snapshot was created: an available
    database is never deleted in the cycle that finds it idle. *)
Theorem rds_requests_justified (cfg : Decision.Config) (sw : Monitor.Switches)
    (c : Monitor.Cloud) (tbl : Table) (call : Monitor.Call) (resource : string) :
  In call (Monitor.calls
             (Monitor.lambda_handler cfg sw c (Monitor.initial_state tbl)).2) ->
  Terms.acts_on call = Some ("RDS", resource) ->
  exists db,
    Monitor.DBInstanceIdentifier db = resource /\
    Terms.rds_watched c db /\
    match call with
    | Monitor.Stop _ _ =>
        Monitor.DBInstanceStatus db = "available" /\
        is_Some (Monitor.create_rds_snapshot c resource)
    | Monitor.Destroy _ _ =>
        Monitor.DBInstanceStatus db = "stopped" /\
        is_Some (Monitor.create_rds_snapshot c resource)
    | _ => True
    end.
Proof.
  intros Hin Hacts.
  destruct (cycle_request_cases cfg sw c tbl call "RDS" resource Hin Hacts)
    as [[-> H] | [[-> H] | [(-> & Hkind & _) | (Hd & Hs & _ & H)]]];
    try discriminate; cbn in H.
  - destruct H as (db & Hid & Hw & Hstop & Hsnap). exists db. auto.
  - destruct H as (db & Hid & Hw & Hav & Hsnap). exists db. auto.
  - destruct H as (db & Hid & Hw). exists db.
    split; [exact Hid|]. split; [exact Hw|].
    destruct call; try exact I; cbn [Terms.acts_on] in Hacts;
      injection Hacts as -> ->; contradiction.
Qed.

Lemma rds_requests_justified_witness :
  exists db,
    Monitor.DBInstanceIdentifier db = "orders-db" /\
    Terms.rds_watched Terms.idle_account db /\
    Monitor.DBInstanceStatus db = "stopped" /\
    is_Some (Monitor.create_rds_snapshot Terms.idle_account "orders-db").
Proof.
  apply (rds_requests_justified (Decision.source_config "backups")
           Monitor.source_switches Terms.idle_account Terms.idle_log
           (Monitor.Destroy "RDS" "orders-db") "orders-db").
  - apply (nth_error_In _ 14). vm_compute. reflexivity.
  - reflexivity.
Defined.



(** X22 (what a cycle does to volumes). Every backup, snapshot, deletion
    or alert of a cycle for an EBS volume is for a volume that was listed,
    that does not carry the tag [CostGuardian=Ignore] and that is in state
    [available]; the volume is deleted only if its snapshot was created:
    a volume in use is never deleted, and no volume is deleted without a
    snapshot. *)
Theorem ebs_requests_justified (cfg : Decision.Config) (sw : Monitor.Switches)
    (c : Monitor.Cloud) (tbl : Table) (call : Monitor.Call) (resource : string) :
  In call (Monitor.calls
             (Monitor.lambda_handler cfg sw c (Monitor.initial_state tbl)).2) ->
  Terms.acts_on call = Some ("EBS_VOLUME", resource) ->
  (exists volume,
     Monitor.VolumeId volume = resource /\ Terms.ebs_watched c volume) /\
  match call with
  | Monitor.Destroy _ _ => is_Some (Monitor.create_ebs_snapshot c resource)
  | _ => True
  end.
Proof.
  intros Hin Hacts.
  destruct (cycle_request_cases cfg sw c tbl call "EBS_VOLUME" resource Hin Hacts)
    as [[-> H] | [[-> H] | [(-> & Hkind & _) | (Hd & Hs & _ & H)]]];
    try discriminate; cbn in H; try exact H.
  - destruct H.
  - split; [exact H|].
    destruct call; try exact I; cbn [Terms.acts_on] in Hacts;
      injection Hacts as -> ->; contradiction.
Qed.

Lemma ebs_requests_justified_witness :
  (exists volume,
     Monitor.VolumeId volume = "vol-001" /\
     Terms.ebs_watched Terms.idle_account volume) /\
  is_Some (Monitor.create_ebs_snapshot Terms.idle_account "vol-001").
Proof.
  apply (ebs_requests_justified (Decision.source_config "backups")
           Monitor.source_switches Terms.idle_account Terms.idle_log
           (Monitor.Destroy "EBS_VOLUME" "vol-001") "vol-001").
  - apply (nth_error_In _ 22). vm_compute. reflexivity.
  - reflexivity.
Defined.

(** X23 (what a cycle does to load balancers). Every backup, deletion
    or alert of a cycle for a load balancer is for a load balancer that
    was listed and that [check_load_balancer_usage] reports idle.  The tag
    [CostGuardian=Ignore] protects it only when its tags can be read:
    when [describe_tags] fails the load balancer is handled as untagged. *)
Theorem lb_requests_justified (cfg : Decision.Config) (sw : Monitor.Switches)
    (c : Monitor.Cloud) (tbl : Table) (call : Monitor.Call) (resource : string) :
  In call (Monitor.calls
             (Monitor.lambda_handler cfg sw c (Monitor.initial_state tbl)).2) ->
  Terms.acts_on call = Some ("LOAD_BALANCER", resource) ->
  exists lb,
    Monitor.LoadBalancerArn lb = resource /\
    In lb (Monitor.get_all_load_balancers c) /\
    Monitor.check_load_balancer_usage c resource = true /\
    match Monitor.describe_tags c resource with
    | Ok tag_list =>
        Monitor.ignore_tagged (Monitor.tags_dict tag_list) = false
    | Raise _ => True
    end.
Proof.
  intros Hin Hacts.
  assert (Terms.watched cfg c "LOAD_BALANCER" resource) as H.
  { destruct (cycle_request_cases cfg sw c tbl call _ resource Hin Hacts)
      as [[_ H] | [[_ H] | [(_ & Hkind & _) | (_ & _ & _ & H)]]];
      try discriminate; try exact H; destruct H. }
  cbn in H. destruct H as (lb & <- & Hlisted & Htag & Hidle). exists lb.
  split; [reflexivity|]. split; [exact Hlisted|]. split; [exact Hidle|].
  unfold Terms.lb_tags in Htag.
  now destruct (Monitor.describe_tags c (Monitor.LoadBalancerArn lb)).
Qed.

Lemma lb_requests_justified_witness :
  exists lb,
    Monitor.LoadBalancerArn lb = "arn:lb-001" /\
    In lb (Monitor.get_all_load_balancers Terms.idle_account) /\
    Monitor.check_load_balancer_usage Terms.idle_account "arn:lb-001" = true /\
    match Monitor.describe_tags Terms.idle_account "arn:lb-001" with
    | Ok tag_list =>
        Monitor.ignore_tagged (Monitor.tags_dict tag_list) = false
    | Raise _ => True
    end.
Proof.
  apply (lb_requests_justified (Decision.source_config "backups")
           Monitor.source_switches Terms.idle_account Terms.idle_log
           (Monitor.Destroy "LOAD_BALANCER" "arn:lb-001") "arn:lb-001").
  - apply (nth_error_In _ 26). vm_compute. reflexivity.
  - reflexivity.
Defined.

(** X24 (what a cycle does to VPCs). Every backup, deletion or alert of a
    cycle for a VPC is for a VPC that was listed, that is not the default
    VPC, that does not carry the tag [CostGuardian=Ignore] and that
    [is_vpc_empty] reports empty: the default VPC and a VPC with resources
    are never deleted. *)
Theorem vpc_requests_justified (cfg : Decision.Config) (sw : Monitor.Switches)
    (c : Monitor.Cloud) (tbl : Table) (call : Monitor.Call) (resource : string) :
  In call (Monitor.calls
             (Monitor.lambda_handler cfg sw c (Monitor.initial_state tbl)).2) ->
  Terms.acts_on call = Some ("VPC", resource) ->
  exists vpc, Monitor.VpcId vpc = resource /\ Terms.vpc_watched c vpc.
Proof.
  intros Hin Hacts.
  destruct (cycle_request_cases cfg sw c tbl call _ resource Hin Hacts)
    as [[_ H] | [[_ H] | [(_ & Hkind & _) | (_ & _ & _ & H)]]];
    try discriminate; try exact H; destruct H.
Qed.

Lemma vpc_requests_justified_witness :
  exists vpc,
    Monitor.VpcId vpc = "vpc-001" /\ Terms.vpc_watched Terms.idle_account vpc.
Proof.
  apply (vpc_requests_justified (Decision.source_config "backups")
           Monitor.source_switches Terms.idle_account Terms.idle_log
           (Monitor.Destroy "VPC" "vpc-001") "vpc-001").
  - apply (nth_error_In _ 30). vm_compute. reflexivity.
  - reflexivity.
Defined.

Section Gates.

Import Decision Monitor Props Terms.

Variable threshold : Z.
Variable streak : Table -> Z.

(** A computation none of whose requests is drastic. *)
Lemma gated_mild {A : Type} (m : M A) :
  only (fun call => drastic call = false) m -> gated threshold streak m.
Proof.
  intros H st call Hin Hd. destruct (H st call Hin) as [?|Hmild]; [now left|].
  congruence.
Qed.

(** A computation run where the streak is known to be long enough. *)
Lemma gated_open {A : Type} (m : M A) (st : State) (call : Call) :
  threshold <= streak (table st) ->
  In call (calls (m st).2) -> drastic call = true ->
  In call (calls st) \/ threshold <= streak (table st).
Proof. auto. Qed.

(** Sequencing after a step that leaves the table as it is. *)
Lemma gated_bind {A B : Type} (m : M A) (k : A -> M B) :
  (forall st, table (m st).2 = table st) ->
  gated threshold streak m ->
  (forall a, gated threshold streak (k a)) ->
  gated threshold streak (m ≫= k).
Proof.
  intros Hkeep Hm Hk st call. specialize (Hm st call). specialize (Hkeep st).
  unfold mbind, M_bind, bind.
  destruct (m st) as [[a|e] st'] eqn:E; cbn [snd] in *; [|exact Hm].
  intros Hin Hd. destruct (Hk a st' call Hin Hd) as [H|H]; [auto|].
  right. now rewrite <- Hkeep.
Qed.

Lemma gated_isolate (name : string) (body : M unit) :
  gated threshold streak body -> gated threshold streak (isolate name body).
Proof.
  intros H st call. specialize (H st call). unfold isolate, try_except.
  destruct (body st) as [[a|e] st']; cbn [snd] in *; exact H.
Qed.

(** The history read, followed by steps that are mild when the streak
    they count in it is short. *)
Lemma gated_history (c : Cloud) (resource_id : string)
    (k : list Item -> M unit) :
  (forall tbl,
     streak tbl < threshold ->
     only (fun call => drastic call = false) (k (history_seen c tbl resource_id))) ->
  gated threshold streak (resource_history c resource_id ≫= k).
Proof.
  intros Hk st call Hin Hd.
  destruct (Z.lt_ge_cases (streak (table st)) threshold) as [Hshort|Hlong];
    [|now right].
  left. specialize (Hk (table st) Hshort st call).
  destruct Hk as [H|H]; [exact Hin | exact H | congruence].
Qed.

End Gates.

Ltac mild := only_auto; try reflexivity.

Section Thresholds.

Import Decision Monitor Props Terms.

Variable cfg : Config.
Variable sw : Switches.
Variable c : Cloud.

Ltac short_streak name :=
  intros tbl Hshort; cbv zeta;
  match goal with
  | |- context [count_streak ?counted ?stops (rev (history_seen c tbl ?id))] =>
      fold (streak_seen counted stops c id tbl)
  end;
  apply Z.ltb_lt in Hshort; rewrite Hshort; mild.

Lemma nat_iteration_gated (nat_gw : NatGateway) :
  gated 3 (streak_seen ["IDLE"; "IDLE_WARNING"] ["ACTIVE"] c (NatGatewayId nat_gw))
        (nat_iteration cfg c nat_gw).
Proof.
  unfold nat_iteration.
  apply gated_bind; [reflexivity | apply gated_mild; mild | intros _].
  destruct (ignore_tagged _); [apply gated_mild; mild|].
  apply gated_isolate. unfold nat_check. apply gated_history.
  short_streak tt.
Qed.

Lemma eip_iteration_gated (eip : Address) :
  gated 3 (streak_seen ["UNATTACHED"] ["ATTACHED"] c (AllocationId eip))
        (eip_iteration c eip).
Proof.
  unfold eip_iteration.
  apply gated_bind; [reflexivity | apply gated_mild; mild | intros _].
  destruct (ignore_tagged _); [apply gated_mild; mild|].
  apply gated_isolate. unfold eip_check. cbv zeta.
  destruct (negb _); [apply gated_mild; mild|].
  apply gated_bind; [reflexivity | apply gated_mild; mild | intros _].
  apply gated_history. short_streak tt.
Qed.

Lemma rds_iteration_gated (db : DBInstance) :
  gated 3 (streak_seen ["IDLE"; "IDLE_WARNING"] ["ACTIVE"] c
             (DBInstanceIdentifier db))
        (rds_iteration cfg c db).
Proof.
  unfold rds_iteration.
  apply gated_bind; [reflexivity | apply gated_mild; mild | intros _].
  destruct (negb _); [apply gated_mild; mild|].
  destruct (ignore_tagged _); [apply gated_mild; mild|].
  apply gated_isolate. unfold rds_check. apply gated_history.
  short_streak tt.
Qed.

Lemma s3_iteration_gated (bucket_name : string) :
  gated 3 (streak_seen ["EMPTY"] ["HAS_DATA"; "ACTIVE"] c bucket_name)
        (s3_iteration c bucket_name).
Proof.
  unfold s3_iteration.
  apply gated_bind; [reflexivity | apply gated_mild; mild | intros _].
  apply gated_isolate. unfold s3_check.
  destruct (get_bucket_tags c bucket_name); [|apply gated_mild; mild].
  cbv zeta. destruct (match _ with Some _ => _ | None => _ end);
    [apply gated_mild; mild|].
  destruct (is_bucket_empty c bucket_name); [|apply gated_mild; mild].
  apply gated_bind; [reflexivity | apply gated_mild; mild | intros _].
  apply gated_history. short_streak tt.
Qed.

Lemma ebs_iteration_gated (volume : Volume) :
  gated 3 (streak_seen ["AVAILABLE"] ["IN_USE"] c (VolumeId volume))
        (ebs_iteration cfg c volume).
Proof.
  unfold ebs_iteration.
  apply gated_bind; [reflexivity | apply gated_mild; mild | intros _].
  destruct (existsb _ _); [apply gated_mild; mild|].
  destruct (ignore_tagged _); [apply gated_mild; mild|].
  apply gated_isolate. unfold ebs_check. cbv zeta.
  destruct (String.eqb _ "in-use"); [apply gated_mild; mild|].
  destruct (String.eqb _ "available"); [|apply gated_mild; mild].
  apply gated_bind; [reflexivity | apply gated_mild; mild | intros _].
  apply gated_history. short_streak tt.
Qed.

Lemma lb_iteration_gated (lb : LoadBalancer) :
  gated (LB_IDLE_CHECKS sw)
        (streak_seen ["IDLE"; "IDLE_WARNING"] ["ACTIVE"] c (LoadBalancerArn lb))
        (lb_iteration cfg sw c lb).
Proof.
  unfold lb_iteration.
  apply gated_bind; [reflexivity | apply gated_mild; mild | intros _].
  cbv zeta. destruct (ignore_tagged _); [apply gated_mild; mild|].
  apply gated_isolate. unfold lb_check. apply gated_history.
  short_streak tt.
Qed.

Lemma vpc_iteration_gated (vpc : Vpc) :
  gated (VPC_IDLE_CHECKS sw)
        (streak_seen ["EMPTY"; "EMPTY_WARNING"] ["ACTIVE"] c (VpcId vpc))
        (vpc_iteration cfg sw c vpc).
Proof.
  unfold vpc_iteration.
  apply gated_bind; [reflexivity | apply gated_mild; mild | intros _].
  destruct (IsDefault vpc); [apply gated_mild; mild|].
  destruct (ignore_tagged _); [apply gated_mild; mild|].
  apply gated_isolate. unfold vpc_check. apply gated_history.
  short_streak tt.
Qed.

End Thresholds.

(** X25 (three observations before destruction). A NAT gateway, an
    Elastic IP, a database, a bucket or a volume is snapshotted, stopped
    or destroyed by its step only when the history read from the table
    already shows three consecutive observations of idleness: the
    threshold is the literal 3, whatever [IDLE_CHECKS_BEFORE_ACTION]
    says. *)
Theorem destruction_needs_three_observations (cfg : Decision.Config)
    (c : Monitor.Cloud) :
  (forall nat_gw,
     Terms.gated 3
       (Terms.streak_seen ["IDLE"; "IDLE_WARNING"] ["ACTIVE"] c
          (Monitor.NatGatewayId nat_gw))
       (Monitor.nat_iteration cfg c nat_gw)) /\
  (forall eip,
     Terms.gated 3
       (Terms.streak_seen ["UNATTACHED"] ["ATTACHED"] c (Monitor.AllocationId eip))
       (Monitor.eip_iteration c eip)) /\
  (forall db,
     Terms.gated 3
       (Terms.streak_seen ["IDLE"; "IDLE_WARNING"] ["ACTIVE"] c
          (Monitor.DBInstanceIdentifier db))
       (Monitor.rds_iteration cfg c db)) /\
  (forall bucket_name,
     Terms.gated 3
       (Terms.streak_seen ["EMPTY"] ["HAS_DATA"; "ACTIVE"] c bucket_name)
       (Monitor.s3_iteration c bucket_name)) /\
  (forall volume,
     Terms.gated 3
       (Terms.streak_seen ["AVAILABLE"] ["IN_USE"] c (Monitor.VolumeId volume))
       (Monitor.ebs_iteration cfg c volume)).
Proof.
  repeat split; intros resource.
  - apply nat_iteration_gated.
  - apply eip_iteration_gated.
  - apply rds_iteration_gated.
  - apply s3_iteration_gated.
  - apply ebs_iteration_gated.
Qed.

(** X26 (switchable thresholds). A load balancer is deleted by its step
    only when the history shows at least [LB_IDLE_CHECKS] consecutive idle
    observations, and a VPC only when it shows at least [VPC_IDLE_CHECKS]
    consecutive empty observations. *)
Theorem deletion_follows_switches (cfg : Decision.Config) (sw : Monitor.Switches)
    (c : Monitor.Cloud) :
  (forall lb,
     Terms.gated (Monitor.LB_IDLE_CHECKS sw)
       (Terms.streak_seen ["IDLE"; "IDLE_WARNING"] ["ACTIVE"] c
          (Monitor.LoadBalancerArn lb))
       (Monitor.lb_iteration cfg sw c lb)) /\
  (forall vpc,
     Terms.gated (Monitor.VPC_IDLE_CHECKS sw)
       (Terms.streak_seen ["EMPTY"; "EMPTY_WARNING"] ["ACTIVE"] c
          (Monitor.VpcId vpc))
       (Monitor.vpc_iteration cfg sw c vpc)).
Proof.
  split; intros resource.
  - apply lb_iteration_gated.
  - apply vpc_iteration_gated.
Qed.

Section CycleErrors.

Import Decision Monitor Props Terms.

Variable cfg : Config.
Variable sw : Switches.
Variable c : Cloud.
Variable tbl : Table.

Lemma validate_configuration_ok (st : State) :
  config_ok c (table st) = true ->
  validate_configuration c st = (Ok true, st).
Proof.
  unfold config_ok. intros Hok.
  apply andb_prop in Hok as [Hok Hsns]. apply andb_prop in Hok as [Hs3 Hup].
  unfold validate_configuration. now rewrite Hs3, Hup, Hsns.
Qed.

End CycleErrors.

(** X27 (failure of the instance listing). When [describe_instances]
    raises, the cycle answers 500 with the error and has done nothing:
    no request has been issued, for EC2 or for any other kind of
    resource, and the table is unchanged. *)
Theorem listing_failure_aborts_cycle (cfg : Decision.Config)
    (sw : Monitor.Switches) (c : Monitor.Cloud) (tbl : Table) (e : string) :
  Props.config_ok c tbl = true ->
  Monitor.describe_instances c = Raise e ->
  (Monitor.lambda_handler cfg sw c (Monitor.initial_state tbl)).1
  = Ok (Monitor.mkResponse 500 None (Some ("Error: " ++ e))) /\
  Monitor.calls (Monitor.lambda_handler cfg sw c (Monitor.initial_state tbl)).2
  = [] /\
  Monitor.table (Monitor.lambda_handler cfg sw c (Monitor.initial_state tbl)).2
  = tbl.
Proof.
  intros Hok Hdesc. unfold Monitor.lambda_handler.
  unfold mbind, Monitor.M_bind, Monitor.bind.
  rewrite (validate_configuration_ok c (Monitor.initial_state tbl) Hok).
  cbn [Monitor.set_local]. unfold Monitor.try_except, Monitor.run_steps.
  rewrite Hdesc. cbn. auto.
Qed.

Lemma listing_failure_aborts_cycle_witness :
  (Monitor.lambda_handler (Decision.source_config "backups")
     Monitor.source_switches Terms.listing_down
     (Monitor.initial_state Terms.idle_log)).1
  = Ok (Monitor.mkResponse 500 None (Some ("Error: " ++ "ClientError"))) /\
  Monitor.calls
    (Monitor.lambda_handler (Decision.source_config "backups")
       Monitor.source_switches Terms.listing_down
       (Monitor.initial_state Terms.idle_log)).2
  = [] /\
  Monitor.table
    (Monitor.lambda_handler (Decision.source_config "backups")
       Monitor.source_switches Terms.listing_down
       (Monitor.initial_state Terms.idle_log)).2
  = Terms.idle_log.
Proof.
  apply listing_failure_aborts_cycle; reflexivity.
Defined.

Section Unbound.

Import Decision Monitor Props Terms.

Variable name : string.

Lemma unbound_same {A : Type} (m : M A) :
  (forall st, locals (m st).2 = locals st) -> leaves_unbound name m.
Proof. intros H st Hst. now rewrite H. Qed.

Lemma unbound_ret {A : Type} (a : A) : leaves_unbound name (mret a : M A).
Proof. now apply unbound_same. Qed.

Lemma unbound_raise {A : Type} (e : string) : leaves_unbound name (raise e : M A).
Proof. now apply unbound_same. Qed.

Lemma unbound_issue (call : Call) : leaves_unbound name (issue call).
Proof. now apply unbound_same. Qed.

Lemma unbound_read_local (other : string) : leaves_unbound name (read_local other).
Proof.
  apply unbound_same. intros st. unfold read_local.
  now destruct (locals st !! other).
Qed.

Lemma unbound_in_locals (other : string) : leaves_unbound name (in_locals other).
Proof. now apply unbound_same. Qed.

Lemma unbound_put_item (c : Cloud) (it : Item) : leaves_unbound name (put_item c it).
Proof.
  apply unbound_same. intros st. unfold put_item. now destruct (_ || _).
Qed.

Lemma unbound_resource_history (c : Cloud) (resource_id : string) :
  leaves_unbound name (resource_history c resource_id).
Proof. now apply unbound_same. Qed.

Lemma unbound_bump (other key : string) :
  other <> name -> leaves_unbound name (bump other key).
Proof. intros Hne st Hst. cbn. now rewrite lookup_insert_ne. Qed.

Lemma unbound_set_key (other key : string) (value : Z) :
  other <> name -> leaves_unbound name (set_key other key value).
Proof. intros Hne st Hst. cbn. now rewrite lookup_insert_ne. Qed.

Lemma unbound_set_local (other : string) (d : list (string * Z)) :
  other <> name -> leaves_unbound name (set_local other d).
Proof. intros Hne st Hst. cbn. now rewrite lookup_insert_ne. Qed.

Lemma unbound_bind {A B : Type} (m : M A) (k : A -> M B) :
  leaves_unbound name m -> (forall a, leaves_unbound name (k a)) ->
  leaves_unbound name (m ≫= k).
Proof.
  intros Hm Hk st Hst. specialize (Hm st Hst).
  unfold mbind, M_bind, bind. destruct (m st) as [[a|e] st']; cbn [snd] in *.
  - now apply Hk.
  - exact Hm.
Qed.

Lemma unbound_try_except {A : Type} (body : M A) (handler : string -> M A) :
  leaves_unbound name body -> (forall e, leaves_unbound name (handler e)) ->
  leaves_unbound name (try_except body handler).
Proof.
  intros Hb Hh st Hst. specialize (Hb st Hst). unfold try_except.
  destruct (body st) as [[a|e] st']; cbn [snd] in *.
  - exact Hb.
  - now apply Hh.
Qed.

Lemma unbound_when (cond : bool) (body : M unit) :
  leaves_unbound name body -> leaves_unbound name (when cond body).
Proof. intros H. destruct cond; [exact H | apply unbound_ret]. Qed.

Lemma unbound_isolate (other : string) (body : M unit) :
  other <> name -> leaves_unbound name body ->
  leaves_unbound name (isolate other body).
Proof.
  intros Hne H. apply unbound_try_except; [exact H|].
  intros e. now apply unbound_bump.
Qed.

Lemma unbound_for_each {R : Type} (body : R -> M unit) (xs : list R) :
  (forall x, leaves_unbound name (body x)) -> leaves_unbound name (for_each body xs).
Proof.
  intros H. induction xs as [|x rest IH]; cbn [for_each].
  - apply unbound_ret.
  - apply unbound_bind; [apply H | intros _; exact IH].
Qed.

End Unbound.

Ltac unbound_step :=
  first
    [ apply unbound_bind; [|intros ?]
    | apply unbound_ret
    | apply unbound_raise
    | apply unbound_issue
    | apply unbound_read_local
    | apply unbound_in_locals
    | apply unbound_put_item
    | apply unbound_resource_history
    | apply unbound_bump; discriminate
    | apply unbound_set_key; discriminate
    | apply unbound_set_local; discriminate
    | apply unbound_when
    | apply unbound_isolate; [discriminate|]
    | apply unbound_try_except; [|intros ?]
    | apply unbound_for_each; intros ?
    | match goal with
      | |- Terms.leaves_unbound _ (if ?b then _ else _) => destruct b
      | |- Terms.leaves_unbound _ (match ?x with _ => _ end) => destruct x
      | |- Terms.leaves_unbound _ (let _ := _ in _) => cbv zeta
      end ].

Ltac unbound_auto := repeat unbound_step.

Section IterationsLeaveUnbound.

Import Decision Monitor Props Terms.

Variable cfg : Config.
Variable sw : Switches.
Variable c : Cloud.

Lemma unbound_ec2_iteration (instance : Instance) :
  leaves_unbound "lb_stats" (ec2_iteration cfg c instance).
Proof.
  unfold ec2_iteration, ec2_check, ec2_decide, ec2_execute, ec2_delete.
  unbound_auto.
Qed.

Lemma unbound_nat_iteration (nat_gw : NatGateway) :
  leaves_unbound "lb_stats" (nat_iteration cfg c nat_gw).
Proof. unfold nat_iteration, nat_check. unbound_auto. Qed.

Lemma unbound_eip_iteration (eip : Address) :
  leaves_unbound "lb_stats" (eip_iteration c eip).
Proof. unfold eip_iteration, eip_check. unbound_auto. Qed.

Lemma unbound_rds_iteration (db : DBInstance) :
  leaves_unbound "lb_stats" (rds_iteration cfg c db).
Proof. unfold rds_iteration, rds_check. unbound_auto. Qed.

Lemma unbound_s3_iteration (bucket_name : string) :
  leaves_unbound "lb_stats" (s3_iteration c bucket_name).
Proof. unfold s3_iteration, s3_check. unbound_auto. Qed.

Lemma unbound_ebs_iteration (volume : Volume) :
  leaves_unbound "lb_stats" (ebs_iteration cfg c volume).
Proof. unfold ebs_iteration, ebs_check. unbound_auto. Qed.

Lemma unbound_vpc_iteration (vpc : Vpc) :
  leaves_unbound "lb_stats" (vpc_iteration cfg sw c vpc).
Proof. unfold vpc_iteration, vpc_check. unbound_auto. Qed.

(** Printing the summary of a dictionary that was never created. *)
Lemma print_summary_unbound {B : Type} (name : string) (rest : M B) (st : State) :
  locals st !! name = None ->
  (print_summary name ;; rest) st = (Raise "NameError", st).
Proof.
  intros H. unfold print_summary, mbind, M_bind, bind, read_local.
  now rewrite H.
Qed.

End IterationsLeaveUnbound.

Ltac unbound_full :=
  repeat first
    [ apply unbound_ec2_iteration | apply unbound_nat_iteration
    | apply unbound_eip_iteration | apply unbound_rds_iteration
    | apply unbound_s3_iteration | apply unbound_ebs_iteration
    | apply unbound_vpc_iteration
    | progress unfold Monitor.print_summary
    | unbound_step ].

(** The variable is unbound after a step if it was unbound before. *)
Ltac peel :=
  match goal with
  | |- Monitor.locals (?m ?s).2 !! ?n = None =>
      let H := fresh in
      assert (H : Terms.leaves_unbound n m) by (solve [unbound_full]);
      apply H; clear H
  end.

Section LoadBalancersOff.

Import Decision Monitor Props Terms.

Variable cfg : Config.
Variable sw : Switches.
Variable c : Cloud.
Variable st0 : State.
Variable all_instances : list Instance.

Hypothesis Hdesc : describe_instances c = Ok all_instances.
Hypothesis Hoff : ENABLE_LB_MONITORING sw = false.
Hypothesis Hunbound : locals st0 !! "lb_stats" = None.

(** With load-balancer monitoring off the steps run up to the summary of
    [lb_stats] and fail there. *)
Lemma run_steps_lb_off :
  (run_steps cfg sw c st0).1 = Raise "NameError".
Proof.
  unfold run_steps. rewrite Hdesc, Hoff.
  do 6 skip. destruct (get_all_rds_instances c) as [rds_instances rds_client].
  do 6 skip.
  change (when false _) with (mret tt : M unit). skip.
  match goal with
  | |- ((?V ;; _) ?S).1 = _ => set (s := S); set (vpc_step := V)
  end.
  assert (Hvpc : exists a, (vpc_step s).1 = Ok a).
  { unfold vpc_step. destruct (ENABLE_VPC_CLEANUP sw); [|now exists tt].
    rewrite when_true. do 2 skip.
    apply print_summary_bound. bound_tac. }
  rewrite (run_seq_at _ _ _ Hvpc).
  rewrite print_summary_unbound; [reflexivity|].
  unfold vpc_step, s. repeat peel. exact Hunbound.
Qed.

End LoadBalancersOff.

(** X28 (load-balancer monitoring switched off). The summary of
    [lb_stats] is printed whether or not the load-balancer step ran.  With
    [ENABLE_LB_MONITORING] off the dictionary was never created, so every
    cycle ends in the handler's [except] and answers 500, after the steps
    for instances, NAT gateways, addresses, buckets and volumes have been
    carried out. *)
Theorem lb_monitoring_off_answers_500 (cfg : Decision.Config)
    (sw : Monitor.Switches) (c : Monitor.Cloud) (tbl : Table)
    (all_instances : list Monitor.Instance) :
  Props.config_ok c tbl = true ->
  Monitor.describe_instances c = Ok all_instances ->
  Monitor.ENABLE_LB_MONITORING sw = false ->
  (Monitor.lambda_handler cfg sw c (Monitor.initial_state tbl)).1
  = Ok (Monitor.mkResponse 500 None (Some ("Error: " ++ "NameError"))) /\
  (forall instance, In instance all_instances ->
     Props.visited "EC2" (Monitor.InstanceId instance)
       (Monitor.lambda_handler cfg sw c (Monitor.initial_state tbl)).2) /\
  (forall nat_gw, In nat_gw (Monitor.get_all_nat_gateways c) ->
     Props.visited "NAT_GATEWAY" (Monitor.NatGatewayId nat_gw)
       (Monitor.lambda_handler cfg sw c (Monitor.initial_state tbl)).2) /\
  (forall eip, In eip (Monitor.get_all_elastic_ips c) ->
     Props.visited "ELASTIC_IP" (Monitor.AllocationId eip)
       (Monitor.lambda_handler cfg sw c (Monitor.initial_state tbl)).2) /\
  (forall bucket_name, In bucket_name (Monitor.get_all_s3_buckets c) ->
     Props.visited "S3_BUCKET" bucket_name
       (Monitor.lambda_handler cfg sw c (Monitor.initial_state tbl)).2) /\
  (forall volume, In volume (Monitor.get_all_ebs_volumes c) ->
     Props.visited "EBS_VOLUME" (Monitor.VolumeId volume)
       (Monitor.lambda_handler cfg sw c (Monitor.initial_state tbl)).2).
Proof.
  intros Hok Hdesc Hoff.
  set (st1 := (Monitor.set_local "stats"
                 [ ("total_instances", 0); ("active_instances", 0);
                   ("idle_instances", 0); ("backed_up", 0); ("errors", 0) ]
                 (Monitor.initial_state tbl)).2).
  assert (Monitor.lambda_handler cfg sw c (Monitor.initial_state tbl)
          = (Ok (Monitor.mkResponse 500 None (Some ("Error: " ++ "NameError"))),
             (Monitor.run_steps cfg sw c st1).2)) as Hrun.
  { assert ((Monitor.run_steps cfg sw c st1).1 = Raise "NameError") as Hraise.
    { apply (run_steps_lb_off cfg sw c st1 all_instances Hdesc Hoff).
      unfold st1. cbn. rewrite lookup_insert_ne by discriminate.
      apply lookup_empty. }
    unfold Monitor.lambda_handler.
    rewrite run_seq_at
      by (rewrite (validate_configuration_ok c (Monitor.initial_state tbl) Hok);
          now exists true).
    rewrite (validate_configuration_ok c (Monitor.initial_state tbl) Hok).
    cbn [snd]. skip. fold st1. unfold Monitor.try_except.
    destruct (Monitor.run_steps cfg sw c st1) as [r s]. cbn [fst snd] in *.
    subst r. reflexivity. }
  rewrite Hrun. cbn [fst snd]. split; [reflexivity|].
  split; [|split; [|split; [|split]]]; intros resource Hin.
  - now apply (run_steps_visits_ec2 cfg sw c st1 all_instances Hdesc).
  - now apply (run_steps_visits_nat cfg sw c st1 all_instances Hdesc).
  - now apply (run_steps_visits_eip cfg sw c st1 all_instances Hdesc).
  - now apply (run_steps_visits_s3 cfg sw c st1 all_instances Hdesc).
  - now apply (run_steps_visits_ebs cfg sw c st1 all_instances Hdesc).
Qed.

Lemma lb_monitoring_off_answers_500_witness :
  (Monitor.lambda_handler (Decision.source_config "backups")
     Terms.lb_monitoring_off Terms.idle_account
     (Monitor.initial_state Terms.idle_log)).1
  = Ok (Monitor.mkResponse 500 None (Some ("Error: " ++ "NameError"))).
Proof.
  pose proof (lb_monitoring_off_answers_500 (Decision.source_config "backups")
                Terms.lb_monitoring_off Terms.idle_account Terms.idle_log
                [Monitor.mkInstance "i-001" "running" [] "t3.micro"]
                eq_refl eq_refl eq_refl) as [H _].
  exact H.
Defined.

Section HistoryAfterPut.

Import Decision Monitor Props Terms.

(** An item older than the last item of a list goes in before it. *)
Lemma insert_before_last (x r : Item) (l : list Item) :
  Timestamp x < Timestamp r ->
  insert_by_timestamp x (l ++ [r]) = (insert_by_timestamp x l ++ [r])%list.
Proof.
  intros Hlt. induction l as [|y l IH]; cbn [app insert_by_timestamp].
  - apply Z.ltb_lt in Hlt. now rewrite Hlt.
  - destruct (Timestamp x <? Timestamp y); [reflexivity|]. now rewrite IH.
Qed.

Lemma sort_before_last (r : Item) (olds : list Item) :
  (forall x, In x olds -> Timestamp x < Timestamp r) ->
  fold_right insert_by_timestamp [r] olds
  = (fold_right insert_by_timestamp [] olds ++ [r])%list.
Proof.
  induction olds as [|x olds IH]; intros Hold; cbn [fold_right]; [reflexivity|].
  rewrite IH by (intros y Hy; apply Hold; now right).
  apply insert_before_last. apply Hold. now left.
Qed.

(** Items that the query selects are not replaced by a newer item of the
    same resource. *)
Lemma filter_replaced (r : Item) (cutoff : Z) (l : list Item) :
  (forall x, In x l -> ResourceId x = ResourceId r -> Timestamp x < Timestamp r) ->
  List.filter (fun it => String.eqb (ResourceId it) (ResourceId r) &&
                         (cutoff <=? Timestamp it))
              (List.filter (fun x => negb (same_key x r)) l)
  = List.filter (fun it => String.eqb (ResourceId it) (ResourceId r) &&
                           (cutoff <=? Timestamp it)) l.
Proof.
  induction l as [|x l IH]; intros Hold; [reflexivity|].
  cbn [List.filter].
  assert (forall y, In y l -> ResourceId y = ResourceId r ->
                    Timestamp y < Timestamp r) as Hrest
    by (intros y Hy; apply Hold; now right).
  destruct (String.eqb (ResourceId x) (ResourceId r)) eqn:Eid.
  - apply String.eqb_eq in Eid.
    assert (same_key x r = false) as ->.
    { unfold same_key. apply andb_false_iff. right. apply Z.eqb_neq.
      specialize (Hold x (or_introl eq_refl) Eid). lia. }
    cbn [negb List.filter]. apply String.eqb_eq in Eid. rewrite Eid.
    now rewrite IH.
  - cbn [andb]. destruct (negb (same_key x r)); cbn [List.filter].
    + rewrite Eid. cbn [andb]. now apply IH.
    + now apply IH.
Qed.

(** The history of a resource after a record newer than all its records
    has been written: the history before, then the record. *)
Lemma history_after_put (c c' : Cloud) (r : Item) (st : State) :
  put_item_raises c r = false ->
  reachable (table st) = true ->
  query_raises c' (ResourceId r) = false ->
  (forall x, In x (items (table st)) -> ResourceId x = ResourceId r ->
             Timestamp x < Timestamp r) ->
  py_int (now c' - inject_Z (30 * 86400)) <= Timestamp r ->
  history_seen c' (table (put_item c r st).2) (ResourceId r)
  = (history_seen c' (table st) (ResourceId r) ++ [r])%list.
Proof.
  intros Hput Hup Hquery Hold Hwindow.
  rewrite put_item_ok by assumption. cbn [snd table].
  unfold history_seen, get_resource_history, table_query.
  cbn [items reachable]. rewrite Hup, Hquery. cbn [andb negb].
  rewrite List.filter_app, filter_replaced by exact Hold.
  cbn [List.filter]. rewrite String.eqb_refl.
  apply Z.leb_le in Hwindow. rewrite Hwindow. cbn [andb].
  rewrite fold_right_app. cbn [fold_right insert_by_timestamp].
  apply sort_before_last.
  intros x Hx. apply filter_In in Hx. destruct Hx as [Hx Hsel].
  apply andb_true_iff in Hsel. destruct Hsel as [Hid _].
  apply String.eqb_eq in Hid. now apply Hold.
Qed.

End HistoryAfterPut.

Section NextCycle.

Import Decision Monitor Props Terms.



Lemma put_item_table (c : Cloud) (r : Item) (st st' : State) :
  table st = table st' -> table (put_item c r st).2 = table (put_item c r st').2.
Proof.
  intros H. unfold put_item. rewrite H.
  now destruct (_ || _).
Qed.


End NextCycle.



Section NatStreak.

Import Decision Monitor Props Terms.

Lemma record_status_attr (c : Cloud) (resource_id resource_type status : string)
    (more : list (string * Value)) :
  attrs (record c resource_id resource_type status more) !! "Status"
  = Some (VStr status).
Proof.
  unfold record. cbn [attrs list_to_map foldr fst snd].
  rewrite lookup_insert_ne by discriminate. now rewrite lookup_insert_eq.
Qed.

(** A step that leaves the table alone, after another step. *)
Lemma table_after_quiet {A B : Type} (m : M A) (k : A -> M B) (st : State) :
  (forall a s, table (k a s).2 = table s) ->
  table ((m ≫= k) st).2 = table (m st).2.
Proof.
  intros Hk. unfold mbind, M_bind, bind.
  destruct (m st) as [[a|e] s]; cbn [snd]; [apply Hk | reflexivity].
Qed.

Lemma resource_history_run (c : Cloud) (resource_id : string) (st : State) :
  resource_history c resource_id st
  = (Ok (history_seen c (table st) resource_id), st).
Proof. reflexivity. Qed.

(** The table a NAT gateway check leaves when it records an observation. *)
Lemma nat_check_table (cfg : Config) (c : Cloud) (nat_gw : NatGateway)
    (st : State) :
  (check_nat_gateway_usage c (NatGatewayId nat_gw) = false ->
   table (nat_check cfg c nat_gw st).2
   = table (put_item c (record c (NatGatewayId nat_gw) "NAT_GATEWAY" "ACTIVE" [])
              st).2) /\
  (check_nat_gateway_usage c (NatGatewayId nat_gw) = true ->
   streak_seen ["IDLE"; "IDLE_WARNING"] ["ACTIVE"] c (NatGatewayId nat_gw)
     (table st) < 3 ->
   exists more,
     table (nat_check cfg c nat_gw st).2
     = table (put_item c
                (record c (NatGatewayId nat_gw) "NAT_GATEWAY" "IDLE_WARNING" more)
                st).2).
Proof.
  split.
  - intros Hbusy. unfold nat_check. cbv zeta. rewrite Hbusy. cbn [negb].
    unfold mbind at 1, M_bind at 1, bind at 1.
    rewrite resource_history_run. cbv beta iota.
    rewrite run_seq by apply safe_bump.
    now apply put_item_table.
  - intros Hfree Hshort. unfold nat_check. cbv zeta. rewrite Hfree. cbn [negb].
    unfold mbind at 1, M_bind at 1, bind at 1.
    rewrite resource_history_run. cbv beta iota.
    unfold streak_seen in Hshort. apply Z.ltb_lt in Hshort. rewrite Hshort.
    rewrite run_seq by apply safe_bump.
    rewrite run_seq by apply safe_issue.
    rewrite table_after_quiet by (intros a s; now destruct (_ =? _)).
    eexists. now apply put_item_table.
Qed.

End NatStreak.

(** X30 (how the streak of a NAT gateway moves). The record a check
    writes for a NAT gateway is what the next check counts: after a check
    that found traffic the streak read from the table is 0, and after a
    check that found the gateway idle with a streak below three it is the
    streak of the older records plus one. *)
Theorem nat_streak_follows_observations (cfg : Decision.Config)
    (c later : Monitor.Cloud) (nat_gw : Monitor.NatGateway) (st : Monitor.State) :
  reachable (Monitor.table st) = true ->
  (forall it, Monitor.put_item_raises c it = false) ->
  Monitor.query_raises later (Monitor.NatGatewayId nat_gw) = false ->
  (forall it, In it (items (Monitor.table st)) ->
              ResourceId it = Monitor.NatGatewayId nat_gw ->
              Timestamp it < Decision.py_int (Monitor.now c)) ->
  Decision.py_int (Monitor.now later - inject_Z (30 * 86400))
  <= Decision.py_int (Monitor.now c) ->
  (Monitor.check_nat_gateway_usage c (Monitor.NatGatewayId nat_gw) = false ->
   Terms.streak_seen ["IDLE"; "IDLE_WARNING"] ["ACTIVE"] later
     (Monitor.NatGatewayId nat_gw)
     (Monitor.table (Monitor.nat_check cfg c nat_gw st).2) = 0) /\
  (Monitor.check_nat_gateway_usage c (Monitor.NatGatewayId nat_gw) = true ->
   Terms.streak_seen ["IDLE"; "IDLE_WARNING"] ["ACTIVE"] c
     (Monitor.NatGatewayId nat_gw) (Monitor.table st) < 3 ->
   Terms.streak_seen ["IDLE"; "IDLE_WARNING"] ["ACTIVE"] later
     (Monitor.NatGatewayId nat_gw)
     (Monitor.table (Monitor.nat_check cfg c nat_gw st).2)
   = Terms.streak_seen ["IDLE"; "IDLE_WARNING"] ["ACTIVE"] later
       (Monitor.NatGatewayId nat_gw) (Monitor.table st) + 1).
Proof.
  intros Hup Hput Hquery Hold Hwindow.
  destruct (nat_check_table cfg c nat_gw st) as [Hactive Hidle].
  split.
  - intros Hbusy. rewrite (Hactive Hbusy). unfold Terms.streak_seen.
    set (r := Monitor.record c (Monitor.NatGatewayId nat_gw) "NAT_GATEWAY"
                "ACTIVE" []).
    change (Monitor.NatGatewayId nat_gw) with (ResourceId r).
    rewrite (history_after_put c later r st); try assumption; try apply Hput.
    rewrite rev_app_distr. cbn [rev app Monitor.count_streak].
    unfold r. rewrite record_status_attr. reflexivity.
  - intros Hfree Hshort. destruct (Hidle Hfree Hshort) as [more ->].
    unfold Terms.streak_seen.
    set (r := Monitor.record c (Monitor.NatGatewayId nat_gw) "NAT_GATEWAY"
                "IDLE_WARNING" more).
    change (Monitor.NatGatewayId nat_gw) with (ResourceId r).
    rewrite (history_after_put c later r st); try assumption; try apply Hput.
    rewrite rev_app_distr. cbn [rev app Monitor.count_streak].
    unfold r at 1. rewrite record_status_attr.
    cbn [val_in val_is existsb String.eqb Ascii.eqb Bool.eqb orb]. lia.
Qed.

Lemma nat_streak_follows_observations_witness :
  Terms.streak_seen ["IDLE"; "IDLE_WARNING"] ["ACTIVE"] Terms.next_day "nat-0a1"
    (Monitor.table
       (Monitor.nat_check (Decision.source_config "backups") Props.backup_outage
          (Monitor.mkNat "nat-0a1" [])
          (Monitor.initial_state Terms.one_warning_log)).2)
  = Terms.streak_seen ["IDLE"; "IDLE_WARNING"] ["ACTIVE"] Terms.next_day "nat-0a1"
      Terms.one_warning_log + 1.
Proof.
  pose proof (nat_streak_follows_observations (Decision.source_config "backups")
                Props.backup_outage Terms.next_day (Monitor.mkNat "nat-0a1" [])
                (Monitor.initial_state Terms.one_warning_log)) as H.
  apply H.
  - reflexivity.
  - reflexivity.
  - reflexivity.
  - intros it Hin Hid. cbn in Hin.
    repeat (destruct Hin as [<- | Hin]; [vm_compute; reflexivity|]).
    contradiction.
  - vm_compute. discriminate.
  - reflexivity.
  - vm_compute. reflexivity.
Defined.
